(** * Search and pricing engine of the agro-gram marketplace

  A shallow embedding of [marketplace/ai_search.py] (classes
  [PromptBasedSearchAI] and [PricePredictor]), of the prediction views,
  the price history and the cart views of [marketplace/views.py], and of
  the serializers and model methods they use, together with the parts of
  Python and Django they rely on.

  Conventions.
  - A Python [str] is a [string]; a character is a code point below 256.
    Nothing is stated of a string that holds only for this alphabet.
  - A Python [float] and a Django [Decimal] are exact rationals ([Q]): a
    float is read as the rational it approximates.  [round2] rounds the
    exact value where Python rounds its binary64 approximation, and the
    two can be a cent apart when the exact value lies halfway between two
    cents; so a rounded price is stated up to half a cent, never to the
    digit.  Module [Binary64] computes the confidence of a prediction in
    IEEE 754 double precision as well, to compare the two.
  - A Python [dict] with string keys is an association list.
  - Code that can raise returns a [result]; [try_except] is the
    [try: ... except Exception: ...] statement. *)

From Stdlib Require Import List String Ascii Bool Arith ZArith QArith Qabs Qround Lia Lqa.
From Stdlib Require Import DecimalString Floats.SpecFloat.
Import ListNotations.

Close Scope Q_scope.
Open Scope string_scope.
Open Scope nat_scope.

(** ** Python values and exceptions *)

Module Py.

Inductive exn : Type :=
| NameError (name : string)
| AttributeError (attr : string)
| FieldError (keyword : string)
| TypeError (msg : string)
| KeyError (key : string)
| DoesNotExist
| RuntimeError (msg : string).

Inductive result (A : Type) : Type :=
| Ok (a : A)
| Raise (e : exn).
Arguments Ok {A} a.
Arguments Raise {A} e.

Definition bind {A B} (m : result A) (k : A -> result B) : result B :=
  match m with
  | Ok a => k a
  | Raise e => Raise e
  end.

(** [try: body  except Exception as e: handler e] *)
Definition try_except {A} (body : result A) (handler : exn -> result A) : result A :=
  match body with
  | Ok a => Ok a
  | Raise e => handler e
  end.

(** *** [str] methods *)

(** [str.isspace] on one code point below 256. *)
Definition isspace (c : ascii) : bool :=
  let n := nat_of_ascii c in
  ((9 <=? n) && (n <=? 13)) || ((28 <=? n) && (n <=? 32))
  || (n =? 133) || (n =? 160).

(** [str.lower] on one code point below 256: the letters A-Z and the
    Latin-1 capitals (except the multiplication sign) move by 32. *)
Definition lower_char (c : ascii) : ascii :=
  let n := nat_of_ascii c in
  if ((65 <=? n) && (n <=? 90))
     || ((192 <=? n) && (n <=? 222) && negb (n =? 215))
  then ascii_of_nat (n + 32) else c.

Fixpoint lower (s : string) : string :=
  match s with
  | EmptyString => EmptyString
  | String c s' => String (lower_char c) (lower s')
  end.

Fixpoint lstrip (s : string) : string :=
  match s with
  | EmptyString => EmptyString
  | String c s' => if isspace c then lstrip s' else s
  end.

Fixpoint rstrip (s : string) : string :=
  match s with
  | EmptyString => EmptyString
  | String c s' =>
      match rstrip s' with
      | EmptyString => if isspace c then EmptyString else String c EmptyString
      | t => String c t
      end
  end.

Definition strip (s : string) : string := rstrip (lstrip s).

(** [s.split()]: the maximal runs of non-space characters, in order.
    [cur] is the word being read, reversed. *)
Fixpoint split_aux (s : string) (cur : list ascii) : list string :=
  let flush := match cur with
               | [] => []
               | _ => [string_of_list_ascii (rev cur)]
               end in
  match s with
  | EmptyString => flush
  | String c s' =>
      if isspace c then flush ++ split_aux s' []
      else split_aux s' (c :: cur)
  end.

Definition split (s : string) : list string := split_aux s [].

(** [t in s] for two strings: [t] occurs in [s] as a substring. *)
Fixpoint str_in (t s : string) : bool :=
  if prefix t s then true
  else match s with
       | EmptyString => false
       | String _ s' => str_in t s'
       end.

(** [x in xs] for a string and a list or set of strings. *)
Definition mem (x : string) (xs : list string) : bool :=
  existsb (String.eqb x) xs.

(** *** Numbers *)

Definition Qltb (x y : Q) : bool := negb (Qle_bool y x).

(** [x <= y] *)
Definition Qleb (x y : Q) : bool := Qle_bool x y.

(** [max(a, b)]: [b] when [b > a], otherwise [a]. *)
Definition max (a b : Q) : Q := if Qltb a b then b else a.

(** [abs(x)] *)
Definition abs (x : Q) : Q := Qabs x.

(** [round(x, 2)] of an exact rational: the nearest multiple of 1/100,
    ties to the even one.  Python's [round] starts from the binary64
    value, which is never exactly halfway, so at a tie it can give the
    other neighbour; both are within half a cent of [x]. *)
Definition round_half_even (x : Q) : Z :=
  let f := Qfloor x in
  let r := (x - inject_Z f)%Q in
  if Qltb r (1 # 2)%Q then f
  else if Qltb (1 # 2)%Q r then (f + 1)%Z
  else if Z.even f then f else (f + 1)%Z.

Definition round2 (x : Q) : Q := (inject_Z (round_half_even (x * 100)) / 100)%Q.

(** Truth value of an optional [Decimal]: [None] and zero are false. *)
Definition truthy_decimal (d : option Q) : bool :=
  match d with
  | None => false
  | Some q => negb (Qeq_bool q 0%Q)
  end.

(** Truth value of an optional [str]: [None] and the empty string are false. *)
Definition truthy_str (s : option string) : bool :=
  match s with
  | None => false
  | Some EmptyString => false
  | Some _ => true
  end.

End Py.

Notation "x <- m ;; k" := (Py.bind m (fun x => k))
(at level 61, m at next level, right associativity).

(** ** Query parser: [PromptBasedSearchAI._parse_natural_language] *)

Module QueryParser.
Import Py.

Record Parsed : Type := mkParsed {
  keywords : list string;
  category : option string;
  price_range : option string;
  quality : option string;
  location : option string
}.

Definition price_indicators : list string :=
  ["cheap"; "expensive"; "affordable"; "budget"; "premium"].

Definition low_indicators : list string := ["cheap"; "affordable"; "budget"].

(** The value an indicator assigns to [parsed['price_range']]. *)
Definition price_band (indicator : string) : string :=
  if mem indicator low_indicators then "low" else "high".

(** One iteration of the price loop: a matching indicator overwrites
    whatever an earlier one stored. *)
Definition price_step (query : string) (acc : option string) (indicator : string)
  : option string :=
  if str_in indicator query then Some (price_band indicator) else acc.

Definition scan_price (indicators : list string) (query : string) : option string :=
  fold_left (price_step query) indicators None.

(** [quality_terms], in the insertion order of the dict literal. *)
Definition quality_terms : list (string * string) :=
  [("premium", "PREMIUM"); ("organic", "PREMIUM"); ("high quality", "PREMIUM");
   ("standard", "STANDARD"); ("economy", "ECONOMY"); ("budget", "ECONOMY")].

(** The quality loop: the first matching term assigns and [break]s. *)
Fixpoint scan_quality (terms : list (string * string)) (query : string)
  : option string :=
  match terms with
  | [] => None
  | (term, q) :: rest =>
      if str_in term query then Some q else scan_quality rest query
  end.

Definition location_indicators : list string := ["near"; "in"; "from"; "local"].

(** The location loop over [enumerate(words)]: an indicator that has a
    successor assigns it and [break]s. *)
Fixpoint scan_location (words : list string) : option string :=
  match words with
  | [] => None
  | word :: rest =>
      match rest with
      | next :: _ =>
          if mem word location_indicators then Some next else scan_location rest
      | [] => None
      end
  end.

Definition stop_words : list string :=
  ["the"; "a"; "an"; "and"; "or"; "but"; "in"; "on"; "at"; "to"; "for"; "of";
   "with"; "by"].

Definition is_keyword (word : string) : bool :=
  negb (mem word stop_words) && (2 <? String.length word).

Definition normalise (query : string) : string := strip (lower query).

Definition _parse_natural_language (query : string) : Parsed :=
  let query := normalise query in
  let words := split query in
  {| keywords := filter is_keyword words;
     category := None;
     price_range := scan_price price_indicators query;
     quality := scan_quality quality_terms query;
     location := scan_location words |}.

End QueryParser.

(** ** The part of Django's ORM the engine uses *)

Module Django.
Import Py.

(** The [filters] dict of a search request; the engine reads these five
    keys and no other. *)
Record Filters : Type := mkFilters {
  f_category : option Z;
  f_min_price : option Q;
  f_max_price : option Q;
  f_quality : option string;
  f_location : option string
}.

Definition no_filters : Filters :=
  {| f_category := None; f_min_price := None; f_max_price := None;
     f_quality := None; f_location := None |}.

(** A model field value, a keyword-argument value or a value in a
    response dict. *)
Inductive value : Type :=
| VNone
| VStr (s : string)
| VInt (n : Z)
| VNum (q : Q)
| VDate (day : Z)
| VFactors (f : list (string * Q))
| VFilters (f : Filters).

(** A row of a table, the keyword arguments of a call and a Python
    dict are all association lists; the first binding of a key counts. *)
Definition dict : Type := list (string * value).

Fixpoint get (d : dict) (key : string) : option value :=
  match d with
  | [] => None
  | (k, v) :: rest => if String.eqb k key then Some v else get rest key
  end.

Definition value_eqb (a b : value) : bool :=
  match a, b with
  | VNone, VNone => true
  | VStr x, VStr y => String.eqb x y
  | VInt x, VInt y => Z.eqb x y
  | VNum x, VNum y => Qeq_bool x y
  | VDate x, VDate y => Z.eqb x y
  | _, _ => false
  end.

(** The first keyword that names no field of the model. *)
Definition unknown_keyword (fields : list string) (kwargs : dict) : option string :=
  find (fun k => negb (mem k fields)) (map fst kwargs).

Definition row_matches (kwargs : dict) (row : dict) : bool :=
  forallb (fun kv => match get row (fst kv) with
                     | Some v => value_eqb v (snd kv)
                     | None => false
                     end) kwargs.

(** [Model.objects.filter(...)]: a keyword that is no field of the
    model is refused with [FieldError] when the query is built. *)
Definition objects_filter (fields : list string) (kwargs : dict) (table : list dict)
  : result (list dict) :=
  match unknown_keyword fields kwargs with
  | Some k => Raise (FieldError k)
  | None => Ok (filter (row_matches kwargs) table)
  end.

(** [Model.objects.create(...)]: [Model.__init__] refuses a keyword
    that is no field with [TypeError]; otherwise the row is stored.
    A table lists its rows in creation order. *)
Definition objects_create (fields : list string) (kwargs : dict) (table : list dict)
  : result (list dict) :=
  match unknown_keyword fields kwargs with
  | Some k => Raise (TypeError k)
  | None => Ok (table ++ [kwargs])%list
  end.

(** [d[key]] *)
Definition subscript (d : dict) (key : string) : result value :=
  match get d key with
  | Some v => Ok v
  | None => Raise (KeyError key)
  end.

(** [queryset.first()] under [ordering = ['-created_at']]: the row
    created last. *)
Definition first_latest (rows : list dict) : option dict := hd_error (rev rows).

(** [instance.name] on a row read back from the table. *)
Definition getattr (row : dict) (name : string) : result value :=
  match get row name with
  | Some v => Ok v
  | None => Raise (AttributeError name)
  end.

End Django.

(** ** Tables of [marketplace/models.py] *)

Module Models.

Record ProductListing : Type := mkListing {
  id : Z;
  title : string;
  description : string;
  category_id : Z;
  price : Q;
  quantity : Z;
  quality_grade : string;
  location : option string;
  demand_score : Q;
  price_trend : Q;
  status : string;
  farmer_email : string;
  image_url : option string
}.

(** A row of a [ProductListing] queryset: the listing and the
    annotation [annotate(preference_boost=...)] may have added. *)
Record Row : Type := mkRow {
  listing : ProductListing;
  preference_boost : option Q
}.

Definition plain (l : ProductListing) : Row :=
  {| listing := l; preference_boost := None |}.

Record UserPreference : Type := mkPreference {
  preferred_categories : list Z;
  quality_preference : option string;
  price_range_min : option Q;
  price_range_max : option Q
}.

Definition PricePrediction_fields : list string :=
  ["id"; "crop_type"; "region"; "predicted_price"; "current_price";
   "confidence"; "prediction_period"; "trend"; "price_change_percentage";
   "min_predicted_price"; "max_predicted_price"; "data_sources";
   "algorithm_version"; "is_active"; "market_factors"; "created_at";
   "updated_at"].

Definition SearchQueryLog_fields : list string :=
  ["id"; "user"; "query"; "results_count"; "filters_applied";
   "search_duration"; "is_successful"; "click_count"; "session_id";
   "user_agent"; "created_at"].

End Models.

(** ** [PromptBasedSearchAI] *)

Module SearchAI.
Import Py Django Models QueryParser.

(** What a call depends on besides its arguments. *)
Record Env : Type := mkEnv {
  (** [datetime.now().month] *)
  month : nat;
  (** [self.price_model.predict(features)[0]]: the trained regressor *)
  price_model : list Q -> result Q;
  (** the PostgreSQL full-text stage: filter by [SearchQuery], order by rank *)
  fulltext : list string -> list Row -> list Row;
  (** category name or category keywords contain the hint *)
  category_matches : string -> ProductListing -> bool;
  (** [UserPreference.objects.get(user=user)]; [None] is [DoesNotExist] *)
  preferences : Z -> option UserPreference;
  (** the names bound in the namespace of module [ai_search] *)
  globals : list string
}.

(** The names the import statements, the assignment to [logger] and the
    two class statements of [ai_search.py] bind. *)
Definition ai_search_globals : list string :=
  ["pd"; "np"; "joblib"; "os"; "Dict"; "List"; "Optional"; "Tuple";
   "settings"; "Q"; "F"; "Value"; "FloatField"; "Concat"; "SearchQuery";
   "SearchRank"; "SearchVector"; "ProductListing"; "PricePrediction";
   "UserPreference"; "SearchQueryLog"; "logging"; "datetime"; "timedelta";
   "RandomForestRegressor"; "TfidfVectorizer"; "cosine_similarity";
   "requests"; "json"; "logger"; "PromptBasedSearchAI"; "PricePredictor"].

(** Evaluating a global name. *)
Definition global_name (env : Env) (name : string) : result unit :=
  if mem name (globals env) then Ok tt else Raise (NameError name).

(** *** Price features *)

Definition seasonal_factors : list (nat * Q) :=
  [(1, (11 # 10)%Q); (2, 1%Q); (3, (9 # 10)%Q); (4, (8 # 10)%Q);
   (5, (9 # 10)%Q); (6, 1%Q); (7, (11 # 10)%Q); (8, (12 # 10)%Q);
   (9, (11 # 10)%Q); (10, 1%Q); (11, (9 # 10)%Q); (12, 1%Q)].

Fixpoint lookup_month (table : list (nat * Q)) (m : nat) : option Q :=
  match table with
  | [] => None
  | (k, v) :: rest => if Nat.eqb k m then Some v else lookup_month rest m
  end.

Definition _get_seasonal_factor (env : Env) : Q :=
  match lookup_month seasonal_factors (month env) with
  | Some f => f
  | None => 1%Q
  end.

Definition _get_market_volatility : Q := (1 # 10)%Q.

Definition _get_location_factor (location : option string) : Q :=
  if negb (truthy_str location) then 1%Q
  else
    let location := lower (match location with Some s => s | None => "" end) in
    if str_in "urban" location || str_in "city" location then (12 # 10)%Q
    else if str_in "rural" location || str_in "village" location then (9 # 10)%Q
    else 1%Q.

Definition features (env : Env) (product : ProductListing) : list Q :=
  [demand_score product;
   _get_seasonal_factor env;
   _get_market_volatility;
   (if String.eqb (quality_grade product) "PREMIUM" then 1 else 0)%Q;
   _get_location_factor (Models.location product)].

Definition _predict_price (env : Env) (product : ProductListing) : result Q :=
  try_except
    (predicted_price <- price_model env (features env product) ;;
     Ok (Py.max predicted_price (1 # 10)%Q))
    (fun _ => Ok (price product)).

(** *** Market insights *)

Record Insights : Type := mkInsights {
  demand_level : string;
  price_stability : string;
  best_time_to_buy : string;
  supply_outlook : string
}.

Definition _get_market_insights (product : ProductListing) : Insights :=
  let insights :=
    {| demand_level := "Medium"; price_stability := "Stable";
       best_time_to_buy := "Now"; supply_outlook := "Adequate" |} in
  let insights :=
    if Qltb (7 # 10)%Q (demand_score product) then
      {| demand_level := "High";
         price_stability := price_stability insights;
         best_time_to_buy := "Soon (prices may rise)";
         supply_outlook := supply_outlook insights |}
    else if Qltb (demand_score product) (3 # 10)%Q then
      {| demand_level := "Low";
         price_stability := price_stability insights;
         best_time_to_buy := "Good time to buy";
         supply_outlook := supply_outlook insights |}
    else insights in
  if Qltb 5%Q (Py.abs (price_trend product)) then
    {| demand_level := demand_level insights;
       price_stability := "Volatile";
       best_time_to_buy := best_time_to_buy insights;
       supply_outlook := supply_outlook insights |}
  else insights.

(** *** Ranking stages *)

(** [field__icontains=hint]: case-insensitive substring; a NULL field
    matches nothing. *)
Definition icontains (field : option string) (hint : string) : bool :=
  match field with
  | Some s => str_in (lower hint) (lower s)
  | None => false
  end.

Definition qfilter (p : ProductListing -> bool) (queryset : list Row) : list Row :=
  filter (fun r => p (listing r)) queryset.

Definition _semantic_search (env : Env) (queryset : list Row) (parsed_query : Parsed)
  : list Row :=
  let queryset :=
    match keywords parsed_query with
    | [] => queryset
    | kws => fulltext env kws queryset
    end in
  let queryset :=
    if truthy_str (category parsed_query) then
      match category parsed_query with
      | Some c => qfilter (category_matches env c) queryset
      | None => queryset
      end
    else queryset in
  let queryset :=
    if truthy_str (quality parsed_query) then
      match quality parsed_query with
      | Some q => qfilter (fun l => String.eqb (quality_grade l) q) queryset
      | None => queryset
      end
    else queryset in
  if truthy_str (location parsed_query) then
    match location parsed_query with
    | Some h => qfilter (fun l => icontains (Models.location l) h) queryset
    | None => queryset
    end
  else queryset.

Definition _apply_filters (queryset : list Row) (filters : Filters) : list Row :=
  let queryset :=
    match f_category filters with
    | Some c => qfilter (fun l => Z.eqb (category_id l) c) queryset
    | None => queryset
    end in
  let queryset :=
    match f_min_price filters with
    | Some lo => qfilter (fun l => Qleb lo (price l)) queryset
    | None => queryset
    end in
  let queryset :=
    match f_max_price filters with
    | Some hi => qfilter (fun l => Qleb (price l) hi) queryset
    | None => queryset
    end in
  let queryset :=
    match f_quality filters with
    | Some q => qfilter (fun l => String.eqb (quality_grade l) q) queryset
    | None => queryset
    end in
  match f_location filters with
  | Some h => qfilter (fun l => icontains (Models.location l) h) queryset
  | None => queryset
  end.

(** *** Personalisation *)

(** [Case(When(category_id__in=preferred, then=1.2), default=1.0)] *)
Definition boost (preferred : list Z) (r : Row) : Row :=
  {| listing := listing r;
     preference_boost :=
       Some (if existsb (Z.eqb (category_id (listing r))) preferred
             then (12 # 10)%Q else 1%Q) |}.

Definition in_price_range (lo hi : Q) (l : ProductListing) : bool :=
  Qleb lo (price l) && Qleb (price l) hi.

Definition _apply_personalization (env : Env) (queryset : list Row) (user : Z)
  : result (list Row) :=
  match preferences env user with
  | None => Ok queryset
  | Some preferences =>
      queryset <-
        match preferred_categories preferences with
        | [] => Ok queryset
        | preferred =>
            _ <- global_name env "models" ;;
            Ok (map (boost preferred) queryset)
        end ;;
      let queryset :=
        if truthy_decimal (price_range_min preferences)
           && truthy_decimal (price_range_max preferences) then
          match price_range_min preferences, price_range_max preferences with
          | Some lo, Some hi => qfilter (in_price_range lo hi) queryset
          | _, _ => queryset
          end
        else queryset in
      let queryset :=
        if truthy_str (quality_preference preferences) then
          match quality_preference preferences with
          | Some q => qfilter (fun l => String.eqb (quality_grade l) q) queryset
          | None => queryset
          end
        else queryset in
      Ok queryset
  end.

(** *** Annotating results *)

Record Enhanced : Type := mkEnhanced {
  e_id : Z;
  e_title : string;
  e_description : string;
  current_price : Q;
  predicted_price : Q;
  e_price_trend : Q;
  e_demand_score : Q;
  e_quality_grade : string;
  e_location : option string;
  farmer : string;
  e_image_url : option string;
  market_insights : Insights
}.

Fixpoint _enhance_with_predictions (env : Env) (products : list Row)
  : result (list Enhanced) :=
  match products with
  | [] => Ok []
  | r :: rest =>
      let product := listing r in
      predicted <- _predict_price env product ;;
      let enhanced_product :=
        {| e_id := id product;
           e_title := title product;
           e_description := description product;
           current_price := price product;
           predicted_price := predicted;
           e_price_trend := price_trend product;
           e_demand_score := demand_score product;
           e_quality_grade := quality_grade product;
           e_location := Models.location product;
           farmer := farmer_email product;
           e_image_url := image_url product;
           market_insights := _get_market_insights product |} in
      enhanced_products <- _enhance_with_predictions env rest ;;
      Ok (enhanced_product :: enhanced_products)
  end.

(** *** Logging and suggestions *)

Definition user_value (user : option Z) : value :=
  match user with Some u => VInt u | None => VNone end.

(** [filters or {}] *)
Definition filters_or_empty (filters : option Filters) : Filters :=
  match filters with Some f => f | None => no_filters end.

(** The keyword arguments [_log_search_query] passes to [create]. *)
Definition log_entry (query : string) (user : option Z) (filters : option Filters)
  : dict :=
  [("user", user_value user);
   ("query", VStr query);
   ("results_count", VInt 0);
   ("filters_used", VFilters (filters_or_empty filters))].

(** The rows of [SearchQueryLog] after the call. *)
Definition _log_search_query (log : list dict) (query : string) (user : option Z)
           (filters : option Filters) : list dict :=
  match objects_create SearchQueryLog_fields (log_entry query user filters) log with
  | Ok log' => log'
  | Raise _ => log
  end.

Definition _get_search_suggestions (parsed_query : Parsed) : list string :=
  let suggestions :=
    match keywords parsed_query with
    | [] => []
    | kws =>
        let base_query := String.concat " " kws in
        [base_query ++ " organic";
         base_query ++ " premium quality";
         base_query ++ " bulk purchase";
         "fresh " ++ base_query;
         "local " ++ base_query]
    end in
  firstn 5 suggestions.

(** *** [search_products] *)

Record SearchResult : Type := mkSearchResult {
  sr_query : string;
  parsed_query : Parsed;
  results : list Enhanced;
  total_count : nat;
  suggestions : list string
}.

(** Truth value of the [filters] argument: a non-empty dict. *)
Definition truthy_filters (filters : option Filters) : bool :=
  match filters with
  | None => false
  | Some f =>
      match f_category f, f_min_price f, f_max_price f, f_quality f, f_location f with
      | None, None, None, None, None => false
      | _, _, _, _, _ => true
      end
  end.

Definition is_available (l : ProductListing) : bool :=
  String.eqb (status l) "AVAILABLE".

(** The value returned or the exception raised, and the rows of
    [SearchQueryLog] afterwards.  [store] is the [ProductListing] table.
    [limit] is the bound of the slice [results[:limit]] and is taken not
    to be negative: the slice of a queryset raises for a negative bound,
    a call this function does not describe. *)
Definition search_products (env : Env) (store : list ProductListing) (log : list dict)
           (query : string) (user : option Z) (filters : option Filters)
           (limit : nat) : result SearchResult * list dict :=
  let log := _log_search_query log query user filters in
  let parsed := _parse_natural_language query in
  let queryset := qfilter is_available (map plain store) in
  let results := _semantic_search env queryset parsed in
  let results :=
    if truthy_filters filters
    then _apply_filters results (filters_or_empty filters)
    else results in
  let outcome :=
    results <- match user with
               | Some u => _apply_personalization env results u
               | None => Ok results
               end ;;
    enhanced_results <- _enhance_with_predictions env (firstn limit results) ;;
    Ok {| sr_query := query;
          parsed_query := parsed;
          results := enhanced_results;
          total_count := List.length results;
          suggestions := _get_search_suggestions parsed |} in
  (outcome, log).

End SearchAI.

(** ** [PricePredictor] *)

Module Predictor.
Import Py Django Models.

(** A method that takes strings and returns a float. *)
Definition method : Type := list string -> result Q.

(** What an attribute lookup on [self] finds: the methods of the class. *)
Definition instance : Type := list (string * method).

Fixpoint lookup (self : instance) (name : string) : option method :=
  match self with
  | [] => None
  | (n, m) :: rest => if String.eqb n name then Some m else lookup rest name
  end.

(** [self.name(args)] *)
Definition call (self : instance) (name : string) (args : list string) : result Q :=
  match lookup self name with
  | Some m => m args
  | None => Raise (AttributeError name)
  end.

Definition base_prices : list (string * Q) :=
  [("maize", 150%Q); ("wheat", 180%Q); ("rice", 200%Q); ("beans", 300%Q);
   ("tomatoes", 250%Q)].

Fixpoint lookup_price (table : list (string * Q)) (key : string) (default : Q) : Q :=
  match table with
  | [] => default
  | (k, v) :: rest => if String.eqb k key then v else lookup_price rest key default
  end.

Definition _get_current_market_price (crop_type region : string) : Q :=
  lookup_price base_prices (lower crop_type) 100%Q.

Definition _get_demand_trend (crop_type : string) : Q := (105 # 100)%Q.

Definition _get_supply_outlook (crop_type region : string) : Q := (98 # 100)%Q.

Definition _get_weather_impact (region : string) : Q := (102 # 100)%Q.

Definition arity2 (f : string -> string -> Q) : method :=
  fun args => match args with
              | [a; b] => Ok (f a b)
              | _ => Raise (TypeError "arguments")
              end.

Definition arity1 (f : string -> Q) : method :=
  fun args => match args with
              | [a] => Ok (f a)
              | _ => Raise (TypeError "arguments")
              end.

Definition arity0 (f : Q) : method :=
  fun args => match args with
              | [] => Ok f
              | _ => Raise (TypeError "arguments")
              end.

(** The float-valued methods class [PricePredictor] defines.  The class
    has no base class and no [__getattr__]. *)
Definition PricePredictor_class : instance :=
  [("_get_current_market_price", arity2 _get_current_market_price);
   ("_get_demand_trend", arity1 _get_demand_trend);
   ("_get_supply_outlook", arity2 _get_supply_outlook);
   ("_get_weather_impact", arity1 _get_weather_impact)].

(** [max(0.1, 0.8 - (days_ahead / 100))] *)
Definition confidence_for (days_ahead : Z) : Q :=
  Py.max (1 # 10)%Q ((8 # 10) - inject_Z days_ahead / 100)%Q.

Definition _generate_price_prediction (self : instance) (crop_type region : string)
           (days_ahead : Z) : result dict :=
  base_price <- call self "_get_current_market_price" [crop_type; region] ;;
  seasonal_factor <- call self "_get_seasonal_factor" [] ;;
  demand_trend <- call self "_get_demand_trend" [crop_type] ;;
  supply_outlook <- call self "_get_supply_outlook" [crop_type; region] ;;
  weather_impact <- call self "_get_weather_impact" [region] ;;
  let predicted_price :=
    (base_price * seasonal_factor * demand_trend * supply_outlook * weather_impact)%Q in
  let confidence := confidence_for days_ahead in
  Ok [("predicted_price", VNum (round2 predicted_price));
      ("confidence", VNum confidence);
      ("factors", VFactors [("seasonal_impact", seasonal_factor);
                            ("demand_trend", demand_trend);
                            ("supply_outlook", supply_outlook);
                            ("weather_impact", weather_impact);
                            ("base_price", base_price)])].

(** The dict of the [except] branch. *)
Definition unavailable (crop_type region : string) (days_ahead : Z) : dict :=
  [("crop_type", VStr crop_type);
   ("region", VStr region);
   ("error", VStr "Prediction unavailable");
   ("horizon_days", VInt days_ahead)].

(** The body of the [try]: the dict returned or the exception raised,
    and the rows of [PricePrediction] at that point. *)
Definition predict_body (self : instance) (today : Z) (table : list dict)
           (crop_type region : string) (days_ahead : Z)
  : result dict * list dict :=
  match objects_filter PricePrediction_fields
          [("crop_type", VStr crop_type);
           ("region", VStr region);
           ("prediction_horizon", VInt days_ahead);
           ("prediction_date", VDate today)]
          table with
  | Raise e => (Raise e, table)
  | Ok rows =>
      match first_latest rows with
      | Some existing_prediction =>
          (predicted_price <- getattr existing_prediction "predicted_price" ;;
           confidence <- getattr existing_prediction "confidence" ;;
           factors <- getattr existing_prediction "factors" ;;
           Ok [("crop_type", VStr crop_type);
               ("region", VStr region);
               ("predicted_price", predicted_price);
               ("confidence", confidence);
               ("horizon_days", VInt days_ahead);
               ("factors", factors);
               ("source", VStr "cached")],
           table)
      | None =>
          match _generate_price_prediction self crop_type region days_ahead with
          | Raise e => (Raise e, table)
          | Ok prediction =>
              match
                (predicted_price <- subscript prediction "predicted_price" ;;
                 confidence <- subscript prediction "confidence" ;;
                 factors <- subscript prediction "factors" ;;
                 objects_create PricePrediction_fields
                   [("crop_type", VStr crop_type);
                    ("region", VStr region);
                    ("predicted_price", predicted_price);
                    ("confidence", confidence);
                    ("prediction_date", VDate today);
                    ("prediction_horizon", VInt days_ahead);
                    ("factors", factors)]
                   table)
              with
              | Raise e => (Raise e, table)
              | Ok table' =>
                  (Ok (prediction ++ [("source", VStr "new_prediction")])%list, table')
              end
          end
      end
  end.

(** The dict returned and the rows of [PricePrediction] afterwards. *)
Definition predict_market_prices (self : instance) (today : Z) (table : list dict)
           (crop_type region : string) (days_ahead : Z) : dict * list dict :=
  match predict_body self today table crop_type region days_ahead with
  | (Ok response, table') => (response, table')
  | (Raise _, table') => (unavailable crop_type region days_ahead, table')
  end.

End Predictor.

(** ** The confidence in IEEE 754 double precision

  The same expression as [Predictor.confidence_for], computed the way
  CPython computes it: on binary64 numbers, every operation rounded to
  nearest, ties to even. *)

Module Binary64.

Definition prec : Z := 53.
Definition emax : Z := 1024.

(** The float of an integer. *)
Definition of_int (n : Z) : spec_float := binary_normalize prec emax n 0 false.

Definition div (x y : spec_float) : spec_float := SFdiv prec emax x y.
Definition sub (x y : spec_float) : spec_float := SFsub prec emax x y.

(** The literals 0.1 and 0.8: the doubles nearest to 1/10 and to 8/10. *)
Definition lit_0_1 : spec_float := div (of_int 1) (of_int 10).
Definition lit_0_8 : spec_float := div (of_int 8) (of_int 10).

(** [max(a, b)]: [b] when [b > a], otherwise [a]. *)
Definition max (a b : spec_float) : spec_float := if SFltb a b then b else a.

(** [max(0.1, 0.8 - (days_ahead / 100))] *)
Definition confidence_for (days_ahead : Z) : spec_float :=
  max lit_0_1 (sub lit_0_8 (div (of_int days_ahead) (of_int 100))).

(** The rational a finite double stands for. *)
Definition to_Q (x : spec_float) : Q :=
  match x with
  | S754_finite s m e =>
      ((if s then - inject_Z (Zpos m) else inject_Z (Zpos m)) * Qpower 2 e)%Q
  | _ => 0%Q
  end.

Definition is_finite (x : spec_float) : bool :=
  match x with
  | S754_finite _ _ _ | S754_zero _ => true
  | _ => false
  end.

(** The confidences of the horizons 0, 1, ..., [n - 1]. *)
Definition confidences (n : nat) : list Q :=
  map (fun h => to_Q (confidence_for (Z.of_nat h))) (seq 0 n).

(** Each element is at most the one before it. *)
Fixpoint non_increasing (l : list Q) : bool :=
  match l with
  | a :: (b :: _) as rest => Qle_bool b a && non_increasing rest
  | _ => true
  end.

End Binary64.

(** ** [PricePredictionView] of [marketplace/views.py] *)

Module Views.
Import Py.

(** [serializer.validated_data] *)
Record Validated : Type := mkValidated {
  cropType : string;
  market : string;
  predictionPeriod : string;
  useGlobal : bool;
  country : string;
  prediction_days : Z
}.

(** The dict [predict_price_api] returns, read with [result.get]. *)
Record ApiResult : Type := mkApiResult {
  api_success : bool;
  api_predicted_price : option Q;
  api_confidence : option Q;
  api_trend : option string;
  api_predictions : list (Z * Q);
  api_price_range : option (Q * Q * Q);
  api_kaggle_enhanced : bool;
  api_data_sources : option (list string)
}.

(** The dict [predict_global_price] returns; a prediction is its date
    and its [predicted_price], [None] when that key is missing. *)
Record GlobalResult : Type := mkGlobalResult {
  g_success : bool;
  g_predictions : list (Z * option Q);
  g_average_predicted_price : option Q;
  g_overall_confidence : option Q;
  g_price_trend : option string;
  g_data_sources : option (list string)
}.

(** The predictor object the module imports (its class is not part of
    the engine), the clock and the draws of [random.uniform]. *)
Record Env : Type := mkEnv {
  predict_price_api : string -> string -> Z -> string -> result ApiResult;
  (** [None]: the predictor has no such attribute *)
  predict_global_price : option (string -> string -> Z -> result GlobalResult);
  get_kaggle_status : option (result unit);
  (** [timezone.now()]: month and day number *)
  month : nat;
  today : Z;
  (** [random.uniform(-0.1, 0.1)] *)
  variation : Q;
  (** [random.uniform(-0.05, 0.05)] in iteration [i] *)
  daily_variation : nat -> Q
}.

(** The HTTP response: status code and the fields of the JSON body the
    engine's contract names (message and timestamp are left out). *)
Record Response : Type := mkResponse {
  status : nat;
  success : bool;
  crop : option string;
  region : option string;
  prediction_period : option string;
  predicted_price : option Q;
  confidence : option Q;
  trend : option string;
  predictions : list (Z * Q);
  price_range : option (Q * Q * Q);
  prediction_type : option string;
  data_sources : list string;
  error : option string
}.

Definition error_response (code : nat) (message : string) : Response :=
  {| status := code; success := false; crop := None; region := None;
     prediction_period := None; predicted_price := None; confidence := None;
     trend := None; predictions := []; price_range := None;
     prediction_type := None; data_sources := []; error := Some message |}.

Definition fallback_base_prices : list (string * Q) :=
  [("Maize", (4850 # 100)%Q); ("Rice", (5525 # 100)%Q);
   ("Beans", (6580 # 100)%Q); ("Cassava", (3260 # 100)%Q);
   ("Wheat", (4275 # 100)%Q); ("Tomatoes", (1890 # 100)%Q);
   ("Potatoes", (2245 # 100)%Q)].

Fixpoint base_price_of (table : list (string * Q)) (key : string) (default : Q) : Q :=
  match table with
  | [] => default
  | (k, v) :: rest => if String.eqb k key then v else base_price_of rest key default
  end.

Definition in_months (m : nat) (months : list nat) : bool :=
  existsb (Nat.eqb m) months.

(** The seasonal adjustment of the fallback. *)
Definition seasonal_price (m : nat) (base_price : Q) : Q :=
  if in_months m [12; 1; 2] then (base_price * (12 # 10))%Q
  else if in_months m [6; 7; 8] then (base_price * (8 # 10))%Q
  else base_price.

(** The f-string that renders [days_ahead] followed by the word days. *)
Definition days_label (days_ahead : Z) : string :=
  NilZero.string_of_int (Z.to_int days_ahead) ++ " days".

Definition _get_fallback_prediction (env : Env) (crop_type region : string)
           (days_ahead : Z) : result Response :=
  try_except
    (let base_price := base_price_of fallback_base_prices crop_type 40%Q in
     let price := seasonal_price (month env) base_price in
     let final_price := (price * (1 + variation env))%Q in
     let predictions :=
       map (fun i => ((today env + Z.of_nat i)%Z,
                      round2 (final_price * (1 + daily_variation env i))%Q))
           (seq 0 (Z.to_nat (Z.min 7 days_ahead))) in
     Ok {| status := 200;
           success := true;
           crop := Some crop_type;
           region := Some region;
           prediction_period := Some (days_label days_ahead);
           predicted_price := Some (round2 final_price);
           confidence := Some (7 # 10)%Q;
           trend := Some "stable";
           predictions := predictions;
           price_range := Some (round2 (final_price * (85 # 100))%Q,
                                round2 (final_price * (115 # 100))%Q,
                                round2 final_price);
           prediction_type := Some "fallback";
           data_sources := ["fallback_model"];
           error := None |})
    (fun _ => Ok (error_response 500 "All prediction methods failed")).

Definition or_default {A} (x : option A) (d : A) : A :=
  match x with Some a => a | None => d end.

(** [p['predicted_price'] for p in predictions] *)
Fixpoint price_points (ps : list (Z * option Q)) : result (list Q) :=
  match ps with
  | [] => Ok []
  | (_, Some p) :: rest => ps' <- price_points rest ;; Ok (p :: ps')
  | (_, None) :: _ => Raise (KeyError "predicted_price")
  end.

Definition Qmin (a b : Q) : Q := if Qltb b a then b else a.

Definition min_of (l : list Q) : Q :=
  match l with [] => 0%Q | x :: rest => fold_left Qmin rest x end.

Definition max_of (l : list Q) : Q :=
  match l with [] => 0%Q | x :: rest => fold_left Py.max rest x end.

(** The global branch: [Some] response when it answers the request,
    [None] when the view goes on to the standard prediction. *)
Definition global_attempt (env : Env) (data : Validated) : option Response :=
  match useGlobal data, predict_global_price env with
  | true, Some predict_global =>
      let attempt : result (option Response) :=
        global_result <- predict_global (cropType data) (country data)
                                        (prediction_days data) ;;
        if g_success global_result then
          points <- price_points (g_predictions global_result) ;;
          let min_price := (min_of points * 100)%Q in
          let max_price := (max_of points * 100)%Q in
          let average := or_default (g_average_predicted_price global_result) 0%Q in
          _ <- match get_kaggle_status env with
               | Some outcome => outcome
               | None => Ok tt
               end ;;
          Ok (Some
                {| status := 200;
                   success := true;
                   crop := Some (cropType data);
                   region := Some (country data);
                   prediction_period := Some (predictionPeriod data);
                   predicted_price := Some (average * 100)%Q;
                   confidence :=
                     Some (or_default (g_overall_confidence global_result) (8 # 10)%Q);
                   trend := Some (or_default (g_price_trend global_result) "stable");
                   predictions :=
                     combine (map fst (g_predictions global_result)) points;
                   price_range := Some (round2 min_price, round2 max_price,
                                        round2 (average * 100)%Q);
                   prediction_type := Some "global";
                   data_sources :=
                     or_default (g_data_sources global_result) ["global_model"];
                   error := None |})
        else Ok None in
      match attempt with
      | Ok r => r
      | Raise _ => None
      end
  | _, _ => None
  end.

(** [post]; [None] is a request the serializer rejects. *)
Definition post (env : Env) (request : option Validated) : result Response :=
  try_except
    (match request with
     | None => Ok (error_response 400 "Invalid request data")
     | Some data =>
         let crop_type := cropType data in
         let region := market data in
         let days_ahead := prediction_days data in
         match global_attempt env data with
         | Some response => Ok response
         | None =>
             result <- predict_price_api env crop_type region days_ahead
                                         (country data) ;;
             if api_success result then
               Ok {| status := 200;
                     success := true;
                     crop := Some crop_type;
                     region := Some region;
                     prediction_period := Some (predictionPeriod data);
                     predicted_price :=
                       Some (or_default (api_predicted_price result) 0%Q);
                     confidence :=
                       Some (or_default (api_confidence result) (8 # 10)%Q);
                     trend := Some (or_default (api_trend result) "stable");
                     predictions := api_predictions result;
                     price_range := api_price_range result;
                     prediction_type := Some "standard";
                     data_sources :=
                       if api_kaggle_enhanced result
                       then (or_default (api_data_sources result) [] ++ ["kaggle"])%list
                       else or_default (api_data_sources result) ["standard_model"];
                     error := None |}
             else _get_fallback_prediction env crop_type region days_ahead
         end
     end)
    (fun _ => Ok (error_response 500 "Failed to generate price prediction")).

End Views.

(** ** Concrete inputs and the claims they are measured against *)

Module Scenarios.
Import Py Django Models.

Definition scenario_query : string := "cheap organic tomatoes near nairobi".

(** A query that matches two entries of each lexicon. *)
Definition two_hints_query : string := "budget premium maize".

Definition listing_priced (n : Z) (p : Q) : ProductListing :=
  {| id := n; title := "Maize"; description := "Dry maize";
     category_id := 2; price := p; quantity := 50;
     quality_grade := "STANDARD"; location := Some "Nakuru";
     demand_score := (35 # 100)%Q; price_trend := 0%Q;
     status := "AVAILABLE"; farmer_email := "farmer@example.com";
     image_url := None |}.

(** A listing of category 2 whose demand score is 0.35. *)
Definition maize : ProductListing := listing_priced 1 15%Q.

(** A listing of category 1. *)
Definition beans : ProductListing :=
  {| id := 2; title := "Beans"; description := "Red beans";
     category_id := 1; price := 30%Q; quantity := 10;
     quality_grade := "PREMIUM"; location := Some "Kisumu city";
     demand_score := (9 # 10)%Q; price_trend := 6%Q;
     status := "AVAILABLE"; farmer_email := "farmer@example.com";
     image_url := None |}.

(** The profile of the price-range scenario: bounds 10 and 20, nothing else. *)
Definition price_profile : UserPreference :=
  {| preferred_categories := []; quality_preference := None;
     price_range_min := Some 10%Q; price_range_max := Some 20%Q |}.

(** A profile that prefers category 1 and sets nothing else. *)
Definition category_profile : UserPreference :=
  {| preferred_categories := [1%Z]; quality_preference := None;
     price_range_min := None; price_range_max := None |}.

(** An environment of [ai_search] as the module is imported: the
    regressor answers 42, the full-text stage keeps every row, every
    user has the profile [profile]. *)
Definition env_with (names : list string) (profile : UserPreference) : SearchAI.Env :=
  {| SearchAI.month := 3;
     SearchAI.price_model := fun _ => Ok 42%Q;
     SearchAI.fulltext := fun _ rows => rows;
     SearchAI.category_matches := fun _ _ => true;
     SearchAI.preferences := fun _ => Some profile;
     SearchAI.globals := names |}.

Definition env_imported (profile : UserPreference) : SearchAI.Env :=
  env_with SearchAI.ai_search_globals profile.

(** An environment whose regressor raises. *)
Definition env_broken_model : SearchAI.Env :=
  {| SearchAI.month := 3;
     SearchAI.price_model := fun _ => Raise (RuntimeError "model not fitted");
     SearchAI.fulltext := fun _ rows => rows;
     SearchAI.category_matches := fun _ _ => true;
     SearchAI.preferences := fun _ => None;
     SearchAI.globals := SearchAI.ai_search_globals |}.

Definition maize_request : Views.Validated :=
  {| Views.cropType := "Maize"; Views.market := "Central Kenya";
     Views.predictionPeriod := "1 Month"; Views.useGlobal := false;
     Views.country := "global"; Views.prediction_days := 30 |}.

Definition failed_result : Views.ApiResult :=
  {| Views.api_success := false; Views.api_predicted_price := None;
     Views.api_confidence := None; Views.api_trend := None;
     Views.api_predictions := []; Views.api_price_range := None;
     Views.api_kaggle_enhanced := false; Views.api_data_sources := None |}.

(** A view environment in March whose predictor has no global method;
    [api] is what [predict_price_api] does. *)
Definition view_env (api : result Views.ApiResult) : Views.Env :=
  {| Views.predict_price_api := fun _ _ _ _ => api;
     Views.predict_global_price := None;
     Views.get_kaggle_status := None;
     Views.month := 3;
     Views.today := 0;
     Views.variation := 0%Q;
     Views.daily_variation := fun _ => 0%Q |}.

(** *** The claims the code does not meet, as the specification words them *)

(** Demand level: HIGH above 0.7, MEDIUM above 0.4, LOW otherwise. *)
Definition spec_demand_level (score : Q) : string :=
  if Qltb (7 # 10)%Q score then "High"
  else if Qltb (4 # 10)%Q score then "Medium"
  else "Low".

(** The filters other than the category one that a profile switches on. *)
Definition passes_price (profile : UserPreference) (l : ProductListing) : bool :=
  match price_range_min profile, price_range_max profile with
  | Some lo, Some hi =>
      if Qeq_bool lo 0%Q || Qeq_bool hi 0%Q then true
      else Qleb lo (price l) && Qleb (price l) hi
  | _, _ => true
  end.

Definition passes_quality (profile : UserPreference) (l : ProductListing) : bool :=
  match quality_preference profile with
  | Some EmptyString => true
  | Some q => String.eqb (quality_grade l) q
  | None => true
  end.

End Scenarios.

(** ** Predicates used to state further properties of the engine *)

Module Shape.
Import Py Django Models QueryParser.

(** Every character of the string is white space. *)
Fixpoint all_space (s : string) : bool :=
  match s with
  | EmptyString => true
  | String c s' => isspace c && all_space s'
  end.

(** The characters of a string. *)
Definition chars (s : string) : list ascii := list_ascii_of_string s.

(** The intent of a query that says nothing. *)
Definition empty_intent : Parsed :=
  {| keywords := []; category := None; price_range := None;
     quality := None; location := None |}.

End Shape.

Module Ranking.
Import Py Django Models SearchAI.

(** A listing passes every explicit filter the request carries. *)
Definition matches_filters (f : Filters) (l : ProductListing) : bool :=
  match f_category f with Some c => Z.eqb (category_id l) c | None => true end
  && match f_min_price f with Some lo => Qleb lo (price l) | None => true end
  && match f_max_price f with Some hi => Qleb (price l) hi | None => true end
  && match f_quality f with Some q => String.eqb (quality_grade l) q | None => true end
  && match f_location f with Some h => icontains (Models.location l) h | None => true end.

(** A listing passes the quality and location hints of a parsed query. *)
Definition matches_hints (parsed : QueryParser.Parsed) (l : ProductListing) : bool :=
  match QueryParser.quality parsed with
  | Some EmptyString | None => true
  | Some q => String.eqb (quality_grade l) q
  end
  && match QueryParser.location parsed with
     | Some EmptyString | None => true
     | Some h => icontains (Models.location l) h
     end.


(** The rows the hint stages of [_semantic_search] start from. *)
Definition after_fulltext (env : Env) (rows : list Row) (parsed : QueryParser.Parsed)
  : list Row :=
  match QueryParser.keywords parsed with
  | [] => rows
  | kws => fulltext env kws rows
  end.

(** What each annotated result copies from its listing. *)
Definition describes (r : Row) (e : Enhanced) : Prop :=
  e_id e = id (listing r)
  /\ current_price e = price (listing r)
  /\ e_quality_grade e = quality_grade (listing r)
  /\ e_location e = Models.location (listing r)
  /\ market_insights e = _get_market_insights (listing r).

End Ranking.

(** ** Further concrete inputs *)

Module Cases.
Import Py Django Models SearchAI Scenarios.

(** What a search over a store holding [maize] returns for it when the
    regressor raises. *)
Definition maize_result : Enhanced :=
  {| e_id := 1; e_title := "Maize"; e_description := "Dry maize";
     current_price := 15%Q; predicted_price := 15%Q; e_price_trend := 0%Q;
     e_demand_score := (35 # 100)%Q; e_quality_grade := "STANDARD";
     e_location := Some "Nakuru"; farmer := "farmer@example.com";
     e_image_url := None; market_insights := _get_market_insights maize |}.

(** Filters that only bound the price from above, by 20. *)
Definition at_most_20 : Filters :=
  {| f_category := None; f_min_price := None; f_max_price := Some 20%Q;
     f_quality := None; f_location := None |}.

(** A profile with an upper price bound of 20 and a lower bound of 0. *)
Definition zero_floor_profile : UserPreference :=
  {| preferred_categories := []; quality_preference := None;
     price_range_min := Some 0%Q; price_range_max := Some 20%Q |}.

End Cases.

(** ** Request validation: [marketplace/serializers.py] *)

Module Serializers.
Import Py.

(** What a [validate_...] method does: return the value or raise
    [ValidationError] with a message. *)
Inductive validation (A : Type) : Type :=
| Valid (a : A)
| Invalid (message : string).
Arguments Valid {A} a.
Arguments Invalid {A} message.

(** The title-case form of one code point below 256, as a string: the
    letters a-z and the Latin-1 small letters move down by 32, the sharp s
    becomes Ss.  The micro sign and the y with diaeresis, whose capitals
    lie above 255, are left as they are: a string that starts with one of
    them is no crop name before or after. *)
Definition title_char (c : ascii) : string :=
  let n := nat_of_ascii c in
  if ((97 <=? n) && (n <=? 122))
     || ((224 <=? n) && (n <=? 254) && negb (n =? 247))
  then String (ascii_of_nat (n - 32)) EmptyString
  else if n =? 223 then "Ss"
  else String c EmptyString.

(** [str.capitalize]: the first character in title case, the rest in
    lower case. *)
Definition capitalize (s : string) : string :=
  match s with
  | EmptyString => EmptyString
  | String c rest => title_char c ++ lower rest
  end.

Definition valid_crops : list string :=
  ["Maize"; "Rice"; "Beans"; "Cassava"; "Wheat"; "Tomatoes"; "Potatoes"].

(** [PricePredictionRequestSerializer.validate_cropType] *)
Definition validate_cropType (value : string) : validation string :=
  match value with
  | EmptyString => Invalid "Crop type is required"
  | _ =>
      let crop_type := capitalize value in
      if mem crop_type valid_crops then Valid crop_type
      else Invalid "Invalid crop type"
  end.

Definition valid_periods : list string :=
  ["1 Week"; "1 Month"; "3 Months"; "6 Months"; "1 Year"].

(** [PricePredictionRequestSerializer.validate_predictionPeriod] *)
Definition validate_predictionPeriod (value : string) : validation string :=
  if mem value valid_periods then Valid value
  else Invalid "Invalid prediction period".

(** [PricePredictionRequestSerializer.validate_prediction_days] *)
Definition validate_prediction_days (value : Z) : validation Z :=
  if (value <=? 0)%Z then Invalid "Prediction days must be positive"
  else if (365 <? value)%Z then Invalid "Prediction cannot exceed 1 year"
  else Valid value.

(** One entry of the [predictions] list of a bulk request: a dict, read
    with [get]; [None] is a missing key.  The values are taken at the types
    the view uses them at, strings and a number of days. *)
Record BulkItem : Type := mkBulkItem {
  b_cropType : option string;
  b_region : option string;
  b_country : option string;
  b_days_ahead : option Z
}.

(** [BulkPricePredictionSerializer.validate_predictions] *)
Fixpoint validate_items (items : list BulkItem) : validation unit :=
  match items with
  | [] => Valid tt
  | prediction :: rest =>
      if negb (truthy_str (b_cropType prediction))
      then Invalid "Each prediction must have a cropType"
      else
        let crop_type :=
          capitalize (match b_cropType prediction with Some s => s | None => "" end) in
        if mem crop_type valid_crops then validate_items rest
        else Invalid "Invalid crop type"
  end.

Definition validate_predictions (value : list BulkItem) : validation (list BulkItem) :=
  match value with
  | [] => Invalid "Predictions list cannot be empty"
  | _ =>
      match validate_items value with
      | Valid _ => Valid value
      | Invalid m => Invalid m
      end
  end.

End Serializers.

(** ** [BulkPricePredictionView] and the price history of a listing *)

Module BulkView.
Import Py Views Serializers.

(** The predictor and the draws of [random.uniform(-0.1, 0.1)]: [draw i]
    is the one used for the fallback of the request at position [i]. *)
Record Env : Type := mkEnv {
  predict_price_api : string -> string -> Z -> string -> result ApiResult;
  draw : nat -> Q
}.

Record Prediction : Type := mkPrediction {
  crop_type : string;
  region : string;
  country : string;
  predicted_price : Q;
  confidence : Q;
  trend : string;
  predictions : list (Z * Q);
  current_price : Q;
  prediction_type : string;
  kaggle_enhanced : bool
}.

Definition _create_fallback_prediction (variation : Q) (crop region country : string)
           (days_ahead : Z) : Prediction :=
  let base_price := base_price_of fallback_base_prices crop 40%Q in
  let final_price := (base_price * (1 + variation))%Q in
  {| crop_type := crop;
     region := region;
     country := country;
     predicted_price := round2 final_price;
     confidence := (6 # 10)%Q;
     trend := "stable";
     predictions := [];
     current_price := round2 final_price;
     prediction_type := "fallback";
     kaggle_enhanced := false |}.

(** The body of the loop for the request at position [i]: [None] when the
    request has no crop type. *)
Definition predict_item (env : Env) (i : nat) (prediction_request : BulkItem)
  : option Prediction :=
  let crop := capitalize (or_default (b_cropType prediction_request) "") in
  let region := or_default (b_region prediction_request) "" in
  let country := or_default (b_country prediction_request) "global" in
  let days_ahead := or_default (b_days_ahead prediction_request) 30%Z in
  match crop with
  | EmptyString => None
  | _ =>
      Some
        (match
            try_except
              (result <- predict_price_api env crop region days_ahead country ;;
               if api_success result then
                 Ok {| crop_type := crop;
                       region := region;
                       country := country;
                       predicted_price := or_default (api_predicted_price result) 0%Q;
                       confidence := or_default (api_confidence result) (8 # 10)%Q;
                       trend := or_default (api_trend result) "stable";
                       predictions := api_predictions result;
                       current_price := or_default (api_predicted_price result) 0%Q;
                       prediction_type := "enhanced";
                       kaggle_enhanced := api_kaggle_enhanced result |}
               else Ok (_create_fallback_prediction (draw env i) crop region country
                                                    days_ahead))
              (fun _ => Ok (_create_fallback_prediction (draw env i) crop region
                                                        country days_ahead))
          with
          | Ok p => p
          | Raise _ =>
              _create_fallback_prediction (draw env i) crop region country days_ahead
          end)
  end.

Fixpoint predict_all (env : Env) (i : nat) (items : list BulkItem) : list Prediction :=
  match items with
  | [] => []
  | item :: rest =>
      match predict_item env i item with
      | Some p => p :: predict_all env (S i) rest
      | None => predict_all env (S i) rest
      end
  end.

Record BulkResponse : Type := mkBulkResponse {
  b_status : nat;
  b_success : bool;
  b_predictions : list Prediction;
  total_predicted : nat;
  enhanced_predictions : nat;
  use_global : bool;
  b_error : option string
}.

(** [post] on a request whose crop types are strings and whose
    [useGlobal] is a boolean: [predictions_data] and [useGlobal] are its
    two fields.  [BulkRequest.post_sent] below is the view on a request
    as sent, whose values may have other types. *)
Definition post (env : Env) (predictions_data : list BulkItem) (useGlobal : bool)
  : BulkResponse :=
  match validate_predictions predictions_data with
  | Invalid _ =>
      {| b_status := 400; b_success := false; b_predictions := [];
         total_predicted := 0; enhanced_predictions := 0; use_global := false;
         b_error := Some "Invalid request data" |}
  | Valid predictions_data =>
      let results := predict_all env 0 predictions_data in
      {| b_status := 200; b_success := true; b_predictions := results;
         total_predicted :=
           List.length (filter (fun r => Qltb 0 (predicted_price r)) results);
         enhanced_predictions :=
           List.length (filter kaggle_enhanced results);
         use_global := useGlobal;
         b_error := None |}
  end.

(** *** [ProductListingViewSet._generate_price_history] *)

Record HistoryPoint : Type := mkHistoryPoint {
  h_date : Z;
  h_price : Q;
  h_volume : Z;
  h_current : bool
}.

(** The point of the loop iteration [i], [30 * i] days before [today]. *)
Definition history_point (today : Z) (base_price : Q) (i : Z) : HistoryPoint :=
  let fluctuation := (inject_Z (i mod 3 - 1) * (1 # 10))%Q in
  let historical_price := (base_price * (1 + fluctuation))%Q in
  {| h_date := (today - 30 * i)%Z;
     h_price := round2 historical_price;
     h_volume := Z.max 10 (50 - i * 8);
     h_current := false |}.

Definition _generate_price_history (today : Z) (product : Models.ProductListing)
  : list HistoryPoint :=
  let base_price := Models.price product in
  (map (history_point today base_price) [6; 5; 4; 3; 2; 1]%Z
   ++ [{| h_date := today;
          h_price := Models.price product;
          h_volume := Models.quantity product;
          h_current := true |}])%list.

End BulkView.

(** ** What the bulk view answers to one request *)

Module BulkCases.
Import Py Views Serializers BulkView.

(** The crop type the view and the serializer compute from a request. *)
Definition requested_crop (item : BulkItem) : string :=
  capitalize (or_default (b_cropType item) "").

(** A fallback result: the base price of the crop moved by at most a tenth
    and rounded to cents. *)
Definition is_fallback (p : Prediction) : Prop :=
  prediction_type p = "fallback"
  /\ kaggle_enhanced p = false
  /\ confidence p = (6 # 10)%Q
  /\ predictions p = []
  /\ current_price p = predicted_price p
  /\ (base_price_of fallback_base_prices (crop_type p) 40 * (9 # 10) - (1 # 200)
      <= predicted_price p)%Q
  /\ (predicted_price p
      <= base_price_of fallback_base_prices (crop_type p) 40 * (11 # 10) + (1 # 200))%Q
  /\ (0 < predicted_price p)%Q.

(** The result [p] is the answer to the request [item]: the predictor's
    when it succeeds, a fallback when it reports a failure or raises. *)
Definition answers (env : Env) (item : BulkItem) (p : Prediction) : Prop :=
  crop_type p = requested_crop item
  /\ region p = or_default (b_region item) ""
  /\ country p = or_default (b_country item) "global"
  /\ match predict_price_api env (requested_crop item)
                             (or_default (b_region item) "")
                             (or_default (b_days_ahead item) 30%Z)
                             (or_default (b_country item) "global") with
     | Ok r =>
         if api_success r
         then prediction_type p = "enhanced"
              /\ predicted_price p = or_default (api_predicted_price r) 0%Q
              /\ kaggle_enhanced p = api_kaggle_enhanced r
         else is_fallback p
     | Raise _ => is_fallback p
     end.

(** A predictor that always raises, and one request for maize. *)
Definition failing_env : Env :=
  {| predict_price_api := fun _ _ _ _ => Raise (RuntimeError "model not loaded");
     draw := fun _ => 0%Q |}.

Definition maize_request : BulkItem :=
  {| b_cropType := Some "maize"; b_region := None; b_country := None;
     b_days_ahead := None |}.

End BulkCases.

(** ** The shopping cart: [ShoppingCart], [CartItem], [Order] and
    [CartViewSet] *)

Module Cart.
Import Py Models.

(** A row of [CartItem].  The cart of a user, created on first use, is
    identified with its user ([ShoppingCart.user] is one-to-one); users and
    farmers are identified by their e-mail address, which is unique. *)
Record CartItem : Type := mkCartItem {
  item_id : Z;
  cart_user : string;
  product_id : Z;
  item_quantity : Z
}.

Record Order : Type := mkOrder {
  customer : string;
  order_product : Z;
  order_quantity : Z;
  order_total_price : Q;
  shipping_address : string;
  contact_number : string;
  payment_method : string;
  shipping_notes : string
}.

(** The tables.  [products] is keyed by primary key; [items] is kept in
    the order of [CartItem.Meta.ordering], newest first; [orders] in the
    order of insertion; [next_item_id] is the next primary key of
    [CartItem].  Integers are unbounded. *)
Record Store : Type := mkStore {
  products : Z -> option ProductListing;
  items : list CartItem;
  orders : list Order;
  next_item_id : Z
}.

(** What leaves a view other than a response: the [ValidationError] of
    [CartItem.clean], with the stock and the title its message names, and
    the error of following a foreign key to a row that is not there. *)
Inductive error : Type :=
| ValidationError (available : Z) (product_title : string)
| RelatedObjectDoesNotExist.

(** A response with [success] true or false, the response
    [Only N units available], or an exception that leaves the view. *)
Inductive Reply : Type :=
| Success (status : nat) (message : string)
| Failure (status : nat) (error : string) (unavailable_items : list string)
| Only_units_available (status : nat) (units : Z)
| Unhandled (e : error).

(** *** Properties of the models *)

Definition product_of (s : Store) (item : CartItem) : option ProductListing :=
  products s (product_id item).

(** [ProductListing.is_available] *)
Definition ProductListing_is_available (p : ProductListing) : bool :=
  String.eqb (status p) "AVAILABLE" && (0 <? Models.quantity p)%Z.

(** [CartItem.is_available] of an item whose product is [p] *)
Definition CartItem_is_available (p : ProductListing) (item : CartItem) : bool :=
  ProductListing_is_available p && (item_quantity item <=? Models.quantity p)%Z.

(** [CartItem.total_price] *)
Definition total_price (p : ProductListing) (item : CartItem) : Q :=
  (price p * inject_Z (item_quantity item))%Q.

(** [CartItem.clean]: the error it raises, if any. *)
Definition clean (p : ProductListing) (item : CartItem) : option error :=
  if (Models.quantity p <? item_quantity item)%Z
  then Some (ValidationError (Models.quantity p) (title p))
  else None.

(** [cart.items.all()] *)
Definition cart_items (s : Store) (user : string) : list CartItem :=
  filter (fun i => String.eqb (cart_user i) user) (items s).

(** [ShoppingCart.total_items]: the sum of the quantities, 0 for no item. *)
Definition total_items (s : Store) (user : string) : Z :=
  fold_right Z.add 0%Z (map item_quantity (cart_items s user)).

(** [ShoppingCart.subtotal]; [None] when a product is not there. *)
Fixpoint sum_total_price (s : Store) (cart : list CartItem) : option Q :=
  match cart with
  | [] => Some 0%Q
  | item :: rest =>
      match product_of s item, sum_total_price s rest with
      | Some p, Some t => Some (total_price p item + t)%Q
      | _, _ => None
      end
  end.

Definition subtotal (s : Store) (user : string) : option Q :=
  sum_total_price s (cart_items s user).

(** [ShoppingCart.is_empty] *)
Definition is_empty (s : Store) (user : string) : bool :=
  (List.length (cart_items s user) =? 0)%nat.

(** *** Writes *)

(** [cart_item.save()] of a row that exists: the row with its primary key
    is replaced. *)
Definition save_item (s : Store) (item : CartItem) : Store :=
  {| products := products s;
     items := map (fun i => if (item_id i =? item_id item)%Z then item else i) (items s);
     orders := orders s;
     next_item_id := next_item_id s |}.

(** The insert of a new row, which gets the next primary key. *)
Definition insert_item (s : Store) (user : string) (pid requested : Z)
  : Store * CartItem :=
  let item := {| item_id := next_item_id s; cart_user := user;
                 product_id := pid; item_quantity := requested |} in
  ({| products := products s;
      items := item :: items s;
      orders := orders s;
      next_item_id := (next_item_id s + 1)%Z |}, item).

(** [cart_item.delete()] *)
Definition delete_item (s : Store) (item : CartItem) : Store :=
  {| products := products s;
     items := filter (fun i => negb (item_id i =? item_id item)%Z) (items s);
     orders := orders s;
     next_item_id := next_item_id s |}.

(** [cart.items.all().delete()] *)
Definition delete_cart_items (s : Store) (user : string) : Store :=
  {| products := products s;
     items := filter (fun i => negb (String.eqb (cart_user i) user)) (items s);
     orders := orders s;
     next_item_id := next_item_id s |}.

(** [product.save()]: the row with the primary key [pid] becomes [p]. *)
Definition save_product (s : Store) (pid : Z) (p : ProductListing) : Store :=
  {| products := fun k => if (k =? pid)%Z then Some p else products s k;
     items := items s;
     orders := orders s;
     next_item_id := next_item_id s |}.

Definition with_quantity (p : ProductListing) (q : Z) : ProductListing :=
  {| id := id p; title := title p; description := description p;
     category_id := category_id p; price := price p; quantity := q;
     quality_grade := quality_grade p; location := Models.location p;
     demand_score := demand_score p; price_trend := price_trend p;
     status := status p; farmer_email := farmer_email p;
     image_url := image_url p |}.

Definition with_item_quantity (item : CartItem) (q : Z) : CartItem :=
  {| item_id := item_id item; cart_user := cart_user item;
     product_id := product_id item; item_quantity := q |}.

(** *** [CartViewSet.add_item] *)

(** [AddToCartSerializer]: [product_id] is required, [quantity] is 1 when
    it is not sent and at least 1. *)
Definition AddToCartSerializer (product_id quantity : option Z) : option (Z * Z) :=
  match product_id with
  | None => None
  | Some pid =>
      let requested := match quantity with Some q => q | None => 1%Z end in
      if (requested <? 1)%Z then None else Some (pid, requested)
  end.

(** The check of the view after the item is stored. *)
Definition stock_check (s : Store) (product : ProductListing) (cart_item : CartItem)
  : Store * Reply :=
  if (Models.quantity product <? item_quantity cart_item)%Z
  then (s, Only_units_available 400 (Models.quantity product))
  else (s, Success 200 "Item added to cart").

Definition add_item (s : Store) (user : string) (product_id_sent quantity_sent : option Z)
  : Store * Reply :=
  match AddToCartSerializer product_id_sent quantity_sent with
  | None => (s, Failure 400 "Invalid data" [])
  | Some (pid, requested) =>
      match products s pid with
      | None => (s, Failure 404 "Product not available" [])
      | Some product =>
          if negb (String.eqb (status product) "AVAILABLE")
          then (s, Failure 404 "Product not available" [])
          else
            match find (fun i => String.eqb (cart_user i) user
                                 && (product_id i =? pid)%Z) (items s) with
            | None =>
                (* created: [create] saves the new row, [save] cleans it *)
                let (s', cart_item) := insert_item s user pid requested in
                match clean product cart_item with
                | Some e => (s, Unhandled e)
                | None => stock_check s' product cart_item
                end
            | Some existing =>
                (* [cart_item.product] has the primary key of [product] *)
                let cart_item :=
                  with_item_quantity existing (item_quantity existing + requested) in
                match clean product cart_item with
                | Some e => (s, Unhandled e)
                | None => stock_check (save_item s cart_item) product cart_item
                end
            end
      end
  end.

(** *** [CartViewSet.update_item], [remove_item] and [clear] *)

(** [CartItem.objects.get(id=item_id, cart__user=request.user)] *)
Definition get_item (s : Store) (user : string) (id_sent : Z) : option CartItem :=
  find (fun i => (item_id i =? id_sent)%Z && String.eqb (cart_user i) user) (items s).

(** [UpdateCartItemSerializer] with [partial=True]: [quantity] may be
    left out and is at least 1 ([MinValueValidator(1)]). *)
Definition UpdateCartItemSerializer (quantity : option Z) : option (option Z) :=
  match quantity with
  | None => Some None
  | Some q => if (q <? 1)%Z then None else Some (Some q)
  end.

Definition update_item (s : Store) (user : string) (id_sent : Z)
           (quantity_sent : option Z) : Store * Reply :=
  match get_item s user id_sent with
  | None => (s, Failure 404 "Cart item not found" [])
  | Some cart_item =>
      match UpdateCartItemSerializer quantity_sent with
      | None => (s, Failure 400 "Invalid data" [])
      | Some validated =>
          let new_quantity :=
            match validated with Some q => q | None => item_quantity cart_item end in
          match product_of s cart_item with
          | None => (s, Unhandled RelatedObjectDoesNotExist)
          | Some product =>
              if (Models.quantity product <? new_quantity)%Z
              then (s, Only_units_available 400 (Models.quantity product))
              else
                let saved := with_item_quantity cart_item new_quantity in
                match clean product saved with
                | Some e => (s, Unhandled e)
                | None => (save_item s saved, Success 200 "Cart updated")
                end
          end
      end
  end.

Definition remove_item (s : Store) (user : string) (id_sent : Z) : Store * Reply :=
  match get_item s user id_sent with
  | None => (s, Failure 404 "Cart item not found" [])
  | Some cart_item => (delete_item s cart_item, Success 200 "Item removed from cart")
  end.

Definition clear (s : Store) (user : string) : Store * Reply :=
  (delete_cart_items s user, Success 200 "Cart cleared").

(** *** [CartViewSet.checkout] *)

(** The validated data of [CheckoutSerializer]. *)
Record CheckoutData : Type := mkCheckoutData {
  d_shipping_address : string;
  d_contact_number : string;
  d_payment_method : string;
  d_notes : option string
}.

(** The titles of the items that are not available; [None] when a product
    is not there. *)
Fixpoint unavailable_items (s : Store) (cart : list CartItem) : option (list string) :=
  match cart with
  | [] => Some []
  | item :: rest =>
      match product_of s item, unavailable_items s rest with
      | Some p, Some titles =>
          if negb (CartItem_is_available p item) then Some (title p :: titles)
          else Some titles
      | _, _ => None
      end
  end.

(** An item with its product as loaded when the items are grouped. *)
Definition Loaded : Type := (CartItem * ProductListing)%type.

(** [items_by_seller[seller].append(item)], a new key going last. *)
Fixpoint group_insert (seller : string) (entry : Loaded)
         (groups : list (string * list Loaded)) : list (string * list Loaded) :=
  match groups with
  | [] => [(seller, [entry])]
  | (k, entries) :: rest =>
      if String.eqb k seller then (k, (entries ++ [entry])%list) :: rest
      else (k, entries) :: group_insert seller entry rest
  end.

Fixpoint group_by_seller (s : Store) (cart : list CartItem)
         (groups : list (string * list Loaded)) : option (list (string * list Loaded)) :=
  match cart with
  | [] => Some groups
  | item :: rest =>
      match product_of s item with
      | None => None
      | Some p => group_by_seller s rest (group_insert (farmer_email p) (item, p) groups)
      end
  end.

(** [Order.save]: a total that is zero is computed again from the product
    of the order when the quantity is not zero. *)
Definition Order_save (product : ProductListing) (o : Order) : Order :=
  if Qeq_bool (order_total_price o) 0 && negb (order_quantity o =? 0)%Z
  then {| customer := customer o; order_product := order_product o;
          order_quantity := order_quantity o;
          order_total_price := (price product * inject_Z (order_quantity o))%Q;
          shipping_address := shipping_address o;
          contact_number := contact_number o;
          payment_method := payment_method o;
          shipping_notes := shipping_notes o |}
  else o.

Definition order_total (entries : list Loaded) : Q :=
  fold_right Qplus 0%Q (map (fun e => total_price (snd e) (fst e)) entries).

Definition order_units (entries : list Loaded) : Z :=
  fold_right Z.add 0%Z (map (fun e => item_quantity (fst e)) entries).

(** The order of one seller; [None] is the [IndexError] of [items[0]]. *)
Definition create_order (user : string) (data : CheckoutData) (entries : list Loaded)
  : option Order :=
  match entries with
  | [] => None
  | (first_item, first_product) :: _ =>
      Some (Order_save first_product
              {| customer := user;
                 order_product := product_id first_item;
                 order_quantity := order_units entries;
                 order_total_price := order_total entries;
                 shipping_address := d_shipping_address data;
                 contact_number := d_contact_number data;
                 payment_method := d_payment_method data;
                 shipping_notes :=
                   match d_notes data with Some n => n | None => "" end |})
  end.

(** [item.product.quantity -= item.quantity; item.product.save()] for the
    items of one seller: the product written is the one loaded when the
    items were grouped. *)
Fixpoint update_quantities (s : Store) (entries : list Loaded) : Store :=
  match entries with
  | [] => s
  | (item, p) :: rest =>
      update_quantities
        (save_product s (product_id item)
           (with_quantity p (Models.quantity p - item_quantity item)))
        rest
  end.

Definition add_order (s : Store) (o : Order) : Store :=
  {| products := products s;
     items := items s;
     orders := (orders s ++ [o])%list;
     next_item_id := next_item_id s |}.

Fixpoint create_orders (s : Store) (user : string) (data : CheckoutData)
         (groups : list (string * list Loaded)) : option Store :=
  match groups with
  | [] => Some s
  | (_, entries) :: rest =>
      match create_order user data entries with
      | None => None
      | Some o =>
          create_orders (update_quantities (add_order s o) entries) user data rest
      end
  end.

(** The names the import statements, the assignments and the [def] and
    [class] statements of [views.py] bind at module level. *)
Definition views_globals : list string :=
  ["APIView"; "Response"; "status"; "action"; "viewsets"; "Count"; "Avg"; "Q";
   "F"; "ExpressionWrapper"; "FloatField"; "timezone"; "timedelta";
   "get_object_or_404"; "MultiPartParser"; "JSONParser"; "ProductListing";
   "ProductCategory"; "Order"; "UserPreference"; "PricePrediction";
   "SearchQueryLog"; "Task"; "MarketplaceAnalytics"; "SearchSuggestion";
   "ProductViewHistory"; "ShoppingCart"; "CartItem";
   "ProductListingSerializer"; "ProductCategorySerializer"; "OrderSerializer";
   "UserPreferenceSerializer"; "PricePredictionSerializer";
   "MarketplaceAnalyticsSerializer"; "SearchSuggestionSerializer";
   "TaskSerializer"; "PricePredictionRequestSerializer";
   "BulkPricePredictionSerializer"; "PricePredictionResponseSerializer";
   "ShoppingCartSerializer"; "CartItemSerializer"; "AddToCartSerializer";
   "UpdateCartItemSerializer"; "CheckoutSerializer"; "FirebaseAuthentication";
   "DebugModeAuthentication"; "IsAuthenticatedCustom"; "settings"; "logging";
   "asyncio"; "KaggleEnhancedPredictor"; "PricePredictor"; "price_predictor";
   "logger"; "get_authentication_classes"; "ProductListingViewSet";
   "OrderViewSet"; "ProductSearchView"; "PricePredictionView";
   "BulkPricePredictionView"; "UserPreferenceView"; "MarketplaceAnalyticsView";
   "SearchSuggestionsView"; "CategoryInsightsView"; "CartViewSet";
   "SimpleMarketplaceView"; "ProductCategoriesView"; "TaskListView";
   "TaskCreateView"; "TaskUpdateView"; "TaskCompleteView"; "TaskDeleteView";
   "OrderCreateView"].

(** Evaluating a global name of [views.py]. *)
Definition views_name (name : string) : result unit :=
  if mem name views_globals then Ok tt else Raise (NameError name).

(** The block under [with transaction.atomic()]; [None] when it raises. *)
Definition atomic_block (s : Store) (user : string) (data : CheckoutData)
  : option Store :=
  match group_by_seller s (cart_items s user) [] with
  | None => None
  | Some items_by_seller =>
      match create_orders s user data items_by_seller with
      | None => None
      | Some s' => Some (delete_cart_items s' user)
      end
  end.

(** [checkout]: [validated] is the validated data of the request, [None]
    when the serializer rejects it.  The [with] statement evaluates the
    name [transaction] first; an exception in the [try] is answered by
    the [except] branch with 500, and the tables stay as they were. *)
Definition checkout (s : Store) (user : string) (validated : option CheckoutData)
  : Store * Reply :=
  if is_empty s user then (s, Failure 400 "Cart is empty" [])
  else
    match unavailable_items s (cart_items s user) with
    | None => (s, Unhandled RelatedObjectDoesNotExist)
    | Some (t :: ts) => (s, Failure 400 "Some items are no longer available" (t :: ts))
    | Some [] =>
        match validated with
        | None => (s, Failure 400 "Invalid checkout data" [])
        | Some data =>
            match views_name "transaction" with
            | Raise _ => (s, Failure 500 "Checkout failed" [])
            | Ok _ =>
                match atomic_block s user data with
                | Some s' => (s', Success 201 "Order created successfully")
                | None => (s, Failure 500 "Checkout failed" [])
                end
            end
        end
    end.

(** *** States the database allows *)

(** Primary keys of [CartItem] are unique and below the next one, and a
    cart holds a product once ([unique_together]). *)
Definition well_formed (s : Store) : Prop :=
  NoDup (map item_id (items s))
  /\ Forall (fun i => (item_id i < next_item_id s)%Z) (items s)
  /\ NoDup (map (fun i => (cart_user i, product_id i)) (items s)).

(** Every item of every cart refers to a product and asks for at least
    one unit and no more than its stock. *)
Definition within_stock (s : Store) : Prop :=
  Forall (fun i => exists p, product_of s i = Some p
                             /\ (1 <= item_quantity i <= Models.quantity p)%Z)
         (items s).

End Cart.

(** ** A shop with two farmers and two carts *)

Module CartCases.
Import Py Models Cart.

(** The quantity of the product [pid] the cart of [user] holds, 0 when it
    holds none. *)
Definition held (s : Store) (user : string) (pid : Z) : Z :=
  match find (fun i => String.eqb (cart_user i) user && (product_id i =? pid)%Z)
             (items s) with
  | Some i => item_quantity i
  | None => 0%Z
  end.

(** An item that can be checked out. *)
Definition purchasable (s : Store) (i : CartItem) : Prop :=
  exists p, product_of s i = Some p
            /\ status p = "AVAILABLE"
            /\ (0 < Models.quantity p)%Z
            /\ (item_quantity i <= Models.quantity p)%Z.

Definition listing (pk : Z) (name farmer : string) (cost : Q) (stock : Z)
  : ProductListing :=
  {| id := pk; title := name; description := ""; category_id := 1%Z;
     price := cost; quantity := stock; quality_grade := "STANDARD";
     location := None; demand_score := (1 # 2)%Q; price_trend := 0%Q;
     status := "AVAILABLE"; farmer_email := farmer; image_url := None |}.

Definition shop : Store :=
  {| products := fun k =>
       if (k =? 1)%Z then Some (listing 1 "Maize" "ann@farm.example" 50 10)
       else if (k =? 2)%Z then Some (listing 2 "Beans" "ben@farm.example" 65 5)
       else None;
     items := [ {| item_id := 2; cart_user := "bob@mail.example";
                   product_id := 2; item_quantity := 1 |};
                {| item_id := 1; cart_user := "amy@mail.example";
                   product_id := 1; item_quantity := 3 |} ];
     orders := [];
     next_item_id := 3 |}.

Definition delivery : CheckoutData :=
  {| d_shipping_address := "12 Market Road"; d_contact_number := "0700000000";
     d_payment_method := "Cash on Delivery"; d_notes := None |}.

End CartCases.

(** ** [ProductListingSerializer] of [marketplace/serializers.py]: the
    demand level of the market insights it attaches to every listing *)

Module ListingSerializer.
Import Py Models.

Record DemandLevel : Type := mkDemandLevel {
  level : string;
  color : string;
  description : string
}.

(** [_get_demand_level]; [None] is a demand score that is absent. *)
Definition _get_demand_level (demand_score : option Q) : DemandLevel :=
  match demand_score with
  | None =>
      {| level := "UNKNOWN"; color := "default";
         description := "Demand data not available" |}
  | Some demand_score =>
      if Qltb (7 # 10)%Q demand_score then
        {| level := "HIGH"; color := "success"; description := "High demand" |}
      else if Qltb (4 # 10)%Q demand_score then
        {| level := "MEDIUM"; color := "warning"; description := "Moderate demand" |}
      else
        {| level := "LOW"; color := "error"; description := "Low demand" |}
  end.

(** [get_demand_level], and the entry [demand_level] of
    [get_market_insights]: the level of [obj.demand_score]. *)
Definition get_demand_level (obj : ProductListing) : DemandLevel :=
  _get_demand_level (Some (demand_score obj)).

End ListingSerializer.

(** ** The bulk request as it is sent

    [BulkPricePredictionSerializer] takes [predictions] as a list of
    objects whose values it does not check, so [cropType] need not be a
    string when [validate_predictions] and the view read it. *)

Module BulkRequest.
Import Py Views Serializers BulkView.














End BulkRequest.

(** * Theorems *)

Section NumberFacts.
Import Py.

Lemma Qltb_lt (x y : Q) : Qltb x y = true <-> (x < y)%Q.
Proof.
  unfold Qltb. rewrite negb_true_iff.
  split; intros H.
  - apply Qnot_le_lt. intros Hle. apply Qle_bool_iff in Hle. congruence.
  - destruct (Qle_bool y x) eqn:E; [|reflexivity].
    apply Qle_bool_iff in E. exfalso. apply (Qlt_not_le _ _ H E).
Qed.

Lemma Qltb_ge (x y : Q) : Qltb x y = false <-> (y <= x)%Q.
Proof.
  unfold Qltb. rewrite negb_false_iff. apply Qle_bool_iff.
Qed.

Lemma Qleb_le (x y : Q) : Qleb x y = true <-> (x <= y)%Q.
Proof. apply Qle_bool_iff. Qed.

Lemma max_lower_bound (a b : Q) : (a <= Py.max a b)%Q.
Proof.
  unfold Py.max. destruct (Qltb a b) eqn:E.
  - apply Qltb_lt in E. apply Qlt_le_weak. exact E.
  - apply Qle_refl.
Qed.

Lemma max_upper_bound (a b : Q) : (b <= Py.max a b)%Q.
Proof.
  unfold Py.max. destruct (Qltb a b) eqn:E.
  - apply Qle_refl.
  - apply Qltb_ge in E. exact E.
Qed.

Lemma max_monotone (a b c : Q) : (b <= c)%Q -> (Py.max a b <= Py.max a c)%Q.
Proof.
  intros H. unfold Py.max at 1. destruct (Qltb a b) eqn:E.
  - apply Qle_trans with c; [exact H | apply max_upper_bound].
  - apply max_lower_bound.
Qed.

Lemma round_half_even_floor (x : Q) : (Qfloor x <= round_half_even x)%Z.
Proof.
  unfold round_half_even.
  destruct (Qltb (x - inject_Z (Qfloor x)) (1 # 2));
    [lia | destruct (Qltb (1 # 2) (x - inject_Z (Qfloor x)));
           [lia | destruct (Z.even (Qfloor x)); lia]].
Qed.

Lemma round2_positive (x : Q) : (1 <= x)%Q -> (0 < round2 x)%Q.
Proof.
  intros H. unfold round2.
  assert (Hf : (100 <= round_half_even (x * 100))%Z).
  { assert (H1 : (Qfloor 100 <= Qfloor (x * 100))%Z)
      by (apply Qfloor_resp_le; lra).
    change (Qfloor 100) with 100%Z in H1.
    pose proof (round_half_even_floor (x * 100)). lia. }
  apply Qlt_shift_div_l; [reflexivity|].
  rewrite Qmult_0_l. change 0%Q with (inject_Z 0).
  rewrite <- Zlt_Qlt. lia.
Qed.

Lemma div_100 (x : Q) : (x / 100 == x * (1 # 100))%Q.
Proof. unfold Qdiv. reflexivity. Qed.

End NumberFacts.

Section RoundingFacts.
Import Py.

Lemma floor_bounds (x : Q) :
  (inject_Z (Qfloor x) <= x)%Q /\ (x < inject_Z (Qfloor x) + 1)%Q.
Proof.
  split; [apply Qfloor_le|].
  pose proof (Qlt_floor x) as H.
  rewrite inject_Z_plus in H. exact H.
Qed.

(** [round_half_even] is the floor or the floor plus one, by the
    fractional part. *)
Lemma round_half_even_cases (x : Q) :
  let f := Qfloor x in
  (round_half_even x = f /\ (x - inject_Z f <= 1 # 2)%Q)
  \/ (round_half_even x = (f + 1)%Z /\ (1 # 2 <= x - inject_Z f)%Q).
Proof.
  cbv zeta. unfold round_half_even.
  destruct (Qltb (x - inject_Z (Qfloor x)) (1 # 2)) eqn:E1.
  - apply Qltb_lt in E1. left. split; [reflexivity | lra].
  - apply Qltb_ge in E1.
    destruct (Qltb (1 # 2) (x - inject_Z (Qfloor x))) eqn:E2.
    + right. split; [reflexivity | exact E1].
    + apply Qltb_ge in E2.
      destruct (Z.even (Qfloor x)); [left | right]; split;
        (reflexivity || assumption).
Qed.

Lemma round_half_even_monotone (x y : Q) :
  (x <= y)%Q -> (round_half_even x <= round_half_even y)%Z.
Proof.
  intros Hxy.
  pose proof (Qfloor_resp_le x y Hxy) as Hf.
  destruct (Z.eq_dec (Qfloor x) (Qfloor y)) as [Heq|Hne].
  - unfold round_half_even. rewrite <- Heq.
    set (f := Qfloor x) in *.
    destruct (Qltb (x - inject_Z f) (1 # 2)) eqn:X1;
      destruct (Qltb (y - inject_Z f) (1 # 2)) eqn:Y1;
      try apply Qltb_lt in X1; try apply Qltb_ge in X1;
      try apply Qltb_lt in Y1; try apply Qltb_ge in Y1.
    + lia.
    + destruct (Qltb (1 # 2) (y - inject_Z f)); [lia|].
      destruct (Z.even f); lia.
    + exfalso. lra.
    + destruct (Qltb (1 # 2) (x - inject_Z f)) eqn:X2;
        destruct (Qltb (1 # 2) (y - inject_Z f)) eqn:Y2;
        try apply Qltb_lt in X2; try apply Qltb_ge in X2;
        try apply Qltb_lt in Y2; try apply Qltb_ge in Y2.
      * lia.
      * exfalso. lra.
      * destruct (Z.even f); lia.
      * lia.
  - assert (Hlt : (Qfloor x + 1 <= Qfloor y)%Z) by lia.
    destruct (round_half_even_cases x) as [[-> _]|[-> _]];
      pose proof (round_half_even_floor y); lia.
Qed.

Lemma round2_monotone (x y : Q) : (x <= y)%Q -> (round2 x <= round2 y)%Q.
Proof.
  intros H. unfold round2.
  assert (Hz : (round_half_even (x * 100) <= round_half_even (y * 100))%Z)
    by (apply round_half_even_monotone; lra).
  apply Qmult_le_compat_r; [|apply Qle_bool_iff; reflexivity].
  rewrite <- Zle_Qle. exact Hz.
Qed.

(** Rounding to two places moves a number by at most half a hundredth. *)
Lemma round2_error (x : Q) :
  (x - (1 # 200) <= round2 x)%Q /\ (round2 x <= x + (1 # 200))%Q.
Proof.
  unfold round2.
  destruct (floor_bounds (x * 100)) as [Hlo Hhi].
  assert (Hdiv : forall z : Z, (inject_Z z / 100 == inject_Z z * (1 # 100))%Q)
    by (intros z; apply div_100).
  rewrite Hdiv.
  destruct (round_half_even_cases (x * 100)) as [[-> Hr]|[-> Hr]].
  - split; lra.
  - rewrite inject_Z_plus. change (inject_Z 1) with 1%Q. split; lra.
Qed.

End RoundingFacts.

(** ** The query parser *)

Section ParserFacts.
Import Py QueryParser Scenarios.

Example split_example : split "  cheap   maize " = ["cheap"; "maize"].
Proof. reflexivity. Qed.

Example lower_example : lower "Near NAIROBI" = "near nairobi".
Proof. reflexivity. Qed.

(** Running the price loop over two lexicons in a row: a match in the
    second one hides the result of the first. *)
Lemma scan_price_app (query : string) (l1 l2 : list string) :
  scan_price (l1 ++ l2) query
  = match scan_price l2 query with
    | Some b => Some b
    | None => scan_price l1 query
    end.
Proof.
  unfold scan_price. rewrite fold_left_app.
  generalize (fold_left (price_step query) l1 None) as acc.
  induction l2 as [|i l2 IH]; intros acc; simpl.
  - reflexivity.
  - rewrite IH. rewrite (IH (price_step query None i)).
    destruct (fold_left (price_step query) l2 None); [reflexivity|].
    unfold price_step. destruct (str_in i query); reflexivity.
Qed.

(** The price loop returns the band of the last matching indicator. *)
Lemma scan_price_last_match (query : string) (indicators : list string) :
  scan_price indicators query
  = option_map price_band (find (fun i => str_in i query) (rev indicators)).
Proof.
  induction indicators as [|i l IH] using rev_ind.
  - reflexivity.
  - rewrite scan_price_app, rev_app_distr. simpl.
    unfold scan_price at 1. simpl. unfold price_step.
    destruct (str_in i query); [reflexivity|]. exact IH.
Qed.

(** The quality loop returns the grade of the first matching term. *)
Lemma scan_quality_first_match (query : string) (terms : list (string * string)) :
  scan_quality terms query
  = option_map snd (find (fun e => str_in (fst e) query) terms).
Proof.
  induction terms as [|[term q] rest IH]; simpl.
  - reflexivity.
  - destruct (str_in term query); [reflexivity | exact IH].
Qed.

(** A later matching indicator overrides an earlier one, whatever
    stands between and before them. *)
Lemma scan_price_override (query : string) (before after : list string) (i : string) :
  str_in i query = true ->
  forallb (fun j => negb (str_in j query)) after = true ->
  scan_price (before ++ i :: after) query = Some (price_band i).
Proof.
  intros Hi Hafter.
  rewrite scan_price_app.
  change (i :: after) with ([i] ++ after)%list.
  rewrite scan_price_app.
  assert (Hnone : scan_price after query = None).
  { clear Hi. induction after as [|j after IH] using rev_ind; [reflexivity|].
    rewrite forallb_app in Hafter. apply andb_true_iff in Hafter.
    destruct Hafter as [H1 H2]. simpl in H2.
    rewrite andb_true_r, negb_true_iff in H2.
    rewrite scan_price_app. unfold scan_price at 1. simpl.
    unfold price_step. rewrite H2. apply IH. exact H1. }
  rewrite Hnone. unfold scan_price. simpl. unfold price_step.
  rewrite Hi. reflexivity.
Qed.

(** An earlier matching term wins over whatever follows it. *)
Lemma scan_quality_short_circuit (query : string)
      (before after : list (string * string)) (term grade : string) :
  str_in term query = true ->
  forallb (fun e => negb (str_in (fst e) query)) before = true ->
  scan_quality (before ++ (term, grade) :: after) query = Some grade.
Proof.
  intros Ht Hbefore.
  induction before as [|[t g] before IH]; simpl.
  - rewrite Ht. reflexivity.
  - simpl in Hbefore. apply andb_true_iff in Hbefore.
    destruct Hbefore as [H1 H2]. rewrite negb_true_iff in H1.
    rewrite H1. apply IH. exact H2.
Qed.

(** C4, as amended.  Parsing the query "cheap organic tomatoes near
    nairobi" yields price_range low, quality PREMIUM, location nairobi
    and no category; its keywords are all five words of the query, in
    order, because none of them is a stop word or shorter than three
    characters. *)
Theorem parse_scenario_query :
  _parse_natural_language scenario_query
  = {| keywords := ["cheap"; "organic"; "tomatoes"; "near"; "nairobi"];
       category := None;
       price_range := Some "low";
       quality := Some "PREMIUM";
       location := Some "nairobi" |}.
Proof. vm_compute. reflexivity. Qed.

(** C4, as the specification states it, fails: the keywords of the
    scenario query are not the single word tomatoes. *)
Lemma parse_scenario_keywords_not_tomatoes :
  keywords (_parse_natural_language scenario_query) <> ["tomatoes"].
Proof. vm_compute. discriminate. Qed.

(** C9.  For every raw query the quality hint is the grade of the first
    entry of the quality lexicon that occurs in the normalised query, and
    the price hint is the band of the last entry of the price lexicon that
    occurs in it: the first scan stops at a match, the second lets later
    matches override earlier ones. *)
Theorem quality_first_price_last (raw : string) :
  let query := normalise raw in
  quality (_parse_natural_language raw)
  = option_map snd (find (fun e => str_in (fst e) query) quality_terms)
  /\ price_range (_parse_natural_language raw)
     = option_map price_band
         (find (fun i => str_in i query) (rev price_indicators)).
Proof.
  intros query. unfold _parse_natural_language. cbn [quality price_range].
  fold query. split.
  - apply scan_quality_first_match.
  - apply scan_price_last_match.
Qed.

(** The two policies differ on a query that matches two entries of each
    lexicon: quality keeps the first (premium), price the last (premium
    again, which overrides budget). *)
Example two_hints :
  quality (_parse_natural_language two_hints_query) = Some "PREMIUM"
  /\ price_range (_parse_natural_language two_hints_query) = Some "high"
  /\ scan_quality (rev quality_terms) (normalise two_hints_query) = Some "ECONOMY"
  /\ scan_price (rev price_indicators) (normalise two_hints_query) = Some "low".
Proof. vm_compute. repeat split. Qed.

(** An empty query has no hints and no keywords. *)
Example parse_empty :
  _parse_natural_language ""
  = {| keywords := []; category := None; price_range := None;
       quality := None; location := None |}.
Proof. reflexivity. Qed.

End ParserFacts.

(** ** Market insights and the per-listing price *)

Section ListingFacts.
Import Py Models SearchAI Scenarios.

Example insights_beans :
  _get_market_insights beans
  = {| demand_level := "High"; price_stability := "Volatile";
       best_time_to_buy := "Soon (prices may rise)";
       supply_outlook := "Adequate" |}.
Proof. reflexivity. Qed.

Lemma demand_level_cases (product : ProductListing) :
  demand_level (_get_market_insights product)
  = if Qltb (7 # 10) (demand_score product) then "High"
    else if Qltb (demand_score product) (3 # 10) then "Low"
    else "Medium".
Proof.
  unfold _get_market_insights.
  destruct (Qltb (7 # 10) (demand_score product));
    [|destruct (Qltb (demand_score product) (3 # 10))];
    destruct (Qltb 5 (Py.abs (price_trend product))); reflexivity.
Qed.

(** In the insights of [ai_search] the demand level is High exactly when
    demand_score > 0.7, Low exactly when demand_score < 0.3, and Medium
    exactly when 0.3 <= demand_score <= 0.7; no listing gets the level
    Unknown. *)
Lemma demand_level_thresholds (product : ProductListing) :
  let level := demand_level (_get_market_insights product) in
  let score := demand_score product in
  (level = "High" <-> (7 # 10 < score)%Q)
  /\ (level = "Low" <-> (score < 3 # 10)%Q)
  /\ (level = "Medium" <-> (3 # 10 <= score)%Q /\ (score <= 7 # 10)%Q)
  /\ level <> "Unknown".
Proof.
  cbv zeta. rewrite demand_level_cases.
  destruct (Qltb (7 # 10) (demand_score product)) eqn:Hhigh.
  - apply Qltb_lt in Hhigh.
    repeat split; try discriminate; try (intros _; exact Hhigh);
      try (intros H; exfalso; lra); try (intros [H1 H2]; exfalso; lra).
  - apply Qltb_ge in Hhigh.
    destruct (Qltb (demand_score product) (3 # 10)) eqn:Hlow.
    + apply Qltb_lt in Hlow.
      repeat split; try discriminate; try (intros _; exact Hlow);
        try (intros H; exfalso; lra); try (intros [H1 H2]; exfalso; lra).
    + apply Qltb_ge in Hlow.
      repeat split; try discriminate; try assumption;
        try (intros H; exfalso; lra).
Qed.

(** The serializer, which attaches market insights to every listing a
    view returns, grades demand as the specification says: HIGH above 0.7,
    MEDIUM above 0.4 and up to 0.7, LOW otherwise, UNKNOWN for an absent
    score. *)
Lemma serializer_demand_level (score : Q) :
  let answer := ListingSerializer.level
                  (ListingSerializer._get_demand_level (Some score)) in
  (answer = "HIGH" <-> (7 # 10 < score)%Q)
  /\ (answer = "MEDIUM" <-> (4 # 10 < score)%Q /\ (score <= 7 # 10)%Q)
  /\ (answer = "LOW" <-> (score <= 4 # 10)%Q)
  /\ ListingSerializer.level (ListingSerializer._get_demand_level None) = "UNKNOWN".
Proof.
  cbv zeta. unfold ListingSerializer._get_demand_level.
  destruct (Qltb (7 # 10) score) eqn:Hhigh.
  - apply Qltb_lt in Hhigh. cbn [ListingSerializer.level].
    repeat split; try discriminate; try (intros _; exact Hhigh);
      try (intros H; exfalso; lra); try (intros [H1 H2]; exfalso; lra).
  - apply Qltb_ge in Hhigh.
    destruct (Qltb (4 # 10) score) eqn:Hmid; cbn [ListingSerializer.level].
    + apply Qltb_lt in Hmid.
      repeat split; try discriminate; try assumption;
        try (intros H; exfalso; lra).
    + apply Qltb_ge in Hmid.
      repeat split; try discriminate; try (intros _; exact Hmid);
        try (intros H; exfalso; lra); try (intros [H1 H2]; exfalso; lra).
Qed.

(** C5 fails on the code.  [_get_market_insights] of [ai_search] cuts Low
    from Medium at 0.3 where the specification, and the serializer that
    attaches the insights to the listings the views return, cut at 0.4:
    for every listing whose demand score lies from 0.3 to 0.4 it answers
    Medium where the serializer answers LOW.  It spells the levels High,
    Medium and Low, has no level for an absent score, and agrees with the
    serializer on the grade of every score outside that interval. *)
Theorem demand_level_cut_differs (product : ProductListing) :
  let score := demand_score product in
  let engine := demand_level (_get_market_insights product) in
  let serializer :=
    ListingSerializer.level (ListingSerializer.get_demand_level product) in
  ((3 # 10 <= score)%Q /\ (score <= 4 # 10)%Q <->
   engine = "Medium" /\ serializer = "LOW")
  /\ (engine = "High" <-> serializer = "HIGH")
  /\ (engine = "Low" -> serializer = "LOW")
  /\ (serializer = "MEDIUM" -> engine = "Medium")
  /\ (serializer = "HIGH" <-> (7 # 10 < score)%Q)
  /\ (serializer = "MEDIUM" <-> (4 # 10 < score)%Q /\ (score <= 7 # 10)%Q)
  /\ (serializer = "LOW" <-> (score <= 4 # 10)%Q)
  /\ engine <> "UNKNOWN" /\ engine <> "Unknown"
  /\ ListingSerializer.level (ListingSerializer._get_demand_level None) = "UNKNOWN".
Proof.
  cbv zeta. unfold ListingSerializer.get_demand_level.
  destruct (demand_level_thresholds product) as [Ehigh [Elow [Emed Eunk]]].
  destruct (serializer_demand_level (demand_score product))
    as [Shigh [Smed [Slow Sunk]]].
  cbv zeta in Ehigh, Elow, Emed, Eunk, Shigh, Smed, Slow.
  split; [|split; [|split; [|split]]].
  - split.
    + intros [H1 H2]. split; [apply Emed; split; [exact H1 | lra] | apply Slow, H2].
    + intros [H1 H2]. apply Emed in H1. apply Slow in H2. tauto.
  - rewrite Ehigh, Shigh. reflexivity.
  - intros H. apply Elow in H. apply Slow. lra.
  - intros H. apply Smed in H. apply Emed. split; lra.
  - repeat (split; [assumption|]). split; [|split; [exact Eunk | exact Sunk]].
    rewrite demand_level_cases.
    destruct (Qltb (7 # 10) (demand_score product));
      [|destruct (Qltb (demand_score product) (3 # 10))]; discriminate.
Qed.

(** A listing whose demand score is 0.35. *)
Example demand_level_035 :
  demand_score maize = (35 # 100)%Q
  /\ demand_level (_get_market_insights maize) = "Medium"
  /\ ListingSerializer.level (ListingSerializer.get_demand_level maize) = "LOW"
  /\ spec_demand_level (demand_score maize) = "Low".
Proof. repeat split. Qed.

(** Whatever the regressor does, [_predict_price] returns. *)
Lemma predict_price_returns (env : Env) (product : ProductListing) :
  exists v, _predict_price env product = Ok v.
Proof.
  unfold _predict_price.
  destruct (price_model env (features env product)); simpl; eauto.
Qed.

(** C10.  For every listing with a positive current price,
    [_predict_price] returns a strictly positive number: the output of
    the regressor floored at 0.1 when the regressor answers, the current
    price of the listing when it raises. *)
Theorem predict_price_positive (env : Env) (product : ProductListing) :
  (0 < price product)%Q ->
  exists v,
    _predict_price env product = Ok v
    /\ (0 < v)%Q
    /\ (forall p, price_model env (features env product) = Ok p ->
                  v = Py.max p (1 # 10) /\ (1 # 10 <= v)%Q)
    /\ (forall e, price_model env (features env product) = Raise e ->
                  v = price product).
Proof.
  intros Hprice. unfold _predict_price.
  destruct (price_model env (features env product)) as [p|e] eqn:Hmodel; simpl.
  - exists (Py.max p (1 # 10)).
    assert (Hfloor : (1 # 10 <= Py.max p (1 # 10))%Q) by apply max_upper_bound.
    split; [reflexivity|]. split; [lra|]. split.
    + intros p' Hp. injection Hp as <-. split; [reflexivity | exact Hfloor].
    + intros e He. discriminate.
  - exists (price product).
    split; [reflexivity|]. split; [exact Hprice|]. split.
    + intros p Hp. discriminate.
    + intros e' He. reflexivity.
Qed.

(** Every result of a search carries the price [_predict_price] returns
    for its listing. *)
Lemma enhance_attaches_predictions (env : Env) (rows : list Row) :
  exists out,
    _enhance_with_predictions env rows = Ok out
    /\ Forall2 (fun r e => _predict_price env (listing r) = Ok (predicted_price e)
                           /\ current_price e = price (listing r))
               rows out.
Proof.
  induction rows as [|r rows [out [Hout Hall]]].
  - exists []. split; [reflexivity | constructor].
  - destruct (predict_price_returns env (listing r)) as [v Hv].
    eexists. cbn [_enhance_with_predictions]. rewrite Hv, Hout. cbn [bind].
    split; [reflexivity|]. constructor; [|exact Hall].
    split; [exact Hv | reflexivity].
Qed.

Lemma predict_price_positive_witness :
  (0 < price maize)%Q
  /\ exists v,
       _predict_price env_broken_model maize = Ok v
       /\ (0 < v)%Q
       /\ (forall p, price_model env_broken_model (features env_broken_model maize) = Ok p ->
                     v = Py.max p (1 # 10) /\ (1 # 10 <= v)%Q)
       /\ (forall e, price_model env_broken_model (features env_broken_model maize) = Raise e ->
                     v = price maize).
Proof.
  split; [reflexivity | apply (predict_price_positive env_broken_model maize); reflexivity].
Defined.

Example predict_price_floor :
  _predict_price (env_with ai_search_globals price_profile) maize = Ok 42%Q.
Proof. reflexivity. Qed.

End ListingFacts.

(** ** Personalisation *)

Section PersonalizerFacts.
Import Py Models SearchAI Scenarios.

Lemma qfilter_listings (p : ProductListing -> bool) (rows : list Row) :
  map listing (qfilter p rows) = filter p (map listing rows).
Proof.
  unfold qfilter. induction rows as [|r rows IH]; simpl.
  - reflexivity.
  - destruct (p (listing r)); simpl; rewrite IH; reflexivity.
Qed.

Lemma boost_listings (preferred : list Z) (rows : list Row) :
  map listing (map (boost preferred) rows) = map listing rows.
Proof. rewrite map_map. reflexivity. Qed.

Lemma filter_filter {A} (p q : A -> bool) (l : list A) :
  filter q (filter p l) = filter (fun x => p x && q x) l.
Proof.
  induction l as [|x l IH]; simpl; [reflexivity|].
  destruct (p x); simpl; [destruct (q x)|]; rewrite IH; reflexivity.
Qed.

Lemma filter_true {A} (l : list A) : filter (fun _ => true) l = l.
Proof. induction l as [|x l IH]; simpl; [|rewrite IH]; reflexivity. Qed.

(** The price stage of [_apply_personalization] is the filter
    [passes_price]. *)
Lemma price_stage (profile : UserPreference) (rows : list Row) :
  map listing
    (if truthy_decimal (price_range_min profile)
        && truthy_decimal (price_range_max profile)
     then match price_range_min profile, price_range_max profile with
          | Some lo, Some hi => qfilter (in_price_range lo hi) rows
          | _, _ => rows
          end
     else rows)
  = filter (passes_price profile) (map listing rows).
Proof.
  unfold passes_price, truthy_decimal, in_price_range.
  destruct (price_range_min profile) as [lo|], (price_range_max profile) as [hi|];
    simpl; try (rewrite filter_true; reflexivity).
  - destruct (Qeq_bool lo 0), (Qeq_bool hi 0); simpl;
      try (rewrite filter_true; reflexivity).
    apply qfilter_listings.
  - destruct (Qeq_bool lo 0); simpl; rewrite filter_true; reflexivity.
Qed.

(** The quality stage is the filter [passes_quality]. *)
Lemma quality_stage (profile : UserPreference) (rows : list Row) :
  map listing
    (if truthy_str (quality_preference profile)
     then match quality_preference profile with
          | Some q => qfilter (fun l => String.eqb (quality_grade l) q) rows
          | None => rows
          end
     else rows)
  = filter (passes_quality profile) (map listing rows).
Proof.
  unfold passes_quality, truthy_str.
  destruct (quality_preference profile) as [[|c q]|];
    try (rewrite filter_true; reflexivity).
  apply qfilter_listings.
Qed.

(** No stage of [_apply_personalization] filters on the preferred
    categories: when it returns, the listings it returns are exactly the
    ranked listings that pass the price-range filter and the quality
    filter of the profile, in ranked order; the category stage is an
    annotation. *)
Lemma personalization_keeps_categories
        (env : Env) (ranked : list Row) (user : Z)
        (profile : UserPreference) (out : list Row) :
  preferences env user = Some profile ->
  _apply_personalization env ranked user = Ok out ->
  map listing out
  = filter (fun l => passes_price profile l && passes_quality profile l)
           (map listing ranked)
  /\ (preferred_categories profile <> [] ->
      forall r, In r out ->
        preference_boost r
        = Some (if existsb (Z.eqb (category_id (listing r)))
                           (preferred_categories profile)
                then (12 # 10)%Q else 1%Q)).
Proof.
  intros Hprofile Hout. unfold _apply_personalization in Hout.
  rewrite Hprofile in Hout.
  assert (Hrows : exists rows,
             map listing rows = map listing ranked
             /\ (preferred_categories profile <> [] ->
                 rows = map (boost (preferred_categories profile)) ranked)
             /\ out
                = (let rows :=
                     if truthy_decimal (price_range_min profile)
                        && truthy_decimal (price_range_max profile)
                     then match price_range_min profile, price_range_max profile with
                          | Some lo, Some hi => qfilter (in_price_range lo hi) rows
                          | _, _ => rows
                          end
                     else rows in
                   if truthy_str (quality_preference profile)
                   then match quality_preference profile with
                        | Some q =>
                            qfilter (fun l => String.eqb (quality_grade l) q) rows
                        | None => rows
                        end
                   else rows)).
  { destruct (preferred_categories profile) as [|c cs] eqn:Hcats.
    - exists ranked. simpl in Hout. injection Hout as <-.
      split; [reflexivity|]. split; [congruence | reflexivity].
    - destruct (global_name env "models"); [|discriminate].
      simpl in Hout. injection Hout as <-.
      exists (map (boost (c :: cs)) ranked).
      split; [apply boost_listings|]. split; reflexivity. }
  destruct Hrows as [rows [Hsame [Hboost ->]]]. cbv zeta.
  split.
  - rewrite quality_stage, price_stage, Hsame. apply filter_filter.
  - intros Hne r Hin.
    assert (Hr : In r rows).
    { destruct (truthy_str (quality_preference profile));
        [destruct (quality_preference profile)|];
        repeat match type of Hin with
               | In _ (qfilter _ _) => apply filter_In in Hin; destruct Hin as [Hin _]
               end;
        destruct (truthy_decimal (price_range_min profile)
                  && truthy_decimal (price_range_max profile));
        try destruct (price_range_min profile);
        try destruct (price_range_max profile);
        repeat match type of Hin with
               | In _ (qfilter _ _) => apply filter_In in Hin; destruct Hin as [Hin _]
               end; exact Hin. }
    rewrite (Hboost Hne) in Hr. apply in_map_iff in Hr.
    destruct Hr as [r0 [<- _]]. reflexivity.
Qed.

End PersonalizerFacts.

Section PersonalizerScenarios.
Import Py Models SearchAI Scenarios.

(** C6 fails on the code.  For every ranked input and every profile
    whose preferred_categories is not empty, [_apply_personalization]
    returns nothing at all: the category stage needs the name [models],
    which [ai_search.py] never imports, so the call raises NameError,
    which the function does not catch.  No listing is dropped and none is
    returned.  The stage it fails to build is an annotation with a boost,
    not a filter on the category. *)
Theorem personalization_raises_for_categories
        (env : Env) (ranked : list Row) (user : Z) (profile : UserPreference) :
  globals env = ai_search_globals ->
  preferences env user = Some profile ->
  preferred_categories profile <> [] ->
  _apply_personalization env ranked user = Raise (NameError "models")
  /\ forall out, _apply_personalization env ranked user <> Ok out.
Proof.
  intros Hglobals Hprofile Hcats.
  assert (H : _apply_personalization env ranked user = Raise (NameError "models")).
  { unfold _apply_personalization, global_name. rewrite Hprofile, Hglobals.
    destruct (preferred_categories profile) as [|c cs]; [contradiction|].
    reflexivity. }
  split; [exact H|]. intros out. rewrite H. discriminate.
Qed.

Lemma personalization_raises_for_categories_witness :
  preferred_categories category_profile = [1%Z]
  /\ category_id beans = 1%Z /\ category_id maize = 2%Z
  /\ _apply_personalization (env_imported category_profile)
       [plain beans; plain maize] 7
     = Raise (NameError "models").
Proof.
  split; [reflexivity|]. split; [reflexivity|]. split; [reflexivity|].
  apply (personalization_raises_for_categories
           (env_imported category_profile) [plain beans; plain maize] 7
           category_profile); [reflexivity | reflexivity | discriminate].
Defined.

Lemma in_price_range_spec (lo hi : Q) (l : ProductListing) :
  in_price_range lo hi l = true <-> (lo <= price l)%Q /\ (price l <= hi)%Q.
Proof.
  unfold in_price_range. rewrite andb_true_iff, !Qleb_le. reflexivity.
Qed.

Lemma truthy_decimal_nonzero (q : Q) :
  ~ (q == 0)%Q -> truthy_decimal (Some q) = true.
Proof.
  intros H. simpl. destruct (Qeq_bool q 0) eqn:E; [|reflexivity].
  apply Qeq_bool_iff in E. contradiction.
Qed.

(** C7.  For a profile with price_range_min = 10 and price_range_max =
    20 and no other preference set, personalising the ranked list of
    three listings priced 5, 15 and 25 returns exactly the listing
    priced 15. *)
Theorem personalize_price_range
        (env : Env) (user : Z) (profile : UserPreference) (lo hi : Q)
        (l5 l15 l25 : ProductListing) :
  preferences env user = Some profile ->
  preferred_categories profile = [] ->
  truthy_str (quality_preference profile) = false ->
  price_range_min profile = Some lo -> (lo == 10)%Q ->
  price_range_max profile = Some hi -> (hi == 20)%Q ->
  (price l5 == 5)%Q -> (price l15 == 15)%Q -> (price l25 == 25)%Q ->
  _apply_personalization env [plain l5; plain l15; plain l25] user
  = Ok [plain l15].
Proof.
  intros Hprofile Hcats Hquality Hmin Hlo Hmax Hhi H5 H15 H25.
  unfold _apply_personalization.
  rewrite Hprofile, Hcats, Hquality, Hmin, Hmax.
  assert (E5 : in_price_range lo hi l5 = false).
  { destruct (in_price_range lo hi l5) eqn:E; [|reflexivity].
    apply in_price_range_spec in E. exfalso. lra. }
  assert (E15 : in_price_range lo hi l15 = true).
  { apply in_price_range_spec. lra. }
  assert (E25 : in_price_range lo hi l25 = false).
  { destruct (in_price_range lo hi l25) eqn:E; [|reflexivity].
    apply in_price_range_spec in E. exfalso. lra. }
  assert (Tlo : truthy_decimal (Some lo) = true)
    by (apply truthy_decimal_nonzero; intros H; lra).
  assert (Thi : truthy_decimal (Some hi) = true)
    by (apply truthy_decimal_nonzero; intros H; lra).
  cbn [bind]. rewrite Tlo, Thi. unfold qfilter. cbn [andb filter listing plain].
  rewrite E5, E15, E25. reflexivity.
Qed.

Lemma personalize_price_range_witness :
  _apply_personalization (env_imported price_profile)
    [plain (listing_priced 1 5); plain (listing_priced 2 15);
     plain (listing_priced 3 25)] 7
  = Ok [plain (listing_priced 2 15)].
Proof.
  apply (personalize_price_range (env_imported price_profile) 7 price_profile
           10 20 (listing_priced 1 5) (listing_priced 2 15) (listing_priced 3 25));
    reflexivity.
Defined.

End PersonalizerScenarios.

(** ** The search log *)

Section SearchFacts.
Import Py Django Models SearchAI Scenarios.

(** [SearchQueryLog] has no field [filters_used]. *)
Lemma filters_used_unknown :
  mem "filters_used" SearchQueryLog_fields = false.
Proof. reflexivity. Qed.

(** The call to [create] in [_log_search_query] is refused, so the
    table is left as it was. *)
Lemma log_search_query_stores_nothing
      (log : list dict) (query : string) (user : option Z)
      (filters : option Filters) :
  _log_search_query log query user filters = log.
Proof. reflexivity. Qed.

(** The entry is built before the search runs: its results_count is 0
    whatever the search returns, and nothing updates it later. *)
Lemma log_entry_counts_zero (query : string) (user : option Z)
      (filters : option Filters) :
  get (log_entry query user filters) "results_count" = Some (VInt 0)
  /\ unknown_keyword SearchQueryLog_fields (log_entry query user filters)
     = Some "filters_used".
Proof. split; reflexivity. Qed.

(** C8 fails on the code: no call of [search_products] adds an entry to
    the search log, whatever the query, the filters and the number of
    results; the entry it tries to write has results_count 0 and is
    refused for its keyword filters_used. *)
Theorem search_products_logs_nothing
        (env : Env) (store : list ProductListing) (log : list dict)
        (query : string) (user : option Z) (filters : option Filters)
        (limit : nat) :
  snd (search_products env store log query user filters limit) = log
  /\ objects_create SearchQueryLog_fields (log_entry query user filters) log
     = Raise (TypeError "filters_used")
  /\ get (log_entry query user filters) "results_count" = Some (VInt 0).
Proof.
  split; [|split].
  - unfold search_products. cbn [snd]. apply log_search_query_stores_nothing.
  - unfold objects_create.
    destruct (log_entry_counts_zero query user filters) as [_ ->]. reflexivity.
  - apply log_entry_counts_zero.
Qed.

(** A search for maize over a store that holds one available maize
    listing returns one result and leaves the log empty. *)
Example search_maize :
  exists r,
    search_products env_broken_model [maize] [] "maize" None None 20 = (Ok r, [])
    /\ total_count r = 1
    /\ List.length (results r) = 1.
Proof. eexists. split; [reflexivity|]. split; reflexivity. Qed.

End SearchFacts.

(** ** The price predictor *)

Section PredictorFacts.
Import Py Django Models Predictor.

(** [PricePrediction] has neither of the two fields the cache lookup
    filters on besides crop and region. *)
Lemma prediction_horizon_unknown :
  mem "prediction_horizon" PricePrediction_fields = false
  /\ mem "prediction_date" PricePrediction_fields = false
  /\ mem "factors" PricePrediction_fields = false.
Proof. repeat split. Qed.

(** The cache lookup is refused whatever the table holds. *)
Lemma cache_lookup_raises (self : instance) (today : Z) (table : list dict)
      (crop_type region : string) (days_ahead : Z) :
  predict_body self today table crop_type region days_ahead
  = (Raise (FieldError "prediction_horizon"), table).
Proof. reflexivity. Qed.

(** Class [PricePredictor] has no method [_get_seasonal_factor]: the
    computation of a new prediction raises before it reaches the
    confidence. *)
Lemma generate_raises (crop_type region : string) (days_ahead : Z) :
  _generate_price_prediction PricePredictor_class crop_type region days_ahead
  = Raise (AttributeError "_get_seasonal_factor").
Proof. reflexivity. Qed.

(** C1 fails on the code: every call of [predict_market_prices] returns
    the dict of the except branch, which has neither a source nor a
    predicted_price, and stores nothing; a second call on the same day
    meets the same table and does the same.  The cache lookup is refused
    for its keyword prediction_horizon, and the computation of a new
    prediction would raise as well. *)
Theorem predict_market_prices_unavailable
        (self : instance) (today : Z) (table : list dict)
        (crop_type region : string) (days_ahead : Z) :
  let first := predict_market_prices self today table crop_type region days_ahead in
  let second :=
    predict_market_prices self today (snd first) crop_type region days_ahead in
  fst first = unavailable crop_type region days_ahead
  /\ snd first = table
  /\ get (fst first) "source" = None
  /\ get (fst first) "predicted_price" = None
  /\ second = first
  /\ _generate_price_prediction PricePredictor_class crop_type region days_ahead
     = Raise (AttributeError "_get_seasonal_factor").
Proof.
  assert (Hcall : forall t,
             predict_market_prices self today t crop_type region days_ahead
             = (unavailable crop_type region days_ahead, t)).
  { intros t. unfold predict_market_prices.
    rewrite cache_lookup_raises. reflexivity. }
  cbv zeta. rewrite !Hcall. cbn [fst snd]. rewrite ?Hcall.
  repeat split.
Qed.

Example predict_maize_twice :
  let first := predict_market_prices PricePredictor_class 0 [] "Maize" "Central Kenya" 30 in
  first = ([("crop_type", VStr "Maize"); ("region", VStr "Central Kenya");
            ("error", VStr "Prediction unavailable"); ("horizon_days", VInt 30)], [])
  /\ predict_market_prices PricePredictor_class 0 (snd first) "Maize" "Central Kenya" 30
     = first.
Proof. split; reflexivity. Qed.

(** When the computation of a new prediction returns, its confidence is
    [confidence_for] of the horizon. *)
Lemma generate_confidence (self : instance) (crop_type region : string)
      (days_ahead : Z) (prediction : dict) :
  _generate_price_prediction self crop_type region days_ahead = Ok prediction ->
  get prediction "confidence" = Some (VNum (confidence_for days_ahead)).
Proof.
  unfold _generate_price_prediction. intros H.
  repeat match type of H with
         | bind ?m _ = _ => destruct m; simpl in H; [|discriminate]
         end.
  injection H as <-. reflexivity.
Qed.

(** With the seasonal method of [PromptBasedSearchAI] within reach of
    [self], the computation returns. *)
Example generate_with_seasonal_factor :
  exists prediction,
    _generate_price_prediction
      (("_get_seasonal_factor", arity0 (9 # 10)) :: PricePredictor_class)
      "Maize" "Central Kenya" 30 = Ok prediction
    /\ get prediction "confidence" = Some (VNum (confidence_for 30))
    /\ (confidence_for 30 == 5 # 10)%Q.
Proof. eexists. split; [reflexivity|]. split; reflexivity. Qed.

Lemma confidence_floor (days_ahead : Z) : (1 # 10 <= confidence_for days_ahead)%Q.
Proof. apply max_lower_bound. Qed.

Lemma confidence_linear (days_ahead : Z) :
  (days_ahead <= 70)%Z ->
  (confidence_for days_ahead == (8 # 10) - inject_Z days_ahead / 100)%Q.
Proof.
  intros H. unfold confidence_for, Py.max.
  assert (Hq : (inject_Z days_ahead <= 70)%Q).
  { change 70%Q with (inject_Z 70). rewrite <- Zle_Qle. exact H. }
  destruct (Qltb (1 # 10) ((8 # 10) - inject_Z days_ahead / 100)) eqn:E.
  - reflexivity.
  - apply Qltb_ge in E. rewrite div_100 in *. lra.
Qed.

Lemma confidence_floored (days_ahead : Z) :
  (70 <= days_ahead)%Z -> (confidence_for days_ahead == 1 # 10)%Q.
Proof.
  intros H. unfold confidence_for, Py.max.
  assert (Hq : (70 <= inject_Z days_ahead)%Q).
  { change 70%Q with (inject_Z 70). rewrite <- Zle_Qle. exact H. }
  destruct (Qltb (1 # 10) ((8 # 10) - inject_Z days_ahead / 100)) eqn:E.
  - apply Qltb_lt in E. exfalso. rewrite div_100 in E. lra.
  - reflexivity.
Qed.

(** In a list that passes [non_increasing], a later element is at most
    an earlier one. *)
Lemma non_increasing_nth (l : list Q) (d : Q) :
  Binary64.non_increasing l = true ->
  forall i j, i <= j -> j < List.length l -> (nth j l d <= nth i l d)%Q.
Proof.
  induction l as [|a l IH]; intros H i j Hij Hj.
  - simpl in Hj. lia.
  - destruct l as [|b l'].
    + simpl in Hj. assert (j = 0) by lia. assert (i = 0) by lia. subst.
      apply Qle_refl.
    + cbn [Binary64.non_increasing] in H. apply andb_true_iff in H.
      destruct H as [Hba Hrest]. apply Qle_bool_iff in Hba.
      destruct i as [|i], j as [|j].
      * apply Qle_refl.
      * cbn [nth]. apply Qle_trans with b; [|exact Hba].
        apply (IH Hrest 0 j); [lia | simpl in Hj |- *; lia].
      * lia.
      * cbn [nth]. apply (IH Hrest i j); [lia | simpl in Hj |- *; lia].
Qed.

Lemma confidences_nth (n h : nat) :
  h < n ->
  nth h (Binary64.confidences n) (Binary64.to_Q (Binary64.confidence_for 0))
  = Binary64.to_Q (Binary64.confidence_for (Z.of_nat h)).
Proof.
  intros H. unfold Binary64.confidences.
  change (Binary64.to_Q (Binary64.confidence_for 0))
    with ((fun h => Binary64.to_Q (Binary64.confidence_for (Z.of_nat h))) 0).
  rewrite map_nth, seq_nth by exact H. reflexivity.
Qed.

(** Over the horizons a request may carry (at most 365 days), the
    confidence computed in double precision is finite and non-increasing. *)
Lemma binary64_confidence_monotone (h1 h2 : nat) :
  h1 < h2 -> h2 <= 365 ->
  Binary64.is_finite (Binary64.confidence_for (Z.of_nat h2)) = true
  /\ (Binary64.to_Q (Binary64.confidence_for (Z.of_nat h2))
      <= Binary64.to_Q (Binary64.confidence_for (Z.of_nat h1)))%Q.
Proof.
  intros H12 H2. split.
  - assert (Hall : forallb (fun h => Binary64.is_finite
                                       (Binary64.confidence_for (Z.of_nat h)))
                           (seq 0 366) = true) by (vm_compute; reflexivity).
    rewrite forallb_forall in Hall. apply Hall. apply in_seq. lia.
  - assert (Hcheck : Binary64.non_increasing (Binary64.confidences 366) = true)
      by (vm_compute; reflexivity).
    pose proof (non_increasing_nth _ (Binary64.to_Q (Binary64.confidence_for 0))
                  Hcheck h1 h2) as Hle.
    rewrite !confidences_nth in Hle by lia.
    apply Hle; [lia|]. unfold Binary64.confidences.
    rewrite length_map, length_seq. lia.
Qed.

(** In double precision the confidence at horizon 70 is a little above
    the floor, where exact arithmetic gives the floor itself. *)
Example binary64_confidence_70 :
  Binary64.confidence_for 70 = S754_finite false 7205759403792800 (-56)
  /\ Binary64.lit_0_1 = S754_finite false 7205759403792794 (-56)
  /\ Binary64.confidence_for 71 = Binary64.lit_0_1.
Proof. vm_compute. repeat split. Qed.

(** The expression of line 406 is a function of the horizon alone: 0.8
    at horizon 0, lower by horizon / 100 up to horizon 70, never below the
    floor 0.1, and non-increasing.  The order also holds for the values
    computed in double precision, for all horizons up to 365 days. *)
Lemma confidence_monotone (h1 h2 : Z) :
  (h1 < h2)%Z ->
  (confidence_for h2 <= confidence_for h1)%Q
  /\ (1 # 10 <= confidence_for h2)%Q
  /\ (confidence_for 0 == 8 # 10)%Q
  /\ ((h1 <= 70)%Z -> (confidence_for h1 == (8 # 10) - inject_Z h1 / 100)%Q)
  /\ ((0 <= h1)%Z -> (h2 <= 365)%Z ->
      (Binary64.to_Q (Binary64.confidence_for h2)
       <= Binary64.to_Q (Binary64.confidence_for h1))%Q).
Proof.
  intros H. split; [|split; [apply confidence_floor|split;
                             [reflexivity | split; [apply confidence_linear|]]]].
  - unfold confidence_for. apply max_monotone.
    assert (Hq : (inject_Z h1 <= inject_Z h2)%Q) by (rewrite <- Zle_Qle; lia).
    rewrite !div_100. lra.
  - intros H0 H365.
    rewrite <- (Z2Nat.id h1), <- (Z2Nat.id h2) by lia.
    apply binary64_confidence_monotone; lia.
Qed.

Example confidence_30_60 :
  (confidence_for 60 <= confidence_for 30)%Q
  /\ (Binary64.to_Q (Binary64.confidence_for 60)
      <= Binary64.to_Q (Binary64.confidence_for 30))%Q.
Proof.
  destruct (confidence_monotone 30 60) as [Hexact [_ [_ [_ Hdouble]]]];
    [reflexivity|].
  split; [exact Hexact | apply Hdouble; lia].
Qed.

(** C3 fails on the code: no prediction carries a confidence.  Class
    [PricePredictor] has no method [_get_seasonal_factor], so
    [_generate_price_prediction] raises AttributeError at its second line,
    before it reaches the confidence, for every crop, region and horizon;
    and what [predict_market_prices] returns holds no confidence.  The
    expression the function would reach is the decreasing function of the
    specification: on any object that has the five methods, two
    predictions for horizons h1 < h2 carry confidences c1 >= c2, both
    between 0.1 and 0.8 for horizons that are not negative. *)
Theorem prediction_confidence_is_never_computed
        (crop_type region : string) (h1 h2 : Z) :
  _generate_price_prediction PricePredictor_class crop_type region h1
  = Raise (AttributeError "_get_seasonal_factor")
  /\ (forall self today table,
        get (fst (predict_market_prices self today table crop_type region h1))
            "confidence" = None)
  /\ (forall self p1 p2,
        (0 <= h1 < h2)%Z ->
        _generate_price_prediction self crop_type region h1 = Ok p1 ->
        _generate_price_prediction self crop_type region h2 = Ok p2 ->
        exists c1 c2,
          get p1 "confidence" = Some (VNum c1)
          /\ get p2 "confidence" = Some (VNum c2)
          /\ (c2 <= c1)%Q /\ (1 # 10 <= c2)%Q /\ (c1 <= 8 # 10)%Q).
Proof.
  split; [reflexivity|]. split.
  - intros self today table. unfold predict_market_prices.
    rewrite cache_lookup_raises. reflexivity.
  - intros self p1 p2 [H0 H12] Hp1 Hp2.
    exists (confidence_for h1), (confidence_for h2).
    split; [exact (generate_confidence self crop_type region h1 p1 Hp1)|].
    split; [exact (generate_confidence self crop_type region h2 p2 Hp2)|].
    destruct (confidence_monotone h1 h2 H12) as [Hle [Hfloor _]].
    split; [exact Hle|]. split; [exact Hfloor|].
    assert (Hq : (0 <= inject_Z h1)%Q)
      by (change 0%Q with (inject_Z 0); rewrite <- Zle_Qle; exact H0).
    unfold confidence_for, Py.max.
    destruct (Qltb (1 # 10) ((8 # 10) - inject_Z h1 / 100));
      [rewrite div_100; lra | apply Qle_bool_iff; reflexivity].
Qed.

End PredictorFacts.

(** ** The prediction view and its fallback *)

Section ViewFacts.
Import Py Views Scenarios.

Lemma fallback_base_price_bound (crop_type : string) :
  (1890 # 100 <= base_price_of fallback_base_prices crop_type 40)%Q.
Proof.
  unfold fallback_base_prices. cbn [base_price_of].
  repeat match goal with
         | |- context [String.eqb ?a ?b] => destruct (String.eqb a b)
         end; apply Qle_bool_iff; reflexivity.
Qed.

Lemma seasonal_price_bound (m : nat) (base_price : Q) :
  (0 <= base_price)%Q -> (base_price * (8 # 10) <= seasonal_price m base_price)%Q.
Proof.
  intros H. unfold seasonal_price.
  destruct (in_months m [12; 1; 2]); [lra|].
  destruct (in_months m [6; 7; 8]); lra.
Qed.

(** The price the fallback computes before rounding is at least 13. *)
Lemma fallback_price_bound (env : Env) (crop_type : string) :
  (- (1 # 10) <= variation env)%Q ->
  (13 <= seasonal_price (month env)
           (base_price_of fallback_base_prices crop_type 40)
         * (1 + variation env))%Q.
Proof.
  intros Hv.
  pose proof (fallback_base_price_bound crop_type) as Hb.
  set (b := base_price_of fallback_base_prices crop_type 40) in *.
  assert (Hs : (b * (8 # 10) <= seasonal_price (month env) b)%Q)
    by (apply seasonal_price_bound; lra).
  set (s := seasonal_price (month env) b) in *.
  assert (H1 : (1512 # 100 <= s)%Q) by lra.
  assert (H2 : (9 # 10 <= 1 + variation env)%Q) by lra.
  apply Qle_trans with ((1512 # 100) * (9 # 10))%Q;
    [apply Qle_bool_iff; reflexivity|].
  apply Qle_trans with (s * (9 # 10))%Q.
  - apply Qmult_le_compat_r; [exact H1 | apply Qle_bool_iff; reflexivity].
  - rewrite (Qmult_comm s (9 # 10)), (Qmult_comm s (1 + variation env)).
    apply Qmult_le_compat_r; [exact H2 | lra].
Qed.

(** The fallback always answers, with a positive price within a tenth,
    and half a cent of rounding, of the seasonal base price. *)
Lemma fallback_succeeds (env : Env) (crop_type region : string) (days_ahead : Z) :
  (- (1 # 10) <= variation env)%Q -> (variation env <= 1 # 10)%Q ->
  let season :=
    seasonal_price (month env) (base_price_of fallback_base_prices crop_type 40) in
  exists r p,
    _get_fallback_prediction env crop_type region days_ahead = Ok r
    /\ status r = 200 /\ success r = true
    /\ prediction_type r = Some "fallback"
    /\ predicted_price r = Some p /\ (0 < p)%Q
    /\ (season * (9 # 10) - (1 # 200) <= p)%Q
    /\ (p <= season * (11 # 10) + (1 # 200))%Q.
Proof.
  intros Hlo Hhi season. pose proof (fallback_price_bound env crop_type Hlo) as Hb.
  fold season in Hb.
  assert (Hseason : (0 <= season)%Q).
  { subst season.
    pose proof (fallback_base_price_bound crop_type) as Hbase.
    pose proof (seasonal_price_bound (month env)
                  (base_price_of fallback_base_prices crop_type 40)) as H.
    lra. }
  destruct (round2_error (season * (1 + variation env))) as [Hr1 Hr2].
  assert (H1 : (season * (9 # 10) <= season * (1 + variation env))%Q) by nra.
  assert (H2 : (season * (1 + variation env) <= season * (11 # 10))%Q) by nra.
  unfold _get_fallback_prediction, try_except.
  eexists. eexists. split; [reflexivity|].
  cbn [status success prediction_type predicted_price].
  repeat (split; [reflexivity|]). fold season.
  split; [apply round2_positive; lra|]. split; lra.
Qed.

(** Whatever the request and the predictor do, [post] returns a response. *)
Lemma post_returns (env : Env) (request : option Validated) :
  exists r, post env request = Ok r.
Proof.
  unfold post.
  match goal with
  | |- exists r, try_except ?body _ = _ => destruct body; simpl; eauto
  end.
Qed.

(** C2 fails on the code.  For every price-prediction request that the
    global branch does not answer, the view returns a response.  A
    predictor result whose success flag is not set is replaced by the
    fallback heuristic (base price of the crop or 40.00, seasonal
    multiplier, jitter of at most 10 per cent), tagged prediction_type
    fallback, with a positive price.  But when the predictor call raises,
    no fallback is tried: the caller gets the error response of status
    500, which is no success, is not tagged fallback and carries no
    price.  In [predict_market_prices] a raise in the body is likewise
    answered with the error dict, which holds no predicted_price. *)
Theorem prediction_raise_is_answered_500 (env : Env) (data : Validated) :
  global_attempt env data = None ->
  (- (1 # 10) <= variation env)%Q -> (variation env <= 1 # 10)%Q ->
  let outcome :=
    predict_price_api env (cropType data) (market data) (prediction_days data)
                      (country data) in
  let season :=
    seasonal_price (month env)
                   (base_price_of fallback_base_prices (cropType data) 40) in
  exists r,
    post env (Some data) = Ok r
    /\ (forall e, outcome = Raise e ->
          r = error_response 500 "Failed to generate price prediction"
          /\ status r = 500 /\ success r = false
          /\ predicted_price r = None
          /\ prediction_type r <> Some "fallback")
    /\ (forall a, outcome = Ok a -> api_success a = false ->
          status r = 200 /\ success r = true
          /\ prediction_type r = Some "fallback"
          /\ exists p, predicted_price r = Some p /\ (0 < p)%Q
               /\ (season * (9 # 10) - (1 # 200) <= p)%Q
               /\ (p <= season * (11 # 10) + (1 # 200))%Q)
    /\ (forall self today table crop_type region days_ahead e table',
          Predictor.predict_body self today table crop_type region days_ahead
          = (Raise e, table') ->
          Predictor.predict_market_prices self today table crop_type region days_ahead
          = (Predictor.unavailable crop_type region days_ahead, table')
          /\ Django.get (Predictor.unavailable crop_type region days_ahead)
                        "predicted_price" = None).
Proof.
  intros Hglobal Hlo Hhi outcome season.
  destruct (post_returns env (Some data)) as [r Hr].
  exists r. split; [exact Hr|].
  unfold post in Hr. rewrite Hglobal in Hr. fold outcome in Hr.
  split; [|split].
  - intros e He. rewrite He in Hr. simpl in Hr. injection Hr as <-.
    repeat (split; [reflexivity|]). discriminate.
  - intros a Ha Hfail. rewrite Ha in Hr. cbn [bind] in Hr. rewrite Hfail in Hr.
    destruct (fallback_succeeds env (cropType data) (market data)
                (prediction_days data) Hlo Hhi)
      as [r' [p [Hf [Hs [Hok [Ht [Hp [Hpos [Hb1 Hb2]]]]]]]]].
    rewrite Hf in Hr. simpl in Hr. injection Hr as <-.
    repeat (split; [assumption|]). exists p. repeat split; assumption.
  - intros self today table crop_type region days_ahead e table' Hbody.
    unfold Predictor.predict_market_prices. rewrite Hbody. split; reflexivity.
Qed.

Lemma prediction_raise_is_answered_500_witness :
  exists r,
    post (view_env (Raise (RuntimeError "estimator unavailable"))) (Some maize_request)
    = Ok r
    /\ status r = 500 /\ success r = false /\ predicted_price r = None.
Proof.
  destruct (prediction_raise_is_answered_500
              (view_env (Raise (RuntimeError "estimator unavailable"))) maize_request)
    as [r [Hr [Hraise _]]];
    [reflexivity | apply Qle_bool_iff; reflexivity
     | apply Qle_bool_iff; reflexivity |].
  exists r. split; [exact Hr|].
  destruct (Hraise (RuntimeError "estimator unavailable") eq_refl)
    as [_ [H1 [H2 [H3 _]]]].
  repeat split; assumption.
Defined.

(** A predictor that reports a failure without raising is answered by the
    fallback. *)
Example failure_flag_gives_fallback :
  exists r,
    post (view_env (Ok failed_result)) (Some maize_request) = Ok r
    /\ status r = 200 /\ prediction_type r = Some "fallback".
Proof. eexists. split; [reflexivity|]. split; reflexivity. Qed.

End ViewFacts.

(** ** Further properties of the query parser *)

Section ParserShape.
Import Py QueryParser Shape.

Lemma lower_char_idempotent (c : ascii) : lower_char (lower_char c) = lower_char c.
Proof. destruct c as [[] [] [] [] [] [] [] []]; reflexivity. Qed.

Lemma isspace_lower_char (c : ascii) : isspace (lower_char c) = isspace c.
Proof. destruct c as [[] [] [] [] [] [] [] []]; reflexivity. Qed.

Lemma lower_idempotent (s : string) : lower (lower s) = lower s.
Proof.
  induction s as [|c s IH]; simpl; [reflexivity|].
  rewrite lower_char_idempotent, IH. reflexivity.
Qed.

Lemma lower_append (s t : string) : lower (s ++ t) = lower s ++ lower t.
Proof. induction s as [|c s IH]; simpl; [|rewrite IH]; reflexivity. Qed.

Lemma all_space_lower (s : string) : all_space (lower s) = all_space s.
Proof.
  induction s as [|c s IH]; simpl; [reflexivity|].
  rewrite isspace_lower_char, IH. reflexivity.
Qed.

Lemma lstrip_lower (s : string) : lstrip (lower s) = lower (lstrip s).
Proof.
  induction s as [|c s IH]; simpl; [reflexivity|].
  rewrite isspace_lower_char. destruct (isspace c); [exact IH | reflexivity].
Qed.

Lemma rstrip_lower (s : string) : rstrip (lower s) = lower (rstrip s).
Proof.
  induction s as [|c s IH]; simpl; [reflexivity|].
  rewrite IH, isspace_lower_char.
  destruct (rstrip s); simpl; [destruct (isspace c)|]; reflexivity.
Qed.

Lemma strip_lower (s : string) : strip (lower s) = lower (strip s).
Proof. unfold strip. rewrite lstrip_lower, rstrip_lower. reflexivity. Qed.

Lemma lstrip_spaces (s t : string) :
  all_space s = true -> lstrip (s ++ t) = lstrip t.
Proof.
  induction s as [|c s IH]; simpl; intros H; [reflexivity|].
  apply andb_true_iff in H. destruct H as [Hc Hs]. rewrite Hc. apply IH, Hs.
Qed.

Lemma lstrip_all_space (s : string) : all_space s = true -> lstrip s = "".
Proof.
  induction s as [|c s IH]; simpl; intros H; [reflexivity|].
  apply andb_true_iff in H. destruct H as [Hc Hs]. rewrite Hc. apply IH, Hs.
Qed.

Lemma rstrip_all_space (s : string) : all_space s = true -> rstrip s = "".
Proof.
  induction s as [|c s IH]; simpl; intros H; [reflexivity|].
  apply andb_true_iff in H. destruct H as [Hc Hs].
  rewrite (IH Hs), Hc. reflexivity.
Qed.

Lemma rstrip_spaces (s t : string) :
  all_space t = true -> rstrip (s ++ t) = rstrip s.
Proof.
  intros Ht. induction s as [|c s IH]; simpl.
  - apply rstrip_all_space, Ht.
  - rewrite IH. reflexivity.
Qed.

(** [lstrip] leaves a string that is empty or starts with a character
    that is no white space. *)
Lemma lstrip_head (s : string) :
  match lstrip s with
  | EmptyString => True
  | String c _ => isspace c = false
  end.
Proof.
  induction s as [|c s IH]; simpl; [exact I|].
  destruct (isspace c) eqn:E; [exact IH | exact E].
Qed.

Lemma rstrip_keeps_head (c : ascii) (s : string) :
  isspace c = false -> exists t, rstrip (String c s) = String c t.
Proof.
  intros H. simpl. destruct (rstrip s); [rewrite H|]; eauto.
Qed.

Lemma rstrip_idempotent (s : string) : rstrip (rstrip s) = rstrip s.
Proof.
  induction s as [|c s IH]; simpl; [reflexivity|].
  destruct (rstrip s) as [|d t] eqn:E.
  - destruct (isspace c) eqn:Hc; simpl; [reflexivity | rewrite Hc; reflexivity].
  - simpl. simpl in IH. rewrite IH. reflexivity.
Qed.

Lemma strip_idempotent (s : string) : strip (strip s) = strip s.
Proof.
  unfold strip. pose proof (lstrip_head s) as Hhead.
  destruct (lstrip s) as [|c t] eqn:E; [reflexivity|].
  destruct (rstrip_keeps_head c t Hhead) as [u Hu]. rewrite Hu.
  cbn [lstrip]. rewrite Hhead, <- Hu. apply rstrip_idempotent.
Qed.

Lemma normalise_idempotent (q : string) : normalise (normalise q) = normalise q.
Proof.
  unfold normalise. rewrite strip_lower, strip_idempotent, <- strip_lower.
  rewrite lower_idempotent. reflexivity.
Qed.

Lemma normalise_padding (pre q post : string) :
  all_space pre = true -> all_space post = true ->
  normalise (pre ++ q ++ post) = normalise q.
Proof.
  intros Hpre Hpost. unfold normalise, strip.
  rewrite !lower_append.
  rewrite lstrip_spaces by (rewrite all_space_lower; exact Hpre).
  assert (Hsplit : forall a b, all_space b = true ->
                     rstrip (lstrip (a ++ b)) = rstrip (lstrip a)).
  { intros a b Hb. induction a as [|c a IH]; simpl.
    - rewrite (lstrip_all_space b Hb). reflexivity.
    - destruct (isspace c); [exact IH|].
      change (String c (a ++ b)) with (String c a ++ b).
      apply rstrip_spaces, Hb. }
  apply Hsplit. rewrite all_space_lower. exact Hpost.
Qed.

End ParserShape.

Section ParserProperties.
Import Py QueryParser Shape Scenarios.

Lemma chars_of_list (l : list ascii) : chars (string_of_list_ascii l) = l.
Proof. apply list_ascii_of_string_of_list_ascii. Qed.

(** A word [split] produces is not empty, holds no white space, and is
    made of characters of the string or of the word being read. *)
Lemma split_aux_words (s : string) :
  forall (cur : list ascii) (w : string),
    (forall c, In c cur -> isspace c = false) ->
    In w (split_aux s cur) ->
    w <> ""
    /\ forall c, In c (chars w) ->
         isspace c = false /\ (In c cur \/ In c (chars s)).
Proof.
  assert (Hflush : forall (cur : list ascii) (w : string),
             (forall c, In c cur -> isspace c = false) ->
             In w (match cur with
                   | [] => []
                   | _ => [string_of_list_ascii (rev cur)]
                   end) ->
             w <> "" /\ forall c, In c (chars w) -> isspace c = false /\ In c cur).
  { intros cur w Hcur Hin. destruct cur as [|a cur]; [destruct Hin|].
    destruct Hin as [<-|[]]. split.
    - intros H. apply (f_equal chars) in H. rewrite chars_of_list in H.
      apply (f_equal (@List.length ascii)) in H.
      rewrite length_rev in H. discriminate.
    - intros c Hc. rewrite chars_of_list in Hc. apply in_rev in Hc.
      split; [apply Hcur|]; exact Hc. }
  induction s as [|d s IH]; intros cur w Hcur Hin.
  - cbn [split_aux] in Hin. destruct (Hflush cur w Hcur Hin) as [Hne Hc].
    split; [exact Hne|]. intros c Hin'. destruct (Hc c Hin'). tauto.
  - cbn [split_aux] in Hin. destruct (isspace d) eqn:Hd.
    + apply in_app_or in Hin. destruct Hin as [Hin|Hin].
      * destruct (Hflush cur w Hcur Hin) as [Hne Hc].
        split; [exact Hne|]. intros c Hin'. destruct (Hc c Hin'). tauto.
      * destruct (IH [] w (fun c H => match H with end) Hin) as [Hne Hc].
        split; [exact Hne|]. intros c Hin'.
        destruct (Hc c Hin') as [Hs [[]|H]]. split; [exact Hs|].
        right. right. exact H.
    + assert (Hcur' : forall c, In c (d :: cur) -> isspace c = false).
      { intros c [<-|H]; [exact Hd | apply Hcur, H]. }
      destruct (IH (d :: cur) w Hcur' Hin) as [Hne Hc].
      split; [exact Hne|]. intros c Hin'.
      destruct (Hc c Hin') as [Hs [[<-|H]|H]]; split; try exact Hs.
      * right. left. reflexivity.
      * left. exact H.
      * right. right. exact H.
Qed.

Lemma lstrip_chars (s : string) (c : ascii) :
  In c (chars (lstrip s)) -> In c (chars s).
Proof.
  induction s as [|d s IH]; simpl; [tauto|].
  destruct (isspace d); [right; apply IH; assumption | tauto].
Qed.

Lemma rstrip_chars (s : string) (c : ascii) :
  In c (chars (rstrip s)) -> In c (chars s).
Proof.
  induction s as [|d s IH]; simpl; [tauto|].
  destruct (rstrip s) as [|e t].
  - destruct (isspace d); simpl; tauto.
  - intros [H|H]; [left; exact H | right; apply IH; exact H].
Qed.

Lemma lower_chars (s : string) (c : ascii) :
  In c (chars (lower s)) -> lower_char c = c.
Proof.
  induction s as [|d s IH]; simpl; [tauto|].
  intros [<-|H]; [apply lower_char_idempotent | apply IH, H].
Qed.

(** X1.  Parsing ignores white space around the query and the case of
    its letters: padding a query with white space on either side, or
    replacing it by any query with the same lower-case form, gives the
    same intent, and so does parsing the normalised query again. *)
Theorem parse_ignores_padding_and_case (pre q post : string) :
  all_space pre = true -> all_space post = true ->
  _parse_natural_language (pre ++ q ++ post) = _parse_natural_language q
  /\ (forall q', lower q' = lower q ->
        _parse_natural_language q' = _parse_natural_language q)
  /\ _parse_natural_language (normalise q) = _parse_natural_language q.
Proof.
  intros Hpre Hpost. unfold _parse_natural_language. split; [|split].
  - rewrite (normalise_padding pre q post Hpre Hpost). reflexivity.
  - intros q' Hq. unfold normalise. rewrite Hq. reflexivity.
  - rewrite normalise_idempotent. reflexivity.
Qed.

Lemma parse_ignores_padding_and_case_witness :
  _parse_natural_language ("  " ++ "Cheap Maize" ++ " ")
  = _parse_natural_language "Cheap Maize"
  /\ _parse_natural_language "CHEAP maize" = _parse_natural_language "Cheap Maize".
Proof.
  destruct (parse_ignores_padding_and_case "  " "Cheap Maize" " ")
    as [Hpad [Hcase _]]; [reflexivity | reflexivity |].
  split; [exact Hpad | apply Hcase; reflexivity].
Defined.

(** X2.  Every keyword of a parsed query is one of the words of the
    query once it is stripped and put in lower case, is no stop word, has
    at least three characters and holds no white space. *)
Theorem keywords_well_formed (q w : string) :
  In w (keywords (_parse_natural_language q)) ->
  In w (split (normalise q))
  /\ mem w stop_words = false
  /\ 2 < String.length w
  /\ forall c, In c (chars w) -> isspace c = false.
Proof.
  unfold _parse_natural_language. cbn [keywords]. intros H.
  apply filter_In in H. destruct H as [Hin Hkw].
  unfold is_keyword in Hkw. apply andb_true_iff in Hkw.
  destruct Hkw as [Hstop Hlen].
  rewrite negb_true_iff in Hstop. apply Nat.ltb_lt in Hlen.
  repeat (split; [assumption|]).
  intros c Hc.
  destruct (split_aux_words (normalise q) [] w (fun c H => match H with end) Hin)
    as [_ Hchars].
  destruct (Hchars c Hc) as [Hspace _]. exact Hspace.
Qed.

Lemma keywords_well_formed_witness :
  In "tomatoes" (split (normalise scenario_query))
  /\ mem "tomatoes" stop_words = false.
Proof.
  destruct (keywords_well_formed scenario_query "tomatoes") as [H1 [H2 _]].
  - vm_compute. tauto.
  - split; assumption.
Defined.

(** X3.  A query made of white space only (the empty query included)
    parses to the empty intent: no keyword and no hint. *)
Theorem blank_query_parses_empty (q : string) :
  all_space q = true -> _parse_natural_language q = empty_intent.
Proof.
  intros H. unfold _parse_natural_language.
  assert (Hn : normalise q = "").
  { unfold normalise, strip. rewrite lstrip_all_space; [reflexivity|].
    rewrite all_space_lower. exact H. }
  rewrite Hn. reflexivity.
Qed.

Lemma blank_query_parses_empty_witness :
  _parse_natural_language "   " = empty_intent.
Proof. apply blank_query_parses_empty. reflexivity. Defined.

Lemma scan_location_some (words : list string) (h : string) :
  scan_location words = Some h ->
  exists before ind after,
    words = (before ++ ind :: h :: after)%list
    /\ mem ind location_indicators = true
    /\ forallb (fun w => negb (mem w location_indicators)) before = true.
Proof.
  induction words as [|w rest IH]; [discriminate|].
  cbn [scan_location]. destruct rest as [|next rest']; [discriminate|].
  destruct (mem w location_indicators) eqn:E.
  - intros H. injection H as <-. exists [], w, rest'. repeat split. exact E.
  - intros H. destruct (IH H) as [before [ind [after [Hw [Hind Hbefore]]]]].
    exists (w :: before), ind, after. rewrite Hw. split; [reflexivity|].
    split; [exact Hind|]. cbn [forallb]. rewrite E. exact Hbefore.
Qed.

Lemma scan_location_none (words : list string) :
  scan_location words = None ->
  forall before w after,
    words = (before ++ w :: after)%list -> after <> [] ->
    mem w location_indicators = false.
Proof.
  induction words as [|x rest IH]; intros H before w after Hw Hne.
  - destruct before; discriminate.
  - cbn [scan_location] in H. destruct rest as [|next rest'].
    + destruct before as [|b before]; [|destruct before; discriminate].
      injection Hw as _ <-. contradiction.
    + destruct (mem x location_indicators) eqn:E; [discriminate|].
      destruct before as [|b before].
      * injection Hw as <- _. exact E.
      * injection Hw as _ Hw. apply (IH H before w after Hw Hne).
Qed.

(** X4.  The location hint is the word right after the first locative
    word (near, in, from, local) that has a successor: when the hint is h,
    the words of the query read before, locative, h, after with no
    locative word in before; when there is no hint, no word other than the
    last is locative. *)
Theorem location_follows_first_indicator (q : string) :
  let words := split (normalise q) in
  match location (_parse_natural_language q) with
  | Some h =>
      exists before ind after,
        words = (before ++ ind :: h :: after)%list
        /\ mem ind location_indicators = true
        /\ forallb (fun w => negb (mem w location_indicators)) before = true
  | None =>
      forall before w after,
        words = (before ++ w :: after)%list -> after <> [] ->
        mem w location_indicators = false
  end.
Proof.
  cbv zeta. unfold _parse_natural_language. cbn [location].
  destruct (scan_location (split (normalise q))) as [h|] eqn:E.
  - apply scan_location_some, E.
  - apply scan_location_none, E.
Qed.

Example location_of_stop_word :
  location (_parse_natural_language "rice in in nairobi") = Some "in"
  /\ location (_parse_natural_language "maize near") = None.
Proof. split; reflexivity. Qed.

End ParserProperties.

(** ** Further properties of ranking and personalisation *)

Section RankingProperties.
Import Py Django Models SearchAI Ranking Scenarios.

Lemma qfilter_qfilter (p q : ProductListing -> bool) (rows : list Row) :
  qfilter q (qfilter p rows) = qfilter (fun l => p l && q l) rows.
Proof. unfold qfilter. apply filter_filter. Qed.

Lemma qfilter_true (rows : list Row) : qfilter (fun _ => true) rows = rows.
Proof. unfold qfilter. apply filter_true. Qed.

Lemma qfilter_ext (p q : ProductListing -> bool) (rows : list Row) :
  (forall l, p l = q l) -> qfilter p rows = qfilter q rows.
Proof. intros H. unfold qfilter. apply filter_ext. intros r. apply H. Qed.

Lemma qfilter_In (p : ProductListing -> bool) (rows : list Row) (r : Row) :
  In r (qfilter p rows) <-> In r rows /\ p (listing r) = true.
Proof. unfold qfilter. apply filter_In. Qed.

(** An optional filter stage is a filter with a default. *)
Lemma optional_stage {A} (o : option A) (p : A -> ProductListing -> bool)
      (rows : list Row) :
  match o with Some a => qfilter (p a) rows | None => rows end
  = qfilter (fun l => match o with Some a => p a l | None => true end) rows.
Proof. destruct o; [reflexivity | symmetry; apply qfilter_true]. Qed.

Lemma apply_filters_qfilter (rows : list Row) (f : Filters) :
  _apply_filters rows f = qfilter (matches_filters f) rows.
Proof.
  unfold _apply_filters.
  rewrite (optional_stage (f_category f) (fun c l => Z.eqb (category_id l) c)).
  rewrite (optional_stage (f_min_price f) (fun lo l => Qleb lo (price l))).
  rewrite (optional_stage (f_max_price f) (fun hi l => Qleb (price l) hi)).
  rewrite (optional_stage (f_quality f) (fun q l => String.eqb (quality_grade l) q)).
  rewrite (optional_stage (f_location f) (fun h l => icontains (Models.location l) h)).
  rewrite !qfilter_qfilter. apply qfilter_ext. intros l.
  unfold matches_filters. rewrite !andb_assoc. reflexivity.
Qed.

(** X5.  The explicit filters of a request are one hard conjunction: a
    row is returned exactly when it was given and its listing passes the
    category, minimum price, maximum price, quality and location filters
    that are present; the rows keep their order, and filtering twice
    changes nothing. *)
Theorem explicit_filters_are_conjunctive (rows : list Row) (f : Filters) :
  _apply_filters rows f = qfilter (matches_filters f) rows
  /\ (forall r, In r (_apply_filters rows f)
                <-> In r rows /\ matches_filters f (listing r) = true)
  /\ _apply_filters (_apply_filters rows f) f = _apply_filters rows f
  /\ _apply_filters rows no_filters = rows.
Proof.
  split; [apply apply_filters_qfilter|]. split; [|split].
  - intros r. rewrite apply_filters_qfilter. apply qfilter_In.
  - rewrite !apply_filters_qfilter, qfilter_qfilter.
    apply qfilter_ext. intros l. destruct (matches_filters f l); reflexivity.
  - rewrite apply_filters_qfilter. apply qfilter_true.
Qed.

(** A hint stage of [_semantic_search] is a filter that an absent or
    empty hint switches off. *)
Lemma hint_stage (o : option string) (p : string -> ProductListing -> bool)
      (rows : list Row) :
  (if truthy_str o
   then match o with Some a => qfilter (p a) rows | None => rows end
   else rows)
  = qfilter (fun l => match o with
                      | Some EmptyString | None => true
                      | Some a => p a l
                      end) rows.
Proof.
  destruct o as [[|c a]|]; simpl; try (symmetry; apply qfilter_true). reflexivity.
Qed.

Lemma semantic_search_rows (env : Env) (rows : list Row)
      (parsed : QueryParser.Parsed) (r : Row) :
  In r (_semantic_search env rows parsed) ->
  In r (after_fulltext env rows parsed)
  /\ matches_hints parsed (listing r) = true.
Proof.
  unfold _semantic_search. fold (after_fulltext env rows parsed).
  rewrite (hint_stage (QueryParser.category parsed) (category_matches env)).
  rewrite (hint_stage (QueryParser.quality parsed)
             (fun q l => String.eqb (quality_grade l) q)).
  rewrite (hint_stage (QueryParser.location parsed)
             (fun h l => icontains (Models.location l) h)).
  rewrite !qfilter_In. intros [[[Hin _] Hq] Hl].
  split; [exact Hin|]. unfold matches_hints. rewrite Hq, Hl. reflexivity.
Qed.

Lemma no_filters_match (filters : option Filters) (l : ProductListing) :
  truthy_filters filters = false ->
  matches_filters (filters_or_empty filters) l = true.
Proof.
  destruct filters as [f|]; [|reflexivity]. simpl. unfold matches_filters.
  destruct (f_category f), (f_min_price f), (f_max_price f), (f_quality f),
    (f_location f); try discriminate. reflexivity.
Qed.

(** Personalisation returns rows whose listings were given to it. *)
Lemma personalization_listings (env : Env) (rows out : list Row) (user : Z) :
  _apply_personalization env rows user = Ok out ->
  forall r, In r out -> In (listing r) (map listing rows).
Proof.
  unfold _apply_personalization. intros H r Hin.
  destruct (preferences env user) as [profile|].
  - assert (Hstage : exists rows1,
               map listing rows1 = map listing rows
               /\ In r rows1).
    { destruct (preferred_categories profile) as [|c cs].
      - exists rows. split; [reflexivity|]. simpl in H. injection H as <-.
        destruct (truthy_str (quality_preference profile));
          [destruct (quality_preference profile)|];
          repeat match type of Hin with
                 | In _ (qfilter _ _) => apply qfilter_In in Hin; destruct Hin as [Hin _]
                 end;
          destruct (truthy_decimal (price_range_min profile)
                    && truthy_decimal (price_range_max profile));
          try destruct (price_range_min profile);
          try destruct (price_range_max profile);
          repeat match type of Hin with
                 | In _ (qfilter _ _) => apply qfilter_In in Hin; destruct Hin as [Hin _]
                 end; exact Hin.
      - destruct (global_name env "models"); [|discriminate].
        exists (map (boost (c :: cs)) rows). split; [apply boost_listings|].
        simpl in H. injection H as <-.
        destruct (truthy_str (quality_preference profile));
          [destruct (quality_preference profile)|];
          repeat match type of Hin with
                 | In _ (qfilter _ _) => apply qfilter_In in Hin; destruct Hin as [Hin _]
                 end;
          destruct (truthy_decimal (price_range_min profile)
                    && truthy_decimal (price_range_max profile));
          try destruct (price_range_min profile);
          try destruct (price_range_max profile);
          repeat match type of Hin with
                 | In _ (qfilter _ _) => apply qfilter_In in Hin; destruct Hin as [Hin _]
                 end; exact Hin. }
    destruct Hstage as [rows1 [Hsame Hr]]. rewrite <- Hsame.
    apply in_map, Hr.
  - injection H as <-. apply in_map, Hin.
Qed.

Lemma enhance_describes (env : Env) (rows : list Row) :
  forall out, _enhance_with_predictions env rows = Ok out ->
              Forall2 describes rows out.
Proof.
  induction rows as [|r rows IH]; intros out H.
  - injection H as <-. constructor.
  - cbn [_enhance_with_predictions] in H.
    destruct (_predict_price env (listing r)) as [v|]; [|discriminate].
    cbn [bind] in H.
    destruct (_enhance_with_predictions env rows) as [rest|]; [|discriminate].
    cbn [bind] in H. injection H as <-.
    constructor; [repeat split | apply IH; reflexivity].
Qed.

Lemma firstn_subset {A} (n : nat) (l : list A) (x : A) :
  In x (firstn n l) -> In x l.
Proof.
  revert l. induction n as [|n IH]; intros [|a l] H; try destruct H.
  - left. assumption.
  - right. apply IH. assumption.
Qed.

Lemma Forall2_right {A B} (R : A -> B -> Prop) (l : list A) (l' : list B) (b : B) :
  Forall2 R l l' -> In b l' -> exists a, In a l /\ R a b.
Proof.
  induction 1 as [|a b' l l' Hab _ IH]; intros Hin; [destruct Hin|].
  destruct Hin as [<-|Hin].
  - exists a. split; [left; reflexivity | exact Hab].
  - destruct (IH Hin) as [a' [Ha' HR]]. exists a'. split; [right|]; assumption.
Qed.

(** The rows a search ranks before it cuts them at the limit. *)
Lemma search_outcome (env : Env) (store : list ProductListing) (log : list dict)
      (query : string) (user : option Z) (filters : option Filters)
      (limit : nat) (r : SearchResult) :
  fst (search_products env store log query user filters limit) = Ok r ->
  exists ranked,
    _enhance_with_predictions env (firstn limit ranked) = Ok (results r)
    /\ total_count r = List.length ranked
    /\ parsed_query r = QueryParser._parse_natural_language query
    /\ forall x, In x ranked ->
         exists y,
           listing y = listing x
           /\ In y (after_fulltext env (qfilter is_available (map plain store))
                                   (QueryParser._parse_natural_language query))
           /\ matches_hints (QueryParser._parse_natural_language query) (listing x) = true
           /\ matches_filters (filters_or_empty filters) (listing x) = true.
Proof.
  unfold search_products. cbn [fst].
  set (parsed := QueryParser._parse_natural_language query).
  set (found := _semantic_search env (qfilter is_available (map plain store)) parsed).
  set (filtered := if truthy_filters filters
                   then _apply_filters found (filters_or_empty filters)
                   else found).
  assert (Hfiltered : forall x, In x filtered ->
            In x (after_fulltext env (qfilter is_available (map plain store)) parsed)
            /\ matches_hints parsed (listing x) = true
            /\ matches_filters (filters_or_empty filters) (listing x) = true).
  { intros x Hx. subst filtered.
    destruct (truthy_filters filters) eqn:Ht.
    - rewrite apply_filters_qfilter in Hx. apply qfilter_In in Hx.
      destruct Hx as [Hx Hm].
      destruct (semantic_search_rows _ _ _ _ Hx) as [H1 H2]. tauto.
    - destruct (semantic_search_rows _ _ _ _ Hx) as [H1 H2].
      split; [exact H1|]. split; [exact H2|]. apply no_filters_match, Ht. }
  intros H.
  destruct (match user with
            | Some u => _apply_personalization env filtered u
            | None => Ok filtered
            end) as [ranked|] eqn:Hp; [|discriminate].
  cbn [bind] in H.
  destruct (_enhance_with_predictions env (firstn limit ranked)) as [out|] eqn:He;
    [|discriminate].
  cbn [bind] in H. injection H as <-. cbn [results total_count parsed_query].
  exists ranked. split; [exact He|]. split; [reflexivity|]. split; [reflexivity|].
  intros x Hx. destruct user as [u|].
  - pose proof (personalization_listings env filtered ranked u Hp x Hx) as Hl.
    apply in_map_iff in Hl. destruct Hl as [y [Hy Hin]].
    exists y. split; [exact Hy|]. rewrite <- Hy.
    destruct (Hfiltered y Hin) as [H1 [H2 H3]]. tauto.
  - injection Hp as <-. exists x. split; [reflexivity|].
    destruct (Hfiltered x Hx) as [H1 [H2 H3]]. tauto.
Qed.



(** X7.  Every result of a search is an annotated listing that passes
    all explicit filters of the request and the quality and location hints
    parsed from the query, whatever the full-text stage and the
    personalisation did; when the full-text stage only selects among the
    rows it is given, the listing is an AVAILABLE listing of the store. *)
Theorem search_results_pass_filters (env : Env) (store : list ProductListing)
        (log : list dict) (query : string) (user : option Z)
        (filters : option Filters) (limit : nat) (r : SearchResult)
        (e : Enhanced) :
  fst (search_products env store log query user filters limit) = Ok r ->
  In e (results r) ->
  exists l,
    e_id e = id l /\ current_price e = price l
    /\ e_quality_grade e = quality_grade l
    /\ matches_filters (filters_or_empty filters) l = true
    /\ matches_hints (QueryParser._parse_natural_language query) l = true
    /\ ((forall kws rows x, In x (fulltext env kws rows) -> In x rows) ->
        In l store /\ status l = "AVAILABLE").
Proof.
  intros H He.
  destruct (search_outcome _ _ _ _ _ _ _ _ H) as [ranked [Hen [_ [_ Hranked]]]].
  apply enhance_describes in Hen.
  destruct (Forall2_right _ _ _ e Hen He) as [x [Hx Hd]].
  apply firstn_subset in Hx. destruct (Hranked x Hx) as [y [Hy [Hsrc [Hh Hf]]]].
  destruct Hd as [Hid [Hprice [Hq _]]].
  exists (listing x). repeat (split; [assumption|]).
  intros Hsub.
  assert (Hav : In y (qfilter is_available (map plain store))).
  { unfold after_fulltext in Hsrc.
    destruct (QueryParser.keywords (QueryParser._parse_natural_language query));
      [exact Hsrc | apply Hsub in Hsrc; exact Hsrc]. }
  apply qfilter_In in Hav. destruct Hav as [Hin Hstatus].
  apply in_map_iff in Hin. destruct Hin as [l [<- Hl]].
  rewrite <- Hy. cbn [listing plain] in *. split; [exact Hl|].
  unfold is_available in Hstatus. apply String.eqb_eq, Hstatus.
Qed.

End RankingProperties.

Section SearchProperties.
Import Py Django Models SearchAI Ranking Scenarios Cases.

Lemma search_results_pass_filters_witness :
  exists l,
    e_id maize_result = id l /\ current_price maize_result = price l
    /\ e_quality_grade maize_result = quality_grade l
    /\ matches_filters at_most_20 l = true
    /\ In l [maize; beans] /\ status l = "AVAILABLE".
Proof.
  destruct (search_results_pass_filters env_broken_model [maize; beans] [] ""
              None (Some at_most_20) 5
              {| sr_query := "";
                 parsed_query := QueryParser._parse_natural_language "";
                 results := [maize_result]; total_count := 1;
                 suggestions := [] |}
              maize_result)
    as [l [H1 [H2 [H3 [H4 [_ H5]]]]]].
  - reflexivity.
  - left. reflexivity.
  - exists l. repeat (split; [assumption|]). apply H5. intros kws rows x Hx. exact Hx.
Defined.





(** The module as imported raises for a user who prefers category 1. *)
Example search_with_category_profile :
  fst (search_products (env_imported category_profile) [maize; beans] [] "maize"
                       (Some 7%Z) None 20)
  = Raise (NameError "models").
Proof. reflexivity. Qed.

(** X9.  Personalisation has three pass-through cases: a user without a
    stored profile gets the ranked rows back unchanged; so does a profile
    that sets nothing; and a price range whose lower bound is 0 is ignored
    altogether, upper bound included, because the bounds are tested for
    truth rather than for presence. *)
Theorem personalization_pass_through (env : Env) (rows : list Row) (user : Z) :
  (preferences env user = None ->
   _apply_personalization env rows user = Ok rows)
  /\ (forall profile lo,
        preferences env user = Some profile ->
        preferred_categories profile = [] ->
        truthy_str (quality_preference profile) = false ->
        price_range_min profile = Some lo -> (lo == 0)%Q ->
        _apply_personalization env rows user = Ok rows)
  /\ (forall profile,
        preferences env user = Some profile ->
        preferred_categories profile = [] ->
        truthy_str (quality_preference profile) = false ->
        price_range_min profile = None \/ price_range_max profile = None ->
        _apply_personalization env rows user = Ok rows).
Proof.
  unfold _apply_personalization. split; [|split].
  - intros ->. reflexivity.
  - intros profile lo -> -> -> -> Hlo. cbn [bind truthy_decimal].
    apply Qeq_bool_iff in Hlo. rewrite Hlo. reflexivity.
  - intros profile -> -> -> [-> | ->]; cbn [bind truthy_decimal];
      [|rewrite andb_false_r]; reflexivity.
Qed.

(** With the bounds 0 and 20 a listing priced 30 is kept. *)
Example zero_floor_keeps_everything :
  _apply_personalization (env_imported zero_floor_profile) [plain beans] 7
  = Ok [plain beans]
  /\ price beans = 30%Q.
Proof. split; reflexivity. Qed.

End SearchProperties.

(** ** Further properties of the insights and of the price features *)

Section InsightProperties.
Import Py Models SearchAI Scenarios Cases.

Lemma personalization_pass_through_witness :
  _apply_personalization (env_imported zero_floor_profile) [plain beans] 7
  = Ok [plain beans].
Proof.
  destruct (personalization_pass_through (env_imported zero_floor_profile)
              [plain beans] 7) as [_ [H _]].
  apply (H zero_floor_profile 0%Q); reflexivity.
Defined.

(** X10.  In the market insights of a listing the supply outlook is
    always Adequate, whatever the quantity; the price stability is Volatile
    exactly when the absolute price trend exceeds 5 and Stable otherwise;
    and the advice on when to buy follows the demand level alone: Soon for
    High, Good time to buy for Low, Now for Medium. *)
Theorem market_insights_shape (product : ProductListing) :
  let insights := _get_market_insights product in
  supply_outlook insights = "Adequate"
  /\ (price_stability insights = "Volatile" <-> (5 < Qabs (price_trend product))%Q)
  /\ (price_stability insights = "Stable" <-> (Qabs (price_trend product) <= 5)%Q)
  /\ (best_time_to_buy insights = "Soon (prices may rise)"
      <-> demand_level insights = "High")
  /\ (best_time_to_buy insights = "Good time to buy"
      <-> demand_level insights = "Low")
  /\ (best_time_to_buy insights = "Now" <-> demand_level insights = "Medium").
Proof.
  cbv zeta. unfold _get_market_insights, Py.abs.
  destruct (Qltb 5 (Qabs (price_trend product))) eqn:Ht;
    [apply Qltb_lt in Ht | apply Qltb_ge in Ht];
    (destruct (Qltb (7 # 10) (demand_score product));
     [|destruct (Qltb (demand_score product) (3 # 10))]);
    cbn [supply_outlook price_stability best_time_to_buy demand_level];
    repeat split; intros; try discriminate; try assumption; try reflexivity;
    try (exfalso; lra).
Qed.

Lemma location_factor_lower (s : string) :
  _get_location_factor (Some s) = _get_location_factor (Some (lower s)).
Proof.
  unfold _get_location_factor.
  destruct s as [|c s]; [reflexivity|].
  cbn [truthy_str lower negb].
  rewrite lower_char_idempotent, lower_idempotent. reflexivity.
Qed.

(** X11.  The location factor of a listing is 0.9, 1.0 or 1.2; it is 1.0
    for a missing or empty location; it does not depend on the case of the
    letters; and a location that mentions urban or city gets 1.2 even when
    it also mentions rural or village. *)
Theorem location_factor_shape (location : option string) :
  (_get_location_factor location = (9 # 10)%Q
   \/ _get_location_factor location = 1%Q
   \/ _get_location_factor location = (12 # 10)%Q)
  /\ _get_location_factor None = 1%Q
  /\ _get_location_factor (Some "") = 1%Q
  /\ (forall s s', lower s = lower s' ->
        _get_location_factor (Some s) = _get_location_factor (Some s'))
  /\ (forall s, str_in "urban" (lower s) = true \/ str_in "city" (lower s) = true ->
        _get_location_factor (Some s) = (12 # 10)%Q).
Proof.
  split; [|split; [reflexivity|split; [reflexivity|split]]].
  - unfold _get_location_factor.
    destruct (negb (truthy_str location)); [tauto|].
    match goal with |- context [if ?a || ?b then _ else _] => destruct (a || b) end;
      [tauto|].
    match goal with |- context [if ?a || ?b then _ else _] => destruct (a || b) end;
      tauto.
  - intros s s' H. rewrite (location_factor_lower s), (location_factor_lower s'), H.
    reflexivity.
  - intros s H. unfold _get_location_factor, truthy_str.
    destruct s as [|c s].
    + destruct H as [H|H]; discriminate.
    + cbn [negb]. apply orb_true_iff in H. rewrite H. reflexivity.
Qed.

Example location_urban_village :
  _get_location_factor (Some "Rural village near Nairobi CITY") = (12 # 10)%Q.
Proof. reflexivity. Qed.

Lemma seasonal_factor_bounds (env : Env) :
  (8 # 10 <= _get_seasonal_factor env)%Q /\ (_get_seasonal_factor env <= 12 # 10)%Q.
Proof.
  unfold _get_seasonal_factor, seasonal_factors. cbn [lookup_month].
  repeat match goal with
         | |- context [Nat.eqb ?a ?b] => destruct (Nat.eqb a b)
         end; split; apply Qle_bool_iff; reflexivity.
Qed.

(** X12.  The feature vector handed to the regressor always has five
    entries: the demand score of the listing as stored, a seasonal factor
    between 0.8 and 1.2 (1.0 for a month outside 1..12), the volatility
    0.1, a premium flag that is 0 or 1 and is 1 exactly for grade PREMIUM,
    and the location factor. *)
Theorem features_shape (env : Env) (product : ProductListing) :
  exists season premium,
    features env product
    = [demand_score product; season; (1 # 10)%Q; premium;
       _get_location_factor (Models.location product)]
    /\ (8 # 10 <= season)%Q /\ (season <= 12 # 10)%Q
    /\ ((month env < 1 \/ 12 < month env) -> season = 1%Q)
    /\ (premium = 1%Q /\ quality_grade product = "PREMIUM"
        \/ premium = 0%Q /\ quality_grade product <> "PREMIUM").
Proof.
  exists (_get_seasonal_factor env),
         (if String.eqb (quality_grade product) "PREMIUM" then 1%Q else 0%Q).
  split; [reflexivity|].
  destruct (seasonal_factor_bounds env) as [Hlo Hhi].
  split; [exact Hlo|]. split; [exact Hhi|]. split.
  - intros Hm. unfold _get_seasonal_factor, seasonal_factors. cbn [lookup_month].
    repeat match goal with
           | |- context [Nat.eqb ?a ?b] =>
               destruct (Nat.eqb_spec a b); [exfalso; lia|]
           end. reflexivity.
  - destruct (String.eqb_spec (quality_grade product) "PREMIUM"); [left | right];
      split; (reflexivity || assumption).
Qed.

End InsightProperties.

Section MarketPriceProperties.
Import Py Predictor.

(** X13.  The placeholder market price of a crop does not depend on the
    region or on the case of the crop name; it lies between 100 and 300,
    and it is 100 for every crop outside the table. *)
Theorem current_market_price_shape (crop_type region : string) :
  (forall region', _get_current_market_price crop_type region'
                   = _get_current_market_price crop_type region)
  /\ (forall crop', lower crop' = lower crop_type ->
        _get_current_market_price crop' region
        = _get_current_market_price crop_type region)
  /\ (100 <= _get_current_market_price crop_type region)%Q
  /\ (_get_current_market_price crop_type region <= 300)%Q
  /\ (mem (lower crop_type) (map fst base_prices) = false ->
      _get_current_market_price crop_type region = 100%Q).
Proof.
  unfold _get_current_market_price.
  split; [reflexivity|]. split; [intros crop' ->; reflexivity|].
  unfold base_prices. cbn [lookup_price map fst mem existsb].
  rewrite !(String.eqb_sym (lower crop_type)).
  repeat match goal with
         | |- context [String.eqb ?a ?b] => destruct (String.eqb a b)
         end;
    (split; [apply Qle_bool_iff; reflexivity|]);
    (split; [apply Qle_bool_iff; reflexivity|]);
    intros H; (discriminate || reflexivity).
Qed.

Example market_price_maize :
  _get_current_market_price "MAIZE" "Central Kenya" = 150%Q
  /\ _get_current_market_price "cassava" "" = 100%Q.
Proof. split; reflexivity. Qed.

End MarketPriceProperties.

(** ** Further properties of the prediction view *)


Section ViewProperties.
Import Py Views Scenarios.

(** X14.  The fallback prediction always answers.  Its price stays
    within 10 per cent of the seasonal base price, up to half a cent of
    rounding; the price range it reports brackets that price, whose average
    is the price itself; it carries one dated prediction per day for the
    first min(7, days_ahead) days starting today (none for a horizon that
    is not positive); confidence is 0.7 and the trend stable. *)
Theorem fallback_prediction_shape (env : Env) (crop_type region : string)
        (days_ahead : Z) :
  (- (1 # 10) <= variation env)%Q -> (variation env <= 1 # 10)%Q ->
  let season :=
    seasonal_price (month env) (base_price_of fallback_base_prices crop_type 40) in
  exists r p lo hi,
    _get_fallback_prediction env crop_type region days_ahead = Ok r
    /\ predicted_price r = Some p
    /\ price_range r = Some (lo, hi, p)
    /\ (lo <= p)%Q /\ (p <= hi)%Q
    /\ (season * (9 # 10) - (1 # 200) <= p)%Q
    /\ (p <= season * (11 # 10) + (1 # 200))%Q
    /\ map fst (predictions r)
       = map (fun i => (today env + Z.of_nat i)%Z)
             (seq 0 (Z.to_nat (Z.min 7 days_ahead)))
    /\ confidence r = Some (7 # 10)%Q /\ trend r = Some "stable".
Proof.
  intros Hlo Hhi season.
  pose proof (fallback_base_price_bound crop_type) as Hbase.
  assert (Hseason : (1512 # 100 <= season)%Q).
  { subst season.
    pose proof (seasonal_price_bound (month env)
                  (base_price_of fallback_base_prices crop_type 40)) as H.
    lra. }
  set (final := (season * (1 + variation env))%Q).
  assert (Hfinal : (season * (9 # 10) <= final)%Q /\ (final <= season * (11 # 10))%Q).
  { subst final. split; nra. }
  destruct Hfinal as [Hf1 Hf2].
  exists {| status := 200; success := true; crop := Some crop_type;
            region := Some region;
            prediction_period := Some (days_label days_ahead);
            predicted_price := Some (round2 final);
            confidence := Some (7 # 10)%Q; trend := Some "stable";
            predictions :=
              map (fun i => ((today env + Z.of_nat i)%Z,
                             round2 (final * (1 + daily_variation env i))%Q))
                  (seq 0 (Z.to_nat (Z.min 7 days_ahead)));
            price_range := Some (round2 (final * (85 # 100))%Q,
                                 round2 (final * (115 # 100))%Q,
                                 round2 final);
            prediction_type := Some "fallback";
            data_sources := ["fallback_model"]; error := None |},
         (round2 final), (round2 (final * (85 # 100))%Q),
         (round2 (final * (115 # 100))%Q).
  split; [reflexivity|]. split; [reflexivity|]. split; [reflexivity|].
  destruct (round2_error final) as [He1 He2].
  split; [apply round2_monotone; lra|].
  split; [apply round2_monotone; lra|].
  split; [lra|]. split; [lra|].
  split; [|split; reflexivity].
  cbn [predictions]. rewrite map_map. reflexivity.
Qed.

Lemma fallback_prediction_shape_witness :
  exists r,
    _get_fallback_prediction (view_env (Ok failed_result)) "Maize" "Central Kenya" 30
    = Ok r
    /\ List.length (predictions r) = 7.
Proof.
  destruct (fallback_prediction_shape (view_env (Ok failed_result))
              "Maize" "Central Kenya" 30)
    as [r [p [lo [hi [Hr [_ [_ [_ [_ [_ [_ [Hdates _]]]]]]]]]]]].
  - apply Qle_bool_iff. reflexivity.
  - apply Qle_bool_iff. reflexivity.
  - exists r. split; [exact Hr|].
    rewrite <- (length_map fst), Hdates, length_map, length_seq. reflexivity.
Defined.

(** What the global branch returns when it answers. *)
Lemma global_attempt_response (env : Env) (data : Validated) (r : Response) :
  global_attempt env data = Some r ->
  useGlobal data = true
  /\ status r = 200 /\ success r = true
  /\ prediction_type r = Some "global"
  /\ predicted_price r <> None /\ error r = None.
Proof.
  unfold global_attempt.
  destruct (useGlobal data); [|discriminate].
  destruct (predict_global_price env) as [predict|]; [|discriminate].
  destruct (predict (cropType data) (country data) (prediction_days data))
    as [g|]; cbn [bind]; [|discriminate].
  destruct (g_success g); [|discriminate].
  destruct (price_points (g_predictions g)) as [points|]; cbn [bind]; [|discriminate].
  destruct (match get_kaggle_status env with
            | Some outcome => outcome
            | None => Ok tt
            end); cbn [bind]; [|discriminate].
  intros H. injection H as <-. cbn. repeat split. discriminate.
Qed.

(** X15.  Every response of the prediction view is coherent: it is a
    success exactly when its status is 200; a success carries a price and
    is tagged global, standard or fallback; a failure has status 400 or 500,
    an error message and no price; a rejected request gets 400; and a
    request that does not ask for the global model is never answered by
    it. *)
Theorem prediction_response_coherent (env : Env) (request : option Validated)
        (r : Response) :
  post env request = Ok r ->
  (success r = true <-> status r = 200)
  /\ (success r = true ->
      predicted_price r <> None
      /\ (prediction_type r = Some "global"
          \/ prediction_type r = Some "standard"
          \/ prediction_type r = Some "fallback"))
  /\ (success r = false ->
      (status r = 400 \/ status r = 500)
      /\ predicted_price r = None /\ error r <> None)
  /\ (request = None -> status r = 400)
  /\ (forall data, request = Some data -> useGlobal data = false ->
        prediction_type r <> Some "global").
Proof.
  unfold post. intros H.
  assert (Hcases :
            r = error_response 400 "Invalid request data" /\ request = None
            \/ r = error_response 500 "Failed to generate price prediction"
               /\ request <> None
            \/ (exists data, request = Some data
                             /\ global_attempt env data = Some r)
            \/ (status r = 200 /\ success r = true
                /\ predicted_price r <> None
                /\ (prediction_type r = Some "standard"
                    \/ prediction_type r = Some "fallback")
                /\ request <> None)).
  { destruct request as [data|].
    - destruct (global_attempt env data) as [resp|] eqn:Hg.
      + cbn in H. injection H as <-. right. right. left. eauto.
      + destruct (predict_price_api env (cropType data) (market data)
                    (prediction_days data) (country data)) as [a|e];
          cbn [bind try_except] in H.
        * destruct (api_success a).
          -- cbn in H. injection H as <-. right. right. right. cbn.
             repeat split; try discriminate. left. reflexivity.
          -- unfold _get_fallback_prediction in H. cbn [try_except] in H.
             injection H as <-. right. right. right. cbn.
             repeat split; try discriminate. right. reflexivity.
        * injection H as <-. right. left. split; [reflexivity | discriminate].
    - cbn in H. injection H as <-. left. split; reflexivity. }
  destruct Hcases as [[-> Hreq]|[[-> Hreq]|[[data [Hreq Hg]]|[Hs [Hok [Hp [Ht Hreq]]]]]]].
  - cbn. split; [split; discriminate|]. split; [discriminate|].
    split; [intros _; split; [tauto | split; [reflexivity | discriminate]]|].
    split; [reflexivity|]. intros data Hd. rewrite Hreq in Hd. discriminate.
  - cbn. split; [split; discriminate|]. split; [discriminate|].
    split; [intros _; split; [tauto | split; [reflexivity | discriminate]]|].
    split; [intros Hn; contradiction | discriminate].
  - destruct (global_attempt_response env data r Hg)
      as [Hu [Hs [Hok [Ht [Hp He]]]]].
    rewrite Hok, Hs, Ht. split; [tauto|]. split; [tauto|].
    split; [discriminate|]. split; [intros Hn; rewrite Hn in Hreq; discriminate|].
    intros data' Hd Hu'. rewrite Hreq in Hd. injection Hd as <-. congruence.
  - rewrite Hok, Hs. split; [tauto|]. split; [tauto|].
    split; [discriminate|]. split; [intros Hn; contradiction|].
    intros data Hd Hu. destruct Ht as [-> | ->]; discriminate.
Qed.

Lemma prediction_response_coherent_witness :
  status (error_response 500 "Failed to generate price prediction") = 500
  /\ (success (error_response 500 "Failed to generate price prediction") = true
      <-> status (error_response 500 "Failed to generate price prediction") = 200).
Proof.
  split; [reflexivity|].
  apply (prediction_response_coherent
           (view_env (Raise (RuntimeError "estimator unavailable")))
           (Some maize_request)).
  reflexivity.
Defined.

End ViewProperties.

(** ** Request validation, bulk predictions and price history *)

Section ValidationProperties.
Import Py Views Serializers Scenarios.

Lemma title_char_lower (c : ascii) : title_char (lower_char c) = title_char c.
Proof. destruct c as [[] [] [] [] [] [] [] []]; reflexivity. Qed.

Lemma capitalize_lower (v v' : string) :
  lower v' = lower v -> capitalize v' = capitalize v.
Proof.
  destruct v as [|c s], v' as [|c' s']; try discriminate; [reflexivity|].
  cbn [lower capitalize]. intros H. injection H as Hc Hs.
  rewrite <- (title_char_lower c), <- (title_char_lower c'), Hc, Hs. reflexivity.
Qed.

(** A member of [valid_crops] is one of the seven names. *)
Lemma valid_crop_cases (c : string) :
  mem c valid_crops = true ->
  c = "Maize" \/ c = "Rice" \/ c = "Beans" \/ c = "Cassava" \/ c = "Wheat"
  \/ c = "Tomatoes" \/ c = "Potatoes".
Proof.
  unfold mem, valid_crops. cbn [existsb]. rewrite !orb_true_iff, !String.eqb_eq.
  intuition discriminate.
Qed.

Lemma valid_crop_has_base_price (c : string) :
  mem c valid_crops = true ->
  exists p, In (c, p) fallback_base_prices
            /\ base_price_of fallback_base_prices c 40 = p.
Proof.
  intros H.
  destruct (valid_crop_cases c H) as [->|[->|[->|[->|[->|[->| ->]]]]]];
    eexists; (split; [|reflexivity]); cbn; tauto.
Qed.

Lemma validate_cropType_valid (v c : string) :
  validate_cropType v = Valid c ->
  v <> "" /\ c = capitalize v /\ mem c valid_crops = true.
Proof.
  unfold validate_cropType. destruct v as [|a s]; [discriminate|].
  destruct (mem (capitalize (String a s)) valid_crops) eqn:E; [|discriminate].
  intros H. injection H as <-. repeat split; [discriminate | exact E].
Qed.

(** X16.  A crop type the request serializer accepts is returned in its
    canonical capitalised form, which is one of the seven valid crops; it
    is accepted again unchanged, any other spelling with the same letters
    in another case is accepted to the same form, and it has its own entry
    in the base-price table of the fallback, so the generic default 40.00
    is never used for an accepted crop. *)
Theorem accepted_crop_is_canonical (value crop : string) :
  validate_cropType value = Valid crop ->
  mem crop valid_crops = true
  /\ validate_cropType crop = Valid crop
  /\ (forall value', lower value' = lower value ->
        validate_cropType value' = Valid crop)
  /\ exists p, In (crop, p) fallback_base_prices
               /\ base_price_of fallback_base_prices crop 40 = p.
Proof.
  intros H. destruct (validate_cropType_valid value crop H) as [Hne [Hc Hm]].
  split; [exact Hm|]. split; [|split].
  - destruct (valid_crop_cases crop Hm) as [->|[->|[->|[->|[->|[->| ->]]]]]];
      reflexivity.
  - intros value' Hl. unfold validate_cropType.
    destruct value' as [|a s].
    + destruct value; [contradiction | discriminate].
    + rewrite (capitalize_lower value (String a s) Hl), <- Hc, Hm. reflexivity.
  - apply valid_crop_has_base_price, Hm.
Qed.

Lemma accepted_crop_is_canonical_witness :
  validate_cropType "mAIZE" = Valid "Maize"
  /\ validate_cropType "MAIZE" = Valid "Maize".
Proof.
  split; [reflexivity|].
  destruct (accepted_crop_is_canonical "mAIZE" "Maize" eq_refl) as [_ [_ [H _]]].
  apply H. reflexivity.
Defined.

(** X17.  The request serializer accepts a horizon exactly when it lies
    between 1 and 365 days, and returns it unchanged; for an accepted
    horizon the fallback prediction carries between one and seven dated
    predictions. *)
Theorem accepted_horizon_bounds (days : Z) :
  (validate_prediction_days days = Valid days <-> (1 <= days <= 365)%Z)
  /\ (forall d, validate_prediction_days days = Valid d -> d = days)
  /\ (forall env crop_type region r,
        validate_prediction_days days = Valid days ->
        _get_fallback_prediction env crop_type region days = Ok r ->
        1 <= List.length (predictions r) <= 7).
Proof.
  assert (Hiff : validate_prediction_days days = Valid days <-> (1 <= days <= 365)%Z).
  { unfold validate_prediction_days.
    destruct (Z.leb_spec days 0); [split; [discriminate | lia]|].
    destruct (Z.ltb_spec 365 days); [split; [discriminate | lia]|].
    split; [lia | reflexivity]. }
  split; [exact Hiff|]. split.
  - unfold validate_prediction_days. intros d.
    destruct (days <=? 0)%Z; [discriminate|].
    destruct (365 <? days)%Z; [discriminate|]. intros H. injection H as <-.
    reflexivity.
  - intros env crop_type region r Hv Hr. apply Hiff in Hv.
    unfold _get_fallback_prediction in Hr. cbn [try_except] in Hr.
    injection Hr as <-. cbn [predictions]. rewrite length_map, length_seq. lia.
Qed.

End ValidationProperties.

Section BulkProperties.
Import Py Views Serializers BulkView BulkCases.

Lemma fallback_prediction_is_fallback (variation : Q) (crop region country : string)
      (days_ahead : Z) :
  (- (1 # 10) <= variation)%Q -> (variation <= 1 # 10)%Q ->
  is_fallback (_create_fallback_prediction variation crop region country days_ahead).
Proof.
  intros Hlo Hhi. unfold is_fallback, _create_fallback_prediction.
  cbn [prediction_type kaggle_enhanced confidence predictions current_price
       predicted_price crop_type].
  pose proof (fallback_base_price_bound crop) as Hb.
  set (b := base_price_of fallback_base_prices crop 40) in *.
  destruct (round2_error (b * (1 + variation))) as [Hr1 Hr2].
  assert (H1 : (b * (9 # 10) <= b * (1 + variation))%Q) by nra.
  assert (H2 : (b * (1 + variation) <= b * (11 # 10))%Q) by nra.
  repeat (split; [reflexivity|]).
  split; [lra|]. split; [lra|]. lra.
Qed.

Lemma requested_crop_not_empty (item : BulkItem) :
  mem (requested_crop item) valid_crops = true -> requested_crop item <> "".
Proof. intros H E. rewrite E in H. discriminate. Qed.

Lemma predict_item_answers (env : Env) (i : nat) (item : BulkItem) :
  mem (requested_crop item) valid_crops = true ->
  (- (1 # 10) <= draw env i)%Q -> (draw env i <= 1 # 10)%Q ->
  exists p, predict_item env i item = Some p /\ answers env item p.
Proof.
  intros Hm Hlo Hhi. pose proof (requested_crop_not_empty item Hm) as Hne.
  unfold predict_item, answers. fold (requested_crop item).
  destruct (requested_crop item) as [|a s] eqn:E; [contradiction|].
  eexists. split; [reflexivity|].
  destruct (predict_price_api env (String a s) (or_default (b_region item) "")
              (or_default (b_days_ahead item) 30%Z)
              (or_default (b_country item) "global")) as [r|e];
    cbn [bind try_except].
  - destruct (api_success r); cbn [try_except].
    + cbn. repeat split; reflexivity.
    + repeat (split; [reflexivity|]).
      apply fallback_prediction_is_fallback; assumption.
  - repeat (split; [reflexivity|]).
    apply fallback_prediction_is_fallback; assumption.
Qed.

Lemma validate_items_valid (items : list BulkItem) :
  (exists u, validate_items items = Valid u)
  <-> Forall (fun item => mem (requested_crop item) valid_crops = true) items.
Proof.
  induction items as [|item rest IH]; cbn [validate_items].
  - split; [constructor | intros _; exists tt; reflexivity].
  - fold (or_default (b_cropType item) ""). fold (requested_crop item).
    destruct (truthy_str (b_cropType item)) eqn:Et; cbn [negb].
    + destruct (mem (requested_crop item) valid_crops) eqn:Em.
      * rewrite IH. split; intros H; [constructor; assumption|].
        inversion H; assumption.
      * split; [intros [u Hu]; discriminate|].
        intros H. inversion H; congruence.
    + split; [intros [u Hu]; discriminate|].
      intros H. inversion H as [|? ? Hm _]; subst. exfalso.
      unfold requested_crop in Hm. unfold truthy_str in Et.
      destruct (b_cropType item) as [[|c s]|]; cbn in Hm; discriminate.
Qed.

Lemma validate_predictions_valid (items items' : list BulkItem) :
  validate_predictions items = Valid items' ->
  items' = items /\ items <> []
  /\ Forall (fun item => mem (requested_crop item) valid_crops = true) items.
Proof.
  unfold validate_predictions. destruct items as [|item rest]; [discriminate|].
  destruct (validate_items (item :: rest)) as [u|m] eqn:E; [|discriminate].
  intros H. injection H as <-. split; [reflexivity|]. split; [discriminate|].
  apply validate_items_valid. exists u. exact E.
Qed.

Lemma predict_all_answers (env : Env) (items : list BulkItem) :
  Forall (fun item => mem (requested_crop item) valid_crops = true) items ->
  (forall i, (- (1 # 10) <= draw env i)%Q /\ (draw env i <= 1 # 10)%Q) ->
  forall i, Forall2 (answers env) items (predict_all env i items).
Proof.
  intros Hv Hd. induction Hv as [|item rest Hm _ IH]; intros i; cbn [predict_all].
  - constructor.
  - destruct (Hd i) as [Hlo Hhi].
    destruct (predict_item_answers env i item Hm Hlo Hhi) as [p [Hp Ha]].
    rewrite Hp. constructor; [exact Ha | apply IH].
Qed.

(** X18.  Once the bulk serializer has accepted the list, the bulk view
    answers 200 with exactly one result per request, in the order of the
    requests: the predictor's result when it succeeds, and otherwise, both
    when the predictor reports a failure and when it raises, a fallback
    marked as such, with confidence 0.6 and a positive price within a
    tenth (and half a cent) of the base price of the crop.  A failing
    prediction never aborts the batch. *)
Theorem bulk_failures_fall_back (env : Env) (items validated : list BulkItem)
        (useGlobal : bool) :
  validate_predictions items = Valid validated ->
  (forall i, (- (1 # 10) <= draw env i)%Q /\ (draw env i <= 1 # 10)%Q) ->
  let response := post env items useGlobal in
  b_status response = 200
  /\ b_success response = true
  /\ use_global response = useGlobal
  /\ Forall2 (answers env) items (b_predictions response)
  /\ List.length (b_predictions response) = List.length items.
Proof.
  intros Hv Hd response. subst response. unfold post. rewrite Hv.
  cbn [b_status b_success use_global b_predictions].
  destruct (validate_predictions_valid items validated Hv) as [-> [_ Hall]].
  pose proof (predict_all_answers env items Hall Hd 0) as HF.
  repeat (split; [reflexivity|]). split; [exact HF|].
  symmetry. exact (Forall2_length HF).
Qed.

Lemma bulk_failures_fall_back_witness :
  let response := post failing_env [maize_request] false in
  b_status response = 200
  /\ b_success response = true
  /\ use_global response = false
  /\ Forall2 (answers failing_env) [maize_request] (b_predictions response)
  /\ List.length (b_predictions response) = 1.
Proof.
  apply (bulk_failures_fall_back failing_env [maize_request] [maize_request] false).
  - reflexivity.
  - intros i. cbn. split; apply Qle_bool_iff; reflexivity.
Defined.

(** For entries whose crop types are strings: the view answers 200
    exactly when the list is not empty and every entry names a valid
    crop, and 400 with no predictions otherwise. *)
Lemma typed_bulk_request_accepted_iff (env : Env) (items : list BulkItem)
      (useGlobal : bool) :
  let response := post env items useGlobal in
  (b_status response = 200
   <-> items <> []
       /\ Forall (fun item => mem (requested_crop item) valid_crops = true) items)
  /\ (b_status response = 200
      \/ b_status response = 400 /\ b_success response = false
         /\ b_predictions response = []).
Proof.
  cbn zeta. unfold post.
  destruct (validate_predictions items) as [v|m] eqn:E;
    cbn [b_status b_success b_predictions].
  - split; [|left; reflexivity].
    destruct (validate_predictions_valid items v E) as [_ [Hne Hall]].
    split; [intros _; split; assumption | reflexivity].
  - split; [|right; repeat split; reflexivity].
    split; [discriminate|]. intros [Hne Hall]. exfalso.
    apply validate_items_valid in Hall. destruct Hall as [u Hu].
    unfold validate_predictions in E. destruct items; [contradiction|].
    rewrite Hu in E. discriminate.
Qed.

End BulkProperties.

Section BulkRequestProperties.
Import Py Views Serializers BulkView BulkCases BulkRequest.








End BulkRequestProperties.

Section PriceHistoryProperties.
Import Py BulkView.

Lemma round2_comp (x y : Q) : (x == y)%Q -> (round2 x == round2 y)%Q.
Proof.
  intros H. apply Qle_antisym; apply round2_monotone; rewrite H; apply Qle_refl.
Qed.

(** X20.  The price history of a listing is synthetic: whatever the
    listing, it has seven points 30 days apart that end today; the six
    past prices follow the cycle 0.9, 1.1 and 1.0 times the current price,
    each within the half cent of its rounding, with the volumes 10, 10, 18,
    26, 34 and 42; the last point, the only one marked current, carries the
    price and the quantity of the listing as they are.  For a price that
    is not negative every point lies within a tenth and half a cent of the
    current price. *)
Theorem price_history_is_synthetic (today : Z) (product : Models.ProductListing) :
  let history := _generate_price_history today product in
  let p := Models.price product in
  map h_date history
  = [today - 180; today - 150; today - 120; today - 90; today - 60; today - 30;
     today]%Z
  /\ map h_volume history = [10; 10; 18; 26; 34; 42; Models.quantity product]%Z
  /\ map h_current history = [false; false; false; false; false; false; true]
  /\ Forall2 (fun past target =>
                (target - (1 # 200) <= past)%Q /\ (past <= target + (1 # 200))%Q)
             (map h_price (firstn 6 history))
             [p * (9 # 10); p * (11 # 10); p; p * (9 # 10); p * (11 # 10); p]%Q
  /\ map h_price (skipn 6 history) = [p]
  /\ ((0 <= p)%Q ->
      Forall (fun point =>
                (p * (9 # 10) - (1 # 200) <= h_price point)%Q
                /\ (h_price point <= p * (11 # 10) + (1 # 200))%Q) history).
Proof.
  cbv zeta. unfold _generate_price_history, history_point.
  cbn [map app h_date h_volume h_current h_price firstn skipn].
  change ((6 mod 3 - 1)%Z) with (-1)%Z. change ((5 mod 3 - 1)%Z) with 1%Z.
  change ((4 mod 3 - 1)%Z) with 0%Z. change ((3 mod 3 - 1)%Z) with (-1)%Z.
  change ((2 mod 3 - 1)%Z) with 1%Z. change ((1 mod 3 - 1)%Z) with 0%Z.
  set (p := Models.price product).
  assert (E9 : (p * (1 + inject_Z (-1) * (1 # 10)) == p * (9 # 10))%Q)
    by (change (inject_Z (-1)) with (-1 # 1)%Q; ring).
  assert (E11 : (p * (1 + inject_Z 1 * (1 # 10)) == p * (11 # 10))%Q)
    by (change (inject_Z 1) with 1%Q; ring).
  assert (E10 : (p * (1 + inject_Z 0 * (1 # 10)) == p)%Q)
    by (change (inject_Z 0) with 0%Q; ring).
  destruct (round2_error (p * (9 # 10))) as [L9 U9].
  destruct (round2_error (p * (11 # 10))) as [L11 U11].
  destruct (round2_error p) as [L10 U10].
  pose proof (round2_comp _ _ E9) as R9. pose proof (round2_comp _ _ E11) as R11.
  pose proof (round2_comp _ _ E10) as R10.
  split; [repeat f_equal; lia|]. split; [reflexivity|]. split; [reflexivity|].
  split; [|split; [reflexivity|]].
  - repeat constructor; rewrite ?R9, ?R11, ?R10; assumption.
  - intros Hp.
    repeat constructor; cbn [h_price]; rewrite ?R9, ?R11, ?R10; lra.
Qed.

End PriceHistoryProperties.

(** ** The shopping cart *)

Section CartFacts.
Import Py Models Cart.

(** The row of the cart of [user] that holds the product [pid]. *)
Lemma find_cart_product (s : Store) (user : string) (pid : Z) (i : CartItem) :
  find (fun i => String.eqb (cart_user i) user && (product_id i =? pid)%Z) (items s)
  = Some i ->
  In i (items s) /\ cart_user i = user /\ product_id i = pid.
Proof.
  intros H. apply find_some in H. destruct H as [Hin Hb].
  apply andb_true_iff in Hb. destruct Hb as [Hu Hp].
  apply String.eqb_eq in Hu. apply Z.eqb_eq in Hp. auto.
Qed.

Lemma get_item_some (s : Store) (user : string) (k : Z) (i : CartItem) :
  get_item s user k = Some i ->
  In i (items s) /\ item_id i = k /\ cart_user i = user.
Proof.
  unfold get_item. intros H. apply find_some in H. destruct H as [Hin Hb].
  apply andb_true_iff in Hb. destruct Hb as [Hk Hu].
  apply String.eqb_eq in Hu. apply Z.eqb_eq in Hk. auto.
Qed.

(** What [add_item] does, case by case. *)
Lemma add_item_outcome (s : Store) (user : string) (pid_sent q_sent : option Z) :
  (fst (add_item s user pid_sent q_sent) = s
   /\ (snd (add_item s user pid_sent q_sent) = Failure 400 "Invalid data" []
       \/ snd (add_item s user pid_sent q_sent) = Failure 404 "Product not available" []
       \/ exists n t,
           snd (add_item s user pid_sent q_sent) = Unhandled (ValidationError n t)))
  \/ exists pid requested product,
      AddToCartSerializer pid_sent q_sent = Some (pid, requested)
      /\ products s pid = Some product
      /\ status product = "AVAILABLE"
      /\ snd (add_item s user pid_sent q_sent) = Success 200 "Item added to cart"
      /\ ((find (fun i => String.eqb (cart_user i) user && (product_id i =? pid)%Z)
                (items s) = None
           /\ (requested <= Models.quantity product)%Z
           /\ fst (add_item s user pid_sent q_sent)
              = fst (insert_item s user pid requested))
          \/ exists existing,
              find (fun i => String.eqb (cart_user i) user && (product_id i =? pid)%Z)
                   (items s) = Some existing
              /\ (item_quantity existing + requested <= Models.quantity product)%Z
              /\ fst (add_item s user pid_sent q_sent)
                 = save_item s (with_item_quantity existing
                                  (item_quantity existing + requested))).
Proof.
  unfold add_item.
  destruct (AddToCartSerializer pid_sent q_sent) as [[pid requested]|] eqn:Es;
    [|left; split; [reflexivity | left; reflexivity]].
  destruct (products s pid) as [product|] eqn:Ep;
    [|left; split; [reflexivity | right; left; reflexivity]].
  destruct (String.eqb (status product) "AVAILABLE") eqn:Ea; cbn [negb];
    [|left; split; [reflexivity | right; left; reflexivity]].
  apply String.eqb_eq in Ea.
  destruct (find _ (items s)) as [existing|] eqn:Ef.
  - unfold clean, stock_check. cbn [with_item_quantity item_quantity].
    destruct (Z.ltb_spec (Models.quantity product) (item_quantity existing + requested));
      cbn [fst snd].
    + left. split; [reflexivity|]. right. right. eauto.
    + right. exists pid, requested, product.
      do 4 (split; [first [assumption | reflexivity]|]).
      right. exists existing. split; [first [assumption | reflexivity]|].
      split; [lia | reflexivity].
  - unfold insert_item, clean, stock_check. cbn [item_quantity].
    destruct (Z.ltb_spec (Models.quantity product) requested); cbn [fst snd].
    + left. split; [reflexivity|]. right. right. eauto.
    + right. exists pid, requested, product.
      do 4 (split; [first [assumption | reflexivity]|]).
      left. split; [first [assumption | reflexivity]|]. split; [lia | reflexivity].
Qed.

Lemma NoDup_map_In_inj {A B : Type} (f : A -> B) (l : list A) (x y : A) :
  NoDup (map f l) -> In x l -> In y l -> f x = f y -> x = y.
Proof.
  induction l as [|a l IH]; cbn [map]; intros Hnd Hx Hy Hf; [contradiction|].
  inversion Hnd as [|? ? Hnotin Hnd']; subst.
  destruct Hx as [->|Hx], Hy as [->|Hy].
  - reflexivity.
  - exfalso. apply Hnotin. rewrite Hf. apply in_map. exact Hy.
  - exfalso. apply Hnotin. rewrite <- Hf. apply in_map. exact Hx.
  - apply IH; assumption.
Qed.

Lemma NoDup_map_filter {A B : Type} (f : A -> B) (g : A -> bool) (l : list A) :
  NoDup (map f l) -> NoDup (map f (filter g l)).
Proof.
  induction l as [|a l IH]; cbn [map filter]; intros Hnd; [constructor|].
  inversion Hnd as [|? ? Hnotin Hnd']; subst.
  destruct (g a); cbn [map]; [|apply IH; assumption].
  constructor; [|apply IH; assumption].
  intros Hin. apply Hnotin. apply in_map_iff in Hin.
  destruct Hin as [x [Hx Hin]]. apply filter_In in Hin.
  apply in_map_iff. exists x. tauto.
Qed.

Lemma find_cart_product_none (s : Store) (user : string) (pid : Z) :
  find (fun i => String.eqb (cart_user i) user && (product_id i =? pid)%Z) (items s)
  = None ->
  forall i, In i (items s) -> (cart_user i, product_id i) <> (user, pid).
Proof.
  intros H i Hin E. injection E as Hu Hp.
  pose proof (find_none _ _ H i Hin) as Hb. cbn beta in Hb.
  rewrite Hu, Hp, String.eqb_refl, Z.eqb_refl in Hb. discriminate.
Qed.

(** What [update_item] does: nothing, or the quantity of the item found is
    set. *)
Lemma update_item_outcome (s : Store) (user : string) (k : Z) (q_sent : option Z) :
  fst (update_item s user k q_sent) = s
  /\ (forall st m, snd (update_item s user k q_sent) <> Success st m)
  \/ exists cart_item product new_quantity,
      get_item s user k = Some cart_item
      /\ product_of s cart_item = Some product
      /\ (new_quantity <= Models.quantity product)%Z
      /\ (q_sent = Some new_quantity /\ (1 <= new_quantity)%Z
          \/ q_sent = None /\ new_quantity = item_quantity cart_item)
      /\ update_item s user k q_sent
         = (save_item s (with_item_quantity cart_item new_quantity),
            Success 200 "Cart updated").
Proof.
  unfold update_item.
  destruct (get_item s user k) as [cart_item|] eqn:Eg;
    [|left; split; [reflexivity | discriminate]].
  unfold UpdateCartItemSerializer.
  destruct q_sent as [q|].
  - destruct (Z.ltb_spec q 1); [left; split; [reflexivity | discriminate]|].
    destruct (product_of s cart_item) as [product|] eqn:Ep;
      [|left; split; [reflexivity | discriminate]].
    destruct (Z.ltb_spec (Models.quantity product) q);
      [left; split; [reflexivity | discriminate]|].
    unfold clean. cbn [with_item_quantity item_quantity].
    destruct (Z.ltb_spec (Models.quantity product) q); [lia|].
    right. exists cart_item, product, q.
    split; [reflexivity|]. split; [assumption|]. split; [assumption|].
    split; [left; split; [reflexivity | lia] | reflexivity].
  - destruct (product_of s cart_item) as [product|] eqn:Ep;
      [|left; split; [reflexivity | discriminate]].
    destruct (Z.ltb_spec (Models.quantity product) (item_quantity cart_item));
      [left; split; [reflexivity | discriminate]|].
    unfold clean. cbn [with_item_quantity item_quantity].
    destruct (Z.ltb_spec (Models.quantity product) (item_quantity cart_item)); [lia|].
    right. exists cart_item, product, (item_quantity cart_item).
    split; [reflexivity|]. split; [assumption|]. split; [assumption|].
    split; [right; split; reflexivity | reflexivity].
Qed.

(** The name [transaction] is not bound in [views.py]. *)
Lemma transaction_unbound : views_name "transaction" = Raise (NameError "transaction").
Proof. reflexivity. Qed.

(** [checkout] never succeeds and leaves every table as it was. *)
Lemma checkout_unchanged (s : Store) (user : string) (validated : option CheckoutData) :
  fst (checkout s user validated) = s
  /\ (forall st m, snd (checkout s user validated) <> Success st m).
Proof.
  unfold checkout. rewrite transaction_unbound.
  destruct (is_empty s user); [split; [reflexivity | discriminate]|].
  destruct (unavailable_items s (cart_items s user)) as [[|t ts]|];
    try (split; [reflexivity | discriminate]).
  destruct validated as [data|]; split; try reflexivity; discriminate.
Qed.

Lemma filter_map_unaffected {A : Type} (p : A -> bool) (g : A -> A) (l : list A) :
  (forall i, In i l -> g i = i \/ (p i = false /\ p (g i) = false)) ->
  filter p (map g l) = filter p l.
Proof.
  induction l as [|a l IH]; intros H; [reflexivity|]. cbn [map filter].
  rewrite IH by (intros i Hi; apply H; right; exact Hi).
  destruct (H a (or_introl eq_refl)) as [->|[-> ->]]; reflexivity.
Qed.

Lemma save_item_other_carts (s : Store) (old : CartItem) (q : Z) (other : string) :
  NoDup (map item_id (items s)) -> In old (items s) -> cart_user old <> other ->
  cart_items (save_item s (with_item_quantity old q)) other = cart_items s other.
Proof.
  intros Hnd Hin Hu. unfold cart_items, save_item.
  cbn [items item_id with_item_quantity].
  apply filter_map_unaffected. intros i Hi.
  destruct (Z.eqb_spec (item_id i) (item_id old)) as [E|E]; [|left; reflexivity].
  right. assert (i = old) by (apply (NoDup_map_In_inj item_id (items s)); assumption).
  subst i. cbn [cart_user]. split; apply String.eqb_neq; exact Hu.
Qed.

Lemma delete_item_other_carts (s : Store) (old : CartItem) (other : string) :
  NoDup (map item_id (items s)) -> In old (items s) -> cart_user old <> other ->
  cart_items (delete_item s old) other = cart_items s other.
Proof.
  intros Hnd Hin Hu. unfold cart_items, delete_item. cbn [items].
  rewrite filter_filter. apply filter_ext_in. intros i Hi.
  destruct (String.eqb_spec (cart_user i) other) as [E|E]; [|apply andb_false_r].
  rewrite andb_true_r.
  destruct (Z.eqb_spec (item_id i) (item_id old)) as [E'|E']; [|reflexivity].
  exfalso. apply Hu. rewrite <- E. f_equal. symmetry.
  apply (NoDup_map_In_inj item_id (items s)); assumption.
Qed.

Lemma delete_cart_other_carts (s : Store) (user other : string) :
  other <> user ->
  cart_items (delete_cart_items s user) other = cart_items s other.
Proof.
  intros Hu. unfold cart_items, delete_cart_items. cbn [items].
  rewrite filter_filter. apply filter_ext. intros i.
  destruct (String.eqb_spec (cart_user i) other) as [E|E]; [|apply andb_false_r].
  rewrite andb_true_r.
  destruct (String.eqb_spec (cart_user i) user) as [E'|E']; [|reflexivity].
  congruence.
Qed.

Lemma delete_cart_own_cart (s : Store) (user : string) :
  cart_items (delete_cart_items s user) user = [].
Proof.
  unfold cart_items, delete_cart_items. cbn [items]. rewrite filter_filter.
  induction (items s) as [|i l IH]; [reflexivity|]. cbn [filter].
  destruct (String.eqb (cart_user i) user); cbn [negb andb]; exact IH.
Qed.

Lemma AddToCartSerializer_valid (pid_sent q_sent : option Z) (pid requested : Z) :
  AddToCartSerializer pid_sent q_sent = Some (pid, requested) ->
  pid_sent = Some pid /\ (1 <= requested)%Z
  /\ (q_sent = Some requested \/ q_sent = None /\ requested = 1%Z).
Proof.
  unfold AddToCartSerializer. destruct pid_sent as [k|]; [|discriminate].
  destruct q_sent as [q|].
  - destruct (Z.ltb_spec q 1) as [Hq|Hq]; [discriminate|]. intros E.
    injection E as <- <-. auto.
  - cbn. intros E. injection E as <- <-. split; [reflexivity|]. split; [lia|].
    right. auto.
Qed.

Lemma Forall_filter {A : Type} (P : A -> Prop) (g : A -> bool) (l : list A) :
  Forall P l -> Forall P (filter g l).
Proof.
  rewrite !Forall_forall. intros H x Hx. apply filter_In in Hx. apply H, Hx.
Qed.

Lemma within_stock_save (s : Store) (old : CartItem) (p : ProductListing) (q : Z) :
  within_stock s -> product_of s old = Some p ->
  (1 <= q <= Models.quantity p)%Z ->
  within_stock (save_item s (with_item_quantity old q)).
Proof.
  unfold within_stock, save_item. cbn [items]. intros H Hp Hq.
  apply Forall_map. apply Forall_forall. intros i Hi.
  rewrite Forall_forall in H.
  destruct (item_id i =? item_id (with_item_quantity old q))%Z.
  - exists p. split; [exact Hp | exact Hq].
  - apply (H i Hi).
Qed.

Lemma save_item_keys (s : Store) (old : CartItem) (q : Z) :
  NoDup (map item_id (items s)) -> In old (items s) ->
  map item_id (items (save_item s (with_item_quantity old q))) = map item_id (items s)
  /\ map (fun i => (cart_user i, product_id i))
         (items (save_item s (with_item_quantity old q)))
     = map (fun i => (cart_user i, product_id i)) (items s).
Proof.
  intros Hnd Hin. unfold save_item. cbn [items item_id with_item_quantity].
  rewrite !map_map. split; apply map_ext_in; intros i Hi;
    destruct (Z.eqb_spec (item_id i) (item_id old)) as [E|E]; try reflexivity.
  - cbn [item_id]. symmetry. exact E.
  - assert (i = old) by (apply (NoDup_map_In_inj item_id (items s)); assumption).
    subst i. reflexivity.
Qed.

Lemma well_formed_save (s : Store) (old : CartItem) (q : Z) :
  well_formed s -> In old (items s) ->
  well_formed (save_item s (with_item_quantity old q)).
Proof.
  intros [Hid [Hlt Hkey]] Hin. unfold well_formed.
  destruct (save_item_keys s old q Hid Hin) as [E1 E2]. rewrite E1, E2.
  split; [exact Hid|]. split; [|exact Hkey].
  unfold save_item. cbn [items next_item_id]. apply Forall_map.
  rewrite Forall_forall in *. intros i Hi.
  destruct (item_id i =? item_id (with_item_quantity old q))%Z; [|apply Hlt, Hi].
  cbn [item_id with_item_quantity]. apply Hlt, Hin.
Qed.

Lemma well_formed_filter (s : Store) (g : CartItem -> bool) :
  well_formed s ->
  well_formed {| products := products s; items := filter g (items s);
                 orders := orders s; next_item_id := next_item_id s |}.
Proof.
  intros [Hid [Hlt Hkey]]. unfold well_formed. cbn [items next_item_id].
  split; [apply NoDup_map_filter, Hid|].
  split; [apply Forall_filter, Hlt | apply NoDup_map_filter, Hkey].
Qed.

Lemma well_formed_insert (s : Store) (user : string) (pid requested : Z) :
  well_formed s ->
  find (fun i => String.eqb (cart_user i) user && (product_id i =? pid)%Z) (items s)
  = None ->
  well_formed (fst (insert_item s user pid requested)).
Proof.
  intros [Hid [Hlt Hkey]] Hf. unfold well_formed, insert_item.
  cbn [fst items next_item_id map item_id cart_user product_id].
  split; [|split].
  - constructor; [|exact Hid]. intros Hin. apply in_map_iff in Hin.
    destruct Hin as [i [Ei Hi]]. rewrite Forall_forall in Hlt.
    specialize (Hlt i Hi). lia.
  - constructor; [cbn [item_id]; lia|].
    rewrite Forall_forall in *. intros i Hi. specialize (Hlt i Hi). lia.
  - constructor; [|exact Hkey]. intros Hin. apply in_map_iff in Hin.
    destruct Hin as [i [Ei Hi]].
    exact (find_cart_product_none s user pid Hf i Hi Ei).
Qed.

Lemma get_item_of_other (s : Store) (user other : string) (i : CartItem) :
  NoDup (map item_id (items s)) -> In i (items s) -> cart_user i = other ->
  other <> user -> get_item s user (item_id i) = None.
Proof.
  intros Hnd Hin Hu Hne. destruct (get_item s user (item_id i)) as [j|] eqn:E;
    [|reflexivity].
  apply get_item_some in E. destruct E as [Hj [Hid Huj]].
  assert (j = i) by (apply (NoDup_map_In_inj item_id (items s)); assumption).
  subst j. congruence.
Qed.

End CartFacts.

Section CartProperties.
Import Py Models Cart CartCases.

(** X21.  [add_item] never answers [Only N units available]: the check of
    the view comes after the item is saved, and saving an item that asks
    for more than the stock raises.  A valid request for an available
    product that would bring the cart above the stock leaves the view as a
    [ValidationError] instead of a 400, and stores nothing. *)
Theorem add_item_over_stock_raises (s : Store) (user : string)
        (pid_sent q_sent : option Z) :
  (forall st n, snd (add_item s user pid_sent q_sent) <> Only_units_available st n)
  /\ (forall pid requested product,
        AddToCartSerializer pid_sent q_sent = Some (pid, requested) ->
        products s pid = Some product ->
        status product = "AVAILABLE" ->
        (Models.quantity product < held s user pid + requested)%Z ->
        add_item s user pid_sent q_sent
        = (s, Unhandled (ValidationError (Models.quantity product) (title product)))).
Proof.
  split.
  - intros st n.
    destruct (add_item_outcome s user pid_sent q_sent)
      as [[_ [H|[H|[m [t H]]]]]|[pid [requested [product [_ [_ [_ [H _]]]]]]]];
      rewrite H; discriminate.
  - intros pid requested product Hs Hp Ha Hq. unfold add_item.
    rewrite Hs, Hp, Ha. cbn [String.eqb Ascii.eqb Bool.eqb negb andb].
    unfold held in Hq.
    destruct (find _ (items s)) as [existing|].
    + unfold clean. cbn [with_item_quantity item_quantity].
      destruct (Z.ltb_spec (Models.quantity product)
                           (item_quantity existing + requested)); [reflexivity | lia].
    + unfold insert_item, clean. cbn [item_quantity].
      destruct (Z.ltb_spec (Models.quantity product) requested); [reflexivity | lia].
Qed.

(** X22.  Adding, updating, removing and clearing keep every cart within
    stock: if every item of every cart asks for at least one unit and no
    more than the stock of its product, the same holds afterwards, whatever
    the request and whatever the answer. *)
Theorem cart_edits_keep_within_stock (s : Store) (user : string)
        (pid_sent q_sent : option Z) (k : Z) (q_update : option Z) :
  within_stock s ->
  within_stock (fst (add_item s user pid_sent q_sent))
  /\ within_stock (fst (update_item s user k q_update))
  /\ within_stock (fst (remove_item s user k))
  /\ within_stock (fst (clear s user)).
Proof.
  intros H. split; [|split; [|split]].
  - destruct (add_item_outcome s user pid_sent q_sent)
      as [[-> _]|[pid [requested [product [Hs [Hp [_ [_ [[Hf [Hq ->]]|[existing [Hf [Hq ->]]]]]]]]]]]].
    + exact H.
    + apply AddToCartSerializer_valid in Hs. destruct Hs as [_ [Hr _]].
      unfold within_stock, insert_item. cbn [fst items].
      constructor; [|exact H]. exists product. split; [exact Hp | cbn; lia].
    + apply AddToCartSerializer_valid in Hs. destruct Hs as [_ [Hr _]].
      apply find_cart_product in Hf. destruct Hf as [Hin [_ Hpid]].
      apply (within_stock_save s existing product); [exact H | | ].
      * unfold product_of. rewrite Hpid. exact Hp.
      * unfold within_stock in H. rewrite Forall_forall in H.
        destruct (H existing Hin) as [p' [_ Hb]]. lia.
  - destruct (update_item_outcome s user k q_update)
      as [[-> _]|[cart_item [product [q [Hg [Hp [Hq [Hcase ->]]]]]]]]; [exact H|].
    cbn [fst]. apply (within_stock_save s cart_item product); [exact H | exact Hp|].
    destruct Hcase as [[_ Hq1]|[_ ->]]; [lia|].
    apply get_item_some in Hg. destruct Hg as [Hin _].
    unfold within_stock in H. rewrite Forall_forall in H.
    destruct (H cart_item Hin) as [p' [Hp' Hb]]. lia.
  - unfold remove_item. destruct (get_item s user k); [|exact H].
    cbn [fst]. unfold within_stock, delete_item. cbn [items]. apply Forall_filter, H.
  - unfold clear, within_stock, delete_cart_items. cbn [fst items].
    apply Forall_filter, H.
Qed.

Lemma cart_edits_keep_within_stock_witness :
  within_stock (fst (add_item shop "amy@mail.example" (Some 1%Z) (Some 4%Z)))
  /\ within_stock (fst (update_item shop "amy@mail.example" 1 (Some 10%Z)))
  /\ within_stock (fst (remove_item shop "amy@mail.example" 1))
  /\ within_stock (fst (clear shop "amy@mail.example")).
Proof.
  apply cart_edits_keep_within_stock.
  unfold within_stock. repeat constructor; eexists; (split; [reflexivity | cbn; lia]).
Defined.

(** X23.  Carts are isolated: no request of a user, whether it adds,
    updates, removes, clears or checks out, changes the items of the cart
    of another user, and a request to update or remove an item of another
    user's cart is answered 404 and changes nothing. *)
Theorem carts_are_isolated (s : Store) (user other : string)
        (pid_sent q_sent : option Z) (k : Z) (q_update : option Z)
        (validated : option CheckoutData) :
  well_formed s -> other <> user ->
  cart_items (fst (add_item s user pid_sent q_sent)) other = cart_items s other
  /\ cart_items (fst (update_item s user k q_update)) other = cart_items s other
  /\ cart_items (fst (remove_item s user k)) other = cart_items s other
  /\ cart_items (fst (clear s user)) other = cart_items s other
  /\ cart_items (fst (checkout s user validated)) other = cart_items s other
  /\ (forall i, In i (cart_items s other) ->
        update_item s user (item_id i) q_update
        = (s, Failure 404 "Cart item not found" [])
        /\ remove_item s user (item_id i) = (s, Failure 404 "Cart item not found" [])).
Proof.
  intros [Hid [Hlt Hkey]] Hne.
  assert (Hne' : user <> other) by congruence.
  split; [|split; [|split; [|split; [|split]]]].
  - destruct (add_item_outcome s user pid_sent q_sent)
      as [[-> _]|[pid [requested [product [_ [_ [_ [_ [[_ [_ ->]]|[existing [Hf [_ ->]]]]]]]]]]]].
    + reflexivity.
    + unfold cart_items, insert_item. cbn [fst items filter cart_user].
      destruct (String.eqb_spec user other); [contradiction | reflexivity].
    + apply find_cart_product in Hf. destruct Hf as [Hin [Hu _]].
      apply save_item_other_carts; [assumption | assumption | congruence].
  - destruct (update_item_outcome s user k q_update)
      as [[-> _]|[cart_item [product [q [Hg [_ [_ [_ ->]]]]]]]]; [reflexivity|].
    apply get_item_some in Hg. destruct Hg as [Hin [_ Hu]].
    apply save_item_other_carts; [assumption | assumption | congruence].
  - unfold remove_item. destruct (get_item s user k) as [cart_item|] eqn:Hg;
      [|reflexivity].
    apply get_item_some in Hg. destruct Hg as [Hin [_ Hu]].
    apply delete_item_other_carts; [assumption | assumption | congruence].
  - apply delete_cart_other_carts, Hne.
  - rewrite (proj1 (checkout_unchanged s user validated)). reflexivity.
  - intros i Hi. unfold cart_items in Hi. apply filter_In in Hi.
    destruct Hi as [Hin Hu]. apply String.eqb_eq in Hu.
    unfold update_item, remove_item.
    rewrite (get_item_of_other s user other i Hid Hin Hu Hne). auto.
Qed.

Lemma carts_are_isolated_witness :
  cart_items (fst (checkout shop "amy@mail.example" (Some delivery)))
             "bob@mail.example"
  = cart_items shop "bob@mail.example"
  /\ remove_item shop "amy@mail.example" 2
     = (shop, Failure 404 "Cart item not found" []).
Proof.
  assert (Hwf : well_formed shop).
  { unfold well_formed. cbn.
    split; [|split]; repeat constructor; cbn; try lia;
      intros H; repeat destruct H as [H|H]; try discriminate; exact H. }
  assert (Hne : "bob@mail.example" <> "amy@mail.example") by discriminate.
  destruct (carts_are_isolated shop "amy@mail.example" "bob@mail.example"
              None None 2 None (Some delivery) Hwf Hne)
    as [_ [_ [_ [_ [H5 H6]]]]].
  split; [exact H5|].
  apply (H6 {| item_id := 2; cart_user := "bob@mail.example";
               product_id := 2; item_quantity := 1 |}).
  cbn. left. reflexivity.
Defined.

(** X24.  The views keep the rows of [CartItem] as the database requires
    them: primary keys stay unique and below the next key, and no cart gets
    a second row for a product it already holds ([add_item] adds to the row
    that is there), after each of the five requests. *)
Theorem cart_rows_stay_unique (s : Store) (user : string)
        (pid_sent q_sent : option Z) (k : Z) (q_update : option Z)
        (validated : option CheckoutData) :
  well_formed s ->
  well_formed (fst (add_item s user pid_sent q_sent))
  /\ well_formed (fst (update_item s user k q_update))
  /\ well_formed (fst (remove_item s user k))
  /\ well_formed (fst (clear s user))
  /\ well_formed (fst (checkout s user validated)).
Proof.
  intros Hwf. split; [|split; [|split; [|split]]].
  - destruct (add_item_outcome s user pid_sent q_sent)
      as [[-> _]|[pid [requested [product [_ [_ [_ [_ [[Hf [_ ->]]|[existing [Hf [_ ->]]]]]]]]]]]].
    + exact Hwf.
    + apply well_formed_insert; assumption.
    + apply find_cart_product in Hf. apply well_formed_save; tauto.
  - destruct (update_item_outcome s user k q_update)
      as [[-> _]|[cart_item [product [q [Hg [_ [_ [_ ->]]]]]]]]; [exact Hwf|].
    apply get_item_some in Hg. apply well_formed_save; tauto.
  - unfold remove_item. destruct (get_item s user k); [|exact Hwf].
    apply (well_formed_filter s _ Hwf).
  - apply (well_formed_filter s _ Hwf).
  - rewrite (proj1 (checkout_unchanged s user validated)). exact Hwf.
Qed.

Lemma cart_rows_stay_unique_witness :
  well_formed (fst (add_item shop "bob@mail.example" (Some 1%Z) None))
  /\ well_formed (fst (checkout shop "amy@mail.example" (Some delivery))).
Proof.
  assert (Hwf : well_formed shop).
  { unfold well_formed. cbn.
    split; [|split]; repeat constructor; cbn; try lia;
      intros H; repeat destruct H as [H|H]; try discriminate; exact H. }
  destruct (cart_rows_stay_unique shop "bob@mail.example" (Some 1%Z) None 0 None
              None Hwf) as [H1 _].
  destruct (cart_rows_stay_unique shop "amy@mail.example" None None 0 None
              (Some delivery) Hwf) as [_ [_ [_ [_ H5]]]].
  split; assumption.
Defined.

End CartProperties.

Section CheckoutFacts.
Import Py Models Cart CartCases.

Lemma available_purchasable (s : Store) (i : CartItem) (p : ProductListing) :
  product_of s i = Some p ->
  (CartItem_is_available p i = true <-> purchasable s i).
Proof.
  intros Hp. unfold CartItem_is_available, ProductListing_is_available, purchasable.
  rewrite !andb_true_iff, String.eqb_eq, Z.ltb_lt, Z.leb_le. split.
  - intros [[Ha Hq] Hi]. exists p. auto.
  - intros [p' [Hp' H]]. rewrite Hp in Hp'. injection Hp' as <-. tauto.
Qed.

(** [unavailable_items] lists nothing exactly when every item can be
    checked out. *)
Lemma unavailable_items_nil (s : Store) (cart : list CartItem) :
  unavailable_items s cart = Some [] <-> Forall (purchasable s) cart.
Proof.
  induction cart as [|i rest IH]; cbn [unavailable_items].
  - split; [constructor | reflexivity].
  - destruct (product_of s i) as [p|] eqn:Hp.
    + destruct (unavailable_items s rest) as [titles|].
      * destruct (CartItem_is_available p i) eqn:Ha; cbn [negb].
        -- split.
           ++ intros H. constructor; [|apply IH; exact H].
              apply (available_purchasable s i p Hp). exact Ha.
           ++ intros H. inversion H; subst. apply IH. assumption.
        -- split; [discriminate|]. intros H. inversion H as [|? ? Hi _]; subst.
           apply (available_purchasable s i p Hp) in Hi. congruence.
      * split; [discriminate|]. intros H. inversion H as [|? ? _ Hr]; subst.
        apply IH in Hr. discriminate.
    + split; [discriminate|]. intros H. inversion H as [|? ? [p [Hp' _]] _]; subst.
      congruence.
Qed.

End CheckoutFacts.

Section CheckoutProperties.
Import Py Models Cart CartCases.

(** X25.  [checkout] never creates an order.  The name [transaction] is
    not bound in [views.py], so the [with] statement of a checkout that
    passed every check raises and the request is answered 500: a cart
    that is not empty, whose items can all be bought, with valid checkout
    data gets [Checkout failed].  An empty cart is answered 400.  Whatever
    the request, no answer is a success and every table, orders, stock and
    carts, stays as it was. *)
Theorem checkout_never_succeeds (s : Store) (user : string)
        (validated : option CheckoutData) :
  fst (checkout s user validated) = s
  /\ (forall st m, snd (checkout s user validated) <> Success st m)
  /\ (cart_items s user <> [] ->
      Forall (purchasable s) (cart_items s user) ->
      validated <> None ->
      snd (checkout s user validated) = Failure 500 "Checkout failed" [])
  /\ (cart_items s user = [] ->
      snd (checkout s user validated) = Failure 400 "Cart is empty" []).
Proof.
  split; [apply checkout_unchanged|]. split; [apply checkout_unchanged|]. split.
  - intros Hne Hall Hv. unfold checkout, is_empty.
    destruct (cart_items s user) as [|i0 cart0] eqn:Ec; [contradiction|].
    cbn [List.length Nat.eqb].
    rewrite (proj2 (unavailable_items_nil s (i0 :: cart0)) Hall).
    destruct validated as [data|]; [|contradiction].
    rewrite transaction_unbound. reflexivity.
  - intros E. unfold checkout, is_empty. rewrite E. reflexivity.
Qed.

(** The checkout of a cart that holds three units of an available
    product, with valid data. *)
Example checkout_of_a_good_cart :
  checkout shop "amy@mail.example" (Some delivery)
  = (shop, Failure 500 "Checkout failed" []).
Proof. reflexivity. Qed.

End CheckoutProperties.

Section CartEffects.
Import Py Models Cart CartCases.

Lemma find_map_same {A : Type} (P : A -> bool) (g : A -> A) (l : list A) :
  (forall i, In i l -> P (g i) = P i) ->
  find P (map g l) = option_map g (find P l).
Proof.
  induction l as [|a l IH]; intros H; [reflexivity|]. cbn [map find].
  rewrite (H a (or_introl eq_refl)). destruct (P a); [reflexivity|].
  apply IH. intros i Hi. apply H. right. exact Hi.
Qed.

Lemma fold_Zadd_app (a b : list Z) :
  fold_right Z.add 0%Z (a ++ b) = (fold_right Z.add 0 a + fold_right Z.add 0 b)%Z.
Proof. induction a as [|x a IH]; cbn [app fold_right]; [reflexivity | lia]. Qed.

Lemma find_all_false {A : Type} (P : A -> bool) (l : list A) :
  (forall i, In i l -> P i = false) -> find P l = None.
Proof.
  induction l as [|a l IH]; intros H; [reflexivity|]. cbn [find].
  rewrite (H a (or_introl eq_refl)). apply IH. intros i Hi. apply H. right. exact Hi.
Qed.

(** Under unique primary keys a row splits the table in two parts that do
    not hold its key. *)
Lemma split_by_id (l : list CartItem) (old : CartItem) :
  NoDup (map item_id l) -> In old l ->
  exists l1 l2, l = (l1 ++ old :: l2)%list
                /\ Forall (fun i => item_id i <> item_id old) (l1 ++ l2).
Proof.
  intros Hnd Hin. destruct (in_split _ _ Hin) as [l1 [l2 ->]].
  exists l1, l2. split; [reflexivity|].
  rewrite map_app in Hnd. cbn [map] in Hnd. apply NoDup_remove_2 in Hnd.
  rewrite <- map_app in Hnd. apply Forall_forall. intros i Hi E.
  apply Hnd. rewrite <- E. apply in_map. exact Hi.
Qed.

Lemma save_item_split (s : Store) (old : CartItem) (q : Z) (l1 l2 : list CartItem) :
  items s = (l1 ++ old :: l2)%list ->
  Forall (fun i => item_id i <> item_id old) (l1 ++ l2) ->
  items (save_item s (with_item_quantity old q))
  = (l1 ++ with_item_quantity old q :: l2)%list.
Proof.
  intros E H. unfold save_item. cbn [items item_id with_item_quantity]. rewrite E.
  apply Forall_app in H. destruct H as [H1 H2]. rewrite Forall_forall in H1, H2.
  rewrite map_app. cbn [map]. rewrite Z.eqb_refl. f_equal; [|f_equal].
  - rewrite <- (map_id l1) at 2. apply map_ext_in. intros i Hi.
    destruct (Z.eqb_spec (item_id i) (item_id old)) as [Ei|_]; [|reflexivity].
    exfalso. exact (H1 i Hi Ei).
  - rewrite <- (map_id l2) at 2. apply map_ext_in. intros i Hi.
    destruct (Z.eqb_spec (item_id i) (item_id old)) as [Ei|_]; [|reflexivity].
    exfalso. exact (H2 i Hi Ei).
Qed.

Lemma delete_item_split (s : Store) (old : CartItem) (l1 l2 : list CartItem) :
  items s = (l1 ++ old :: l2)%list ->
  Forall (fun i => item_id i <> item_id old) (l1 ++ l2) ->
  items (delete_item s old) = (l1 ++ l2)%list.
Proof.
  intros E H. unfold delete_item. cbn [items]. rewrite E.
  assert (Hkeep : forall l, Forall (fun i => item_id i <> item_id old) l ->
                            filter (fun i => negb (item_id i =? item_id old)%Z) l = l).
  { induction 1 as [|i l Hi _ IH]; [reflexivity|]. cbn [filter].
    destruct (Z.eqb_spec (item_id i) (item_id old)); [contradiction|].
    cbn [negb]. rewrite IH. reflexivity. }
  apply Forall_app in H. destruct H as [H1 H2].
  rewrite filter_app. cbn [filter]. rewrite Z.eqb_refl. cbn [negb].
  rewrite (Hkeep l1 H1), (Hkeep l2 H2). reflexivity.
Qed.

Lemma total_items_split (s : Store) (user : string) (i : CartItem)
      (l1 l2 : list CartItem) :
  items s = (l1 ++ i :: l2)%list -> cart_user i = user ->
  total_items s user
  = (fold_right Z.add 0 (map item_quantity (filter (fun i => String.eqb (cart_user i) user)
                                                   (l1 ++ l2)))
     + item_quantity i)%Z.
Proof.
  intros E Hu. unfold total_items, cart_items. rewrite E, !filter_app. cbn [filter].
  rewrite Hu, String.eqb_refl, !map_app, !fold_Zadd_app. cbn [map fold_right]. lia.
Qed.

Lemma total_items_without (s : Store) (user : string) (l : list CartItem) :
  items s = l ->
  total_items s user
  = fold_right Z.add 0%Z
      (map item_quantity (filter (fun i => String.eqb (cart_user i) user) l)).
Proof. intros <-. reflexivity. Qed.

(** The quantity held after a row of the cart is saved with a new
    quantity. *)
Lemma held_save (s : Store) (user : string) (old : CartItem) (q k : Z) :
  well_formed s -> In old (items s) -> cart_user old = user ->
  held (save_item s (with_item_quantity old q)) user k
  = if (k =? product_id old)%Z then q else held s user k.
Proof.
  intros [Hid [_ Hkey]] Hin Hu. unfold held, save_item.
  cbn [items item_id with_item_quantity].
  rewrite find_map_same.
  - destruct (find _ (items s)) as [j|] eqn:Ef; cbn [option_map].
    + apply find_cart_product in Ef. destruct Ef as [Hj [Huj Hpj]].
      destruct (Z.eqb_spec k (product_id old)) as [Ek|Ek].
      * assert (j = old).
        { apply (NoDup_map_In_inj (fun i => (cart_user i, product_id i)) (items s));
            [assumption | assumption | assumption | cbn beta; congruence]. }
        subst j. rewrite Z.eqb_refl. reflexivity.
      * destruct (Z.eqb_spec (item_id j) (item_id old)) as [Ei|_]; [|reflexivity].
        assert (j = old)
          by (apply (NoDup_map_In_inj item_id (items s)); assumption).
        subst j. congruence.
    + destruct (Z.eqb_spec k (product_id old)) as [Ek|Ek]; [|reflexivity].
      exfalso. pose proof (find_none _ _ Ef old Hin) as Hb. cbn beta in Hb.
      rewrite Hu, Ek, String.eqb_refl, Z.eqb_refl in Hb. discriminate.
  - intros i Hi. destruct (Z.eqb_spec (item_id i) (item_id old)) as [Ei|_];
      [|reflexivity].
    assert (i = old) by (apply (NoDup_map_In_inj item_id (items s)); assumption).
    subst i. reflexivity.
Qed.

Lemma held_delete (s : Store) (user : string) (old : CartItem) :
  well_formed s -> In old (items s) -> cart_user old = user ->
  held (delete_item s old) user (product_id old) = 0%Z.
Proof.
  intros [Hid [_ Hkey]] Hin Hu. unfold held, delete_item. cbn [items].
  rewrite find_all_false; [reflexivity|].
  intros j Hj. apply filter_In in Hj. destruct Hj as [Hj Hne].
  destruct (String.eqb_spec (cart_user j) user) as [Euj|_]; [|reflexivity].
  destruct (Z.eqb_spec (product_id j) (product_id old)) as [Epj|_]; [|reflexivity].
  exfalso.
  assert (j = old).
  { apply (NoDup_map_In_inj (fun i => (cart_user i, product_id i)) (items s));
      [assumption | assumption | assumption | cbn beta; congruence]. }
  subst j. rewrite Z.eqb_refl in Hne. discriminate.
Qed.

(** X28.  A successful [add_item] accumulates: the quantity the cart holds
    of the product grows by exactly the quantity asked, whether the product
    was in the cart or not, and stays within the stock; the quantities of
    the other products of the cart do not change; the number of items of
    the cart grows by the quantity asked; no product and no order
    changes. *)
Theorem add_item_accumulates (s s' : Store) (user : string)
        (pid_sent q_sent : option Z) (st : nat) (m : string) :
  well_formed s ->
  add_item s user pid_sent q_sent = (s', Success st m) ->
  exists pid requested product,
    pid_sent = Some pid
    /\ (q_sent = Some requested \/ q_sent = None /\ requested = 1%Z)
    /\ products s pid = Some product
    /\ held s' user pid = (held s user pid + requested)%Z
    /\ (held s' user pid <= Models.quantity product)%Z
    /\ (forall k, k <> pid -> held s' user k = held s user k)
    /\ total_items s' user = (total_items s user + requested)%Z
    /\ products s' = products s
    /\ orders s' = orders s.
Proof.
  intros Hwf H.
  pose proof (f_equal fst H) as Hs. pose proof (f_equal snd H) as Hr.
  cbn [fst snd] in Hs, Hr. clear H.
  destruct (add_item_outcome s user pid_sent q_sent)
    as [[_ [E|[E|[n [t E]]]]]|[pid [requested [product [Hser [Hp [_ [_ Hcase]]]]]]]];
    try (rewrite E in Hr; discriminate).
  destruct (AddToCartSerializer_valid _ _ _ _ Hser) as [Hpid [_ Hq]].
  exists pid, requested, product. split; [exact Hpid|]. split; [exact Hq|].
  split; [exact Hp|].
  destruct Hcase as [[Hf [Hle E]]|[existing [Hf [Hle E]]]]; rewrite E in Hs; subst s'.
  - assert (Hheld : held s user pid = 0%Z) by (unfold held; rewrite Hf; reflexivity).
    assert (Hnew : held (fst (insert_item s user pid requested)) user pid = requested).
    { unfold held, insert_item. cbn [fst items find cart_user product_id].
      rewrite String.eqb_refl, Z.eqb_refl. reflexivity. }
    rewrite Hnew, Hheld. split; [lia|]. split; [lia|]. split; [|split].
    + intros k Hk. unfold held, insert_item. cbn [fst items find cart_user product_id].
      destruct (Z.eqb_spec pid k); [congruence|]. rewrite andb_false_r. reflexivity.
    + unfold total_items, cart_items, insert_item. cbn [fst items filter cart_user].
      rewrite String.eqb_refl. cbn [map fold_right item_quantity]. lia.
    + split; reflexivity.
  - pose proof (find_cart_product _ _ _ _ Hf) as [Hin [Hu Hpe]].
    assert (Hheld : held s user pid = item_quantity existing)
      by (unfold held; rewrite Hf; reflexivity).
    rewrite Hheld. rewrite (held_save s user existing _ pid Hwf Hin Hu).
    rewrite Hpe, Z.eqb_refl. split; [reflexivity|]. split; [exact Hle|].
    split; [|split].
    + intros k Hk. rewrite (held_save s user existing _ k Hwf Hin Hu), Hpe.
      destruct (Z.eqb_spec k pid); [contradiction | reflexivity].
    + destruct Hwf as [Hid _].
      destruct (split_by_id (items s) existing Hid Hin) as [l1 [l2 [El Hne]]].
      rewrite (total_items_split s user existing l1 l2 El Hu).
      rewrite (total_items_split _ user (with_item_quantity existing
                                           (item_quantity existing + requested)) l1 l2
                 (save_item_split s existing _ l1 l2 El Hne) Hu).
      cbn [item_quantity with_item_quantity]. lia.
    + split; reflexivity.
Qed.

Lemma add_item_accumulates_witness :
  exists s',
    add_item shop "amy@mail.example" (Some 1%Z) (Some 4%Z)
    = (s', Success 200 "Item added to cart")
    /\ held s' "amy@mail.example" 1 = 7%Z.
Proof.
  assert (Hwf : well_formed shop).
  { unfold well_formed. cbn.
    split; [|split]; repeat constructor; cbn; try lia;
      intros H; repeat destruct H as [H|H]; try discriminate; exact H. }
  eexists. split; [reflexivity|].
  destruct (add_item_accumulates shop _ "amy@mail.example" (Some 1%Z) (Some 4%Z) 200
              "Item added to cart" Hwf eq_refl)
    as [pid [requested [product [Hpid [Hq [_ [Hheld _]]]]]]].
  injection Hpid as <-. destruct Hq as [Hq|[Hq _]]; [|discriminate].
  injection Hq as <-. exact Hheld.
Defined.

(** X29.  A successful [update_item] sets the quantity the cart holds of
    the product of the item to the quantity sent, which is at least one; a
    successful [remove_item] leaves the cart with none of that product; in
    both cases the number of items of the cart changes by exactly that
    difference.  After [clear] the cart is empty, with no items and a
    subtotal of zero. *)
Theorem cart_edits_take_effect (s : Store) (user : string) (k q : Z) :
  well_formed s ->
  (forall s' st m,
      update_item s user k (Some q) = (s', Success st m) ->
      exists item,
        get_item s user k = Some item
        /\ (1 <= q)%Z
        /\ held s' user (product_id item) = q
        /\ total_items s' user = (total_items s user - item_quantity item + q)%Z)
  /\ (forall s' st m,
        remove_item s user k = (s', Success st m) ->
        exists item,
          get_item s user k = Some item
          /\ held s' user (product_id item) = 0%Z
          /\ total_items s' user = (total_items s user - item_quantity item)%Z)
  /\ is_empty (fst (clear s user)) user = true
  /\ total_items (fst (clear s user)) user = 0%Z
  /\ subtotal (fst (clear s user)) user = Some 0%Q.
Proof.
  intros Hwf. pose proof Hwf as [Hid _]. split; [|split].
  - intros s' st m H.
    destruct (update_item_outcome s user k (Some q))
      as [[_ Hno]|[item [product [q' [Hg [_ [_ [Hcase E]]]]]]]].
    + exfalso. apply (Hno st m). rewrite H. reflexivity.
    + destruct Hcase as [[Eq Hq]|[Eq _]]; [|discriminate]. injection Eq as <-.
      rewrite E in H. injection H as <- _ _.
      pose proof (get_item_some _ _ _ _ Hg) as [Hin [_ Hu]].
      exists item. split; [exact Hg|]. split; [exact Hq|]. split.
      * rewrite (held_save s user item q _ Hwf Hin Hu), Z.eqb_refl. reflexivity.
      * destruct (split_by_id (items s) item Hid Hin) as [l1 [l2 [El Hne]]].
        rewrite (total_items_split s user item l1 l2 El Hu).
        rewrite (total_items_split _ user (with_item_quantity item q) l1 l2
                   (save_item_split s item q l1 l2 El Hne) Hu).
        cbn [item_quantity with_item_quantity]. lia.
  - intros s' st m H. unfold remove_item in H |- *.
    destruct (get_item s user k) as [item|] eqn:Hg; [|discriminate].
    injection H as <- _ _.
    pose proof (get_item_some _ _ _ _ Hg) as [Hin [_ Hu]].
    exists item. split; [reflexivity|]. split.
    + apply held_delete; assumption.
    + destruct (split_by_id (items s) item Hid Hin) as [l1 [l2 [El Hne]]].
      rewrite (total_items_split s user item l1 l2 El Hu).
      rewrite (total_items_without _ user (l1 ++ l2)
                 (delete_item_split s item l1 l2 El Hne)). lia.
  - unfold clear, is_empty, total_items, subtotal. cbn [fst].
    rewrite delete_cart_own_cart. repeat split; reflexivity.
Qed.

Lemma cart_edits_take_effect_witness :
  exists s',
    update_item shop "amy@mail.example" 1 (Some 10%Z)
    = (s', Success 200 "Cart updated")
    /\ held s' "amy@mail.example" 1 = 10%Z.
Proof.
  assert (Hwf : well_formed shop).
  { unfold well_formed. cbn.
    split; [|split]; repeat constructor; cbn; try lia;
      intros H; repeat destruct H as [H|H]; try discriminate; exact H. }
  eexists. split; [reflexivity|].
  destruct (cart_edits_take_effect shop "amy@mail.example" 1 10 Hwf) as [H _].
  destruct (H _ 200 "Cart updated" eq_refl) as [item [Hg [_ [Hheld _]]]].
  cbn in Hg. injection Hg as <-. exact Hheld.
Defined.

End CartEffects.
